(** * Content-policy engine and safe web-access gateway

    A shallow embedding of the decision logic of
    [fixed_content_policy.py], [content_policy_module.py] and
    [fixed_web_access.py], with the properties of the specification stated
    and settled against it.

    Conventions of the embedding.
    - Text is a [string] holding the UTF-8 encoding of the Python [str]:
      a character of the text is one to four bytes, the first of which is
      not a continuation byte. Lengths and slices count characters, and
      white space is that of [str.isspace()].
    - Python [float]s are the kernel's binary64 floats ([PrimFloat]).
    - Wall-clock readings ([datetime.now()], [time.time()]) are integers
      counting microseconds, those of [datetime.now()] from
      [datetime.min]; a call that reads the clock takes the reading as its
      argument [now], or finds it in the state it threads.
    - A [dict] whose iteration order is observable is an association list
      in insertion order; a [dict] that is only looked up, written and
      deleted by key is a [gmap].
    - Library functions of Python that the source calls (regular
      expressions, digests, case folding, URL parsing, number formatting)
      are the fields of a [Runtime]; an exception raised by one of them is
      a [Raise] result. *)

From Stdlib Require Import Floats ZArith String Ascii List Bool Lia.
From stdpp Require Import gmap strings list.

#[local] Set Warnings "-inexact-float".
#[local] Open Scope Z_scope.
#[local] Open Scope string_scope.

(** ** Python built-ins used by the source *)

Module Py.

(** [sub in s] on strings. *)
Fixpoint str_in (sub s : string) : bool :=
  String.prefix sub s ||
  match s with
  | EmptyString => false
  | String _ t => str_in sub t
  end.

(** [s.startswith(p)]. *)
Definition startswith (s p : string) : bool := String.prefix p s.

(** A byte that continues the character begun before it. *)
Definition is_continuation (c : ascii) : bool :=
  let n := nat_of_ascii c in ((128 <=? n) && (n <=? 191))%nat.

(** [len(s)]: the number of characters. *)
Fixpoint len (s : string) : nat :=
  match s with
  | EmptyString => O
  | String c t => if is_continuation c then len t else S (len t)
  end.

(** [s[n:]] for a text whose first [n] characters are of one byte each,
    as are those of the prefix ["www."] that the source drops. *)
Fixpoint str_drop (n : nat) (s : string) : string :=
  match n, s with
  | O, _ => s
  | S _, EmptyString => EmptyString
  | S k, String _ t => str_drop k t
  end.

(** [s[:n]]: the first [n] characters, each with the bytes that continue
    it. *)
Fixpoint str_take (n : nat) (s : string) {struct s} : string :=
  match s with
  | EmptyString => EmptyString
  | String c t =>
      if is_continuation c then String c (str_take n t)
      else
        match n with
        | O => EmptyString
        | S k => String c (str_take k t)
        end
  end.

(** [s.count(sub)] for a non-empty [sub]: occurrences are counted from the
    left and do not overlap; [skip] is the number of characters still
    covered by the occurrence just counted. *)
Fixpoint count_skip (sub : string) (skip : nat) (s : string) : nat :=
  match s with
  | EmptyString => O
  | String _ t =>
      match skip with
      | S k => count_skip sub k t
      | O =>
          if String.prefix sub s
          then S (count_skip sub (String.length sub - 1) t)
          else count_skip sub O t
      end
  end.

Definition str_count (s sub : string) : nat :=
  match sub with
  | EmptyString => S (len s)
  | _ => count_skip sub O s
  end.

(** [c.isspace()] for a character of one byte: U+0009 to U+000D and
    U+001C to U+0020. *)
Definition isspace (c : ascii) : bool :=
  let n := nat_of_ascii c in
  ((9 <=? n) && (n <=? 13) || (28 <=? n) && (n <=? 32))%nat.

(** [isspace()] for a character of two bytes: U+0085 and U+00A0. *)
Definition isspace2 (c d : ascii) : bool :=
  let c := nat_of_ascii c in
  let d := nat_of_ascii d in
  ((c =? 194) && ((d =? 133) || (d =? 160)))%nat.

(** [isspace()] for a character of three bytes: U+1680, U+2000 to U+200A,
    U+2028, U+2029, U+202F, U+205F and U+3000. No character of four bytes
    is white space. *)
Definition isspace3 (c d e : ascii) : bool :=
  let c := nat_of_ascii c in
  let d := nat_of_ascii d in
  let e := nat_of_ascii e in
  ((c =? 225) && (d =? 154) && (e =? 128)
   || (c =? 226) && (d =? 128)
      && ((128 <=? e) && (e <=? 138) || (e =? 168) || (e =? 169) || (e =? 175))
   || (c =? 226) && (d =? 129) && (e =? 159)
   || (c =? 227) && (d =? 128) && (e =? 128))%nat.

(** [s.lstrip()]. *)
Fixpoint lstrip (s : string) : string :=
  match s with
  | EmptyString => EmptyString
  | String c t =>
      if isspace c then lstrip t
      else
        match t with
        | EmptyString => s
        | String d t' =>
            if isspace2 c d then lstrip t'
            else
              match t' with
              | EmptyString => s
              | String e t'' => if isspace3 c d e then lstrip t'' else s
              end
        end
  end.

(** Whether [s] is one white-space character. *)
Definition is_space_char (s : string) : bool :=
  match s with
  | String c EmptyString => isspace c
  | String c (String d EmptyString) => isspace2 c d
  | String c (String d (String e EmptyString)) => isspace3 c d e
  | _ => false
  end.

(** [s.rstrip()]: read from the right, what is kept is dropped as long as
    it is one white-space character. *)
Fixpoint rstrip (s : string) : string :=
  match s with
  | EmptyString => EmptyString
  | String c t =>
      let kept := String c (rstrip t) in
      if is_space_char kept then EmptyString else kept
  end.

(** [s.strip()]. *)
Definition strip (s : string) : string := rstrip (lstrip s).

(** The test [not s or len(s.strip()) == 0]. *)
Definition is_blank (s : string) : bool :=
  String.eqb s "" || (len (strip s) =? 0)%nat.

(** [s.endswith(suffix)]. *)
Fixpoint endswith (s suffix : string) : bool :=
  String.eqb s suffix ||
  match s with
  | EmptyString => false
  | String _ t => endswith t suffix
  end.

(** [s.split()]: the maximal runs of non-space characters; [cur] is the
    word being read, its characters in reverse. *)
Fixpoint split_go (cur : list ascii) (s : string) : list string :=
  let flush :=
    match cur with
    | [] => []
    | _ => [string_of_list_ascii (rev cur)]
    end in
  match s with
  | EmptyString => flush
  | String c t =>
      if isspace c then flush ++ split_go [] t
      else
        match t with
        | EmptyString => split_go (c :: cur) t
        | String d t' =>
            if isspace2 c d then flush ++ split_go [] t'
            else
              match t' with
              | EmptyString => split_go (c :: cur) t
              | String e t'' =>
                  if isspace3 c d e then flush ++ split_go [] t''
                  else split_go (c :: cur) t
              end
        end
  end.

Definition split (s : string) : list string := split_go [] s.

(** [s.replace(a, b)] for single characters [a] and [b]. *)
Fixpoint replace_char (a b : ascii) (s : string) : string :=
  match s with
  | EmptyString => EmptyString
  | String c t =>
      String (if Ascii.eqb c a then b else c) (replace_char a b t)
  end.

(** [sep.join(l)]. *)
Fixpoint join (sep : string) (l : list string) : string :=
  match l with
  | [] => EmptyString
  | [x] => x
  | x :: r => x +:+ sep +:+ join sep r
  end.

(** [min(a, b)] and [max(a, b)] on floats: the first argument is kept unless
    the second is strictly smaller (resp. larger). *)
Definition fmin (a b : float) : float := if PrimFloat.ltb b a then b else a.
Definition fmax (a b : float) : float := if PrimFloat.ltb a b then b else a.

(** [a > b] and [a >= b] on floats. *)
Definition fgt (a b : float) : bool := PrimFloat.ltb b a.
Definition fge (a b : float) : bool := PrimFloat.leb b a.

(** An [int] count as a [float]. *)
Definition float_of_nat (n : nat) : float :=
  PrimFloat.of_uint63 (Uint63.of_Z (Z.of_nat n)).

(** A computation of the source that may raise: its value, or the text of
    the exception ([str(e)]). *)
Inductive result (A : Type) : Type :=
| Ok (a : A)
| Raise (msg : string).
Arguments Ok {A} a.
Arguments Raise {A} msg.

Definition bind {A B : Type} (r : result A) (k : A -> result B) : result B :=
  match r with
  | Ok a => k a
  | Raise msg => Raise msg
  end.

(** The library functions the source calls. *)
Class Runtime := {
  (** [s.lower()] *)
  str_lower : string -> string;
  (** [re.search(pattern, text)] finds a match; raises when the pattern
      does not compile ([re.error]). *)
  re_search : string -> string -> result bool;
  (** [re.search(pattern, text, re.IGNORECASE)], likewise. *)
  re_search_ignorecase : string -> string -> result bool;
  (** [hashlib.md5(s.encode('utf-8')).hexdigest()]; raises when the text
      cannot be encoded ([UnicodeEncodeError]). *)
  md5_hexdigest : string -> result string;
  (** [hashlib.sha256(s.encode('utf-8')).hexdigest()], likewise. *)
  sha256_hexdigest : string -> result string;
  (** [d.isoformat()] of a clock reading. *)
  isoformat : Z -> string;
  (** [f"{x:.2f}"]. *)
  format_2f : float -> string;
  (** [urlparse(url)]: its scheme and network location; raises
      [ValueError] on a malformed location. *)
  urlparse : string -> result (string * string)
}.

(** One hour and one second in clock units. *)
Definition second : Z := 1000000.
Definition hour : Z := 3600 * second.

Notation "'let?' x ':=' r 'in' k" := (bind r (fun x => k))
  (at level 10, x name, r at level 100, k at level 200).

(** [datetime.max], counted from [datetime.min]: the last microsecond of
    the year 9999, 3652059 days after the first of the year 1. *)
Definition datetime_max : Z := 3652059 * 24 * hour - 1.

(** [timedelta(hours=h)]: [OverflowError] when the number of days, [h]
    divided by 24 and rounded down, is above 999999999 in magnitude. The
    text of the error is not kept. *)
Definition timedelta_hours (h : Z) : result Z :=
  if ((-999999999 <=? h / 24) && (h / 24 <=? 999999999))%Z then Ok (h * hour)
  else Raise "OverflowError".

(** [d + delta] for a [datetime] and a [timedelta]: [OverflowError] when
    the sum is outside the years 1 to 9999. *)
Definition datetime_add (d delta : Z) : result Z :=
  let sum := d + delta in
  if ((0 <=? sum) && (sum <=? datetime_max))%Z then Ok sum
  else Raise "date value out of range".

(** [now + timedelta(hours=h)]. *)
Definition add_hours (now h : Z) : result Z :=
  let? delta := timedelta_hours h in
  datetime_add now delta.

End Py.

Import Py.

(** ** The enumerations of both policy modules *)

(** [class ContentLevel(Enum)]. *)
Module ContentLevel.

Inductive t : Set := SAFE | EDUCATIONAL | RESEARCH | UNRESTRICTED.

(** The member's [.value]. *)
Definition value (l : t) : string :=
  match l with
  | SAFE => "safe"
  | EDUCATIONAL => "educational"
  | RESEARCH => "research"
  | UNRESTRICTED => "unrestricted"
  end.

Definition all : list t := [SAFE; EDUCATIONAL; RESEARCH; UNRESTRICTED].

(** [ContentLevel(s)]: the member whose value is [s]; [ValueError]
    otherwise. *)
Definition of_value (s : string) : result t :=
  match find (fun l => String.eqb (value l) s) all with
  | Some l => Ok l
  | None => Raise ("'" +:+ s +:+ "' is not a valid ContentLevel")
  end.

(** The [level_hierarchy] table of [verify_authorization]. *)
Definition hierarchy (l : t) : Z :=
  match l with
  | SAFE => 0
  | EDUCATIONAL => 1
  | RESEARCH => 2
  | UNRESTRICTED => 3
  end.

#[global] Instance eq_dec : EqDecision t.
Proof. solve_decision. Defined.

#[global] Instance countable : Countable t.
Proof.
  refine (inj_countable' (fun l => Z.to_nat (hierarchy l))
            (fun n => nth n all SAFE) _).
  intros []; reflexivity.
Defined.

End ContentLevel.

(** [class ContentCategory(Enum)]. *)
Module ContentCategory.

Inductive t : Set :=
| VIOLENCE | ADULT | HATE_SPEECH | ILLEGAL | MEDICAL
| POLITICAL | CONTROVERSIAL | EDUCATIONAL | TECHNICAL | CREATIVE.

Definition value (c : t) : string :=
  match c with
  | VIOLENCE => "violence"
  | ADULT => "adult"
  | HATE_SPEECH => "hate_speech"
  | ILLEGAL => "illegal"
  | MEDICAL => "medical"
  | POLITICAL => "political"
  | CONTROVERSIAL => "controversial"
  | EDUCATIONAL => "educational"
  | TECHNICAL => "technical"
  | CREATIVE => "creative"
  end.

Definition all : list t :=
  [VIOLENCE; ADULT; HATE_SPEECH; ILLEGAL; MEDICAL;
   POLITICAL; CONTROVERSIAL; EDUCATIONAL; TECHNICAL; CREATIVE].

(** [ContentCategory(s)]. *)
Definition of_value (s : string) : result t :=
  match find (fun c => String.eqb (value c) s) all with
  | Some c => Ok c
  | None => Raise ("'" +:+ s +:+ "' is not a valid ContentCategory")
  end.

#[global] Instance eq_dec : EqDecision t.
Proof. solve_decision. Defined.

(** The position of a member in the class body. *)
Definition index (c : t) : nat :=
  match c with
  | VIOLENCE => 0 | ADULT => 1 | HATE_SPEECH => 2 | ILLEGAL => 3
  | MEDICAL => 4 | POLITICAL => 5 | CONTROVERSIAL => 6 | EDUCATIONAL => 7
  | TECHNICAL => 8 | CREATIVE => 9
  end%nat.

#[global] Instance countable : Countable t.
Proof.
  refine (inj_countable' index (fun n => nth n all VIOLENCE) _).
  intros []; reflexivity.
Defined.

End ContentCategory.

(** ** A runtime to compute with

    The concrete instances below are evaluated with this runtime. It
    answers as CPython does on the inputs they use: ASCII text, patterns
    that are plain words (searched as such) or that leave a parenthesis
    open (refused), and URLs of the form [scheme://location/path]. Digests
    are replaced by stand-ins that keep distinct texts distinct. *)

Module AsciiRuntime.

Definition lower_char (c : ascii) : ascii :=
  let n := nat_of_ascii c in
  if ((65 <=? n) && (n <=? 90))%nat then ascii_of_nat (n + 32) else c.

Fixpoint lower (s : string) : string :=
  match s with
  | EmptyString => EmptyString
  | String c t => String (lower_char c) (lower t)
  end.

(** The number of parentheses left open, or [None] when one is closed
    that was never opened. *)
Fixpoint open_parens (depth : nat) (s : string) : option nat :=
  match s with
  | EmptyString => Some depth
  | String "(" t => open_parens (S depth) t
  | String ")" t =>
      match depth with
      | O => None
      | S d => open_parens d t
      end
  | String _ t => open_parens depth t
  end.

Definition search (pattern text : string) : result bool :=
  match open_parens 0 pattern with
  | Some O => Ok (str_in pattern text)
  | Some (S _) => Raise "missing ), unterminated subpattern"
  | None => Raise "unbalanced parenthesis"
  end.

(** The text before the first occurrence of one of [stops]. *)
Fixpoint take_until (stops : list ascii) (s : string) : string :=
  match s with
  | EmptyString => EmptyString
  | String c t =>
      if existsb (Ascii.eqb c) stops then EmptyString
      else String c (take_until stops t)
  end.

(** The scheme and the network location as [urlsplit] finds them: the
    scheme ends at the first colon, the location follows ["//"] and ends
    before the first of [/], [?] and [#]; square brackets must pair. *)
Definition parse_url (url : string) : result (string * string) :=
  let scheme := take_until [":"%char] url in
  let rest := str_drop (S (String.length scheme)) url in
  let '(scheme, rest) :=
    if (String.length scheme <? String.length url)%nat
       && negb (String.eqb scheme "")
    then (lower scheme, rest) else ("", url) in
  let netloc :=
    if startswith rest "//"
    then take_until ["/"; "?"; "#"]%char (str_drop 2 rest)
    else "" in
  if xorb (str_in "[" netloc) (str_in "]" netloc)
  then Raise "Invalid IPv6 URL"
  else Ok (scheme, netloc).

#[export] Instance runtime : Runtime := {|
  str_lower := lower;
  re_search := search;
  re_search_ignorecase := fun pattern text => search (lower pattern) (lower text);
  md5_hexdigest := fun s => Ok ("md5:" +:+ s);
  sha256_hexdigest := fun s => Ok ("sha256:" +:+ s);
  isoformat := fun _ => "";
  format_2f := fun _ => "";
  urlparse := parse_url
|}.

End AsciiRuntime.

(** ** [fixed_content_policy.py]: the adaptive content policy *)

Module FixedContentPolicy.

(** What [self.current_level] holds: [__init__] stores the enumeration
    member [ContentLevel.SAFE], [set_policy_level] stores the level's name
    as a [str]. A member is not equal to any [str]. *)
Inductive level_ref : Type :=
| Member (l : ContentLevel.t)
| Name (s : string).

(** An entry of [self.session_tokens]. *)
Record session : Type := {
  user_id : string;
  level : string;
  expiry : Z
}.

(** An entry of [self.temporary_overrides]. *)
Record override_info : Type := {
  ov_expiry : Z;
  ov_reason : string;
  created_by : string
}.

(** The dictionary [evaluate_content] returns; [block_reason] is the one
    key that may be absent. *)
Record evaluation_result : Type := {
  allowed : bool;
  policy_level : level_ref;
  category_scores : list (string * float);
  violations : list string;
  override_applied : bool;
  content_hash : string;
  evaluation_time : string;
  block_reason : option string
}.

(** Rows of the tables of [data/content_policy_log.db]. *)
Record evaluation_row : Type := {
  row_content_hash : string;
  row_policy_level : string;
  row_category_scores : list (string * float);
  row_final_decision : bool;
  row_block_reason : option string;
  row_user_context : option string;
  row_override_applied : bool
}.

Record policy_change_row : Type := {
  row_old_level : string;
  row_new_level : string;
  row_auth_token_hash : option string;
  row_reason : option string
}.

Record override_row : Type := {
  row_content_pattern : string;
  row_override_type : string;
  row_expiry : string;
  row_override_reason : string;
  row_authorized_by : string
}.

(** The audit store. [db_available] tells whether [sqlite3.connect] and the
    statement executed on the connection succeed. *)
Record database : Type := {
  db_available : bool;
  content_evaluations : list evaluation_row;
  policy_changes : list policy_change_row;
  content_overrides : list override_row
}.

(** The attributes of an [AdaptiveContentPolicy] instance, and its audit
    store. *)
Record AdaptiveContentPolicy : Type := {
  current_level : level_ref;
  session_tokens : gmap string session;
  policies : gmap string (gmap string float);
  temporary_overrides : list (string * override_info);
  db : database
}.

Definition set_current_level (v : level_ref) (self : AdaptiveContentPolicy) :=
  {| current_level := v;
     session_tokens := session_tokens self;
     policies := policies self;
     temporary_overrides := temporary_overrides self;
     db := db self |}.

Definition set_session_tokens (v : gmap string session)
    (self : AdaptiveContentPolicy) :=
  {| current_level := current_level self;
     session_tokens := v;
     policies := policies self;
     temporary_overrides := temporary_overrides self;
     db := db self |}.

Definition set_temporary_overrides (v : list (string * override_info))
    (self : AdaptiveContentPolicy) :=
  {| current_level := current_level self;
     session_tokens := session_tokens self;
     policies := policies self;
     temporary_overrides := v;
     db := db self |}.

Definition set_db (v : database) (self : AdaptiveContentPolicy) :=
  {| current_level := current_level self;
     session_tokens := session_tokens self;
     policies := policies self;
     temporary_overrides := temporary_overrides self;
     db := v |}.

(** [d[k] = v] on a dictionary kept in insertion order. *)
Fixpoint dict_set {V : Type} (k : string) (v : V) (d : list (string * V))
    : list (string * V) :=
  match d with
  | [] => [(k, v)]
  | (k', v') :: r =>
      if String.eqb k' k then (k, v) :: r else (k', v') :: dict_set k v r
  end.

(** [del d[k]]. *)
Definition dict_del {V : Type} (k : string) (d : list (string * V))
    : list (string * V) :=
  List.filter (fun kv => negb (String.eqb (fst kv) k)) d.

(** The [self.policies] table of [__init__]. *)
Definition initial_policies : gmap string (gmap string float) :=
  list_to_map [
    ("safe", list_to_map [
      ("violence", 0.1); ("adult", 0.0); ("hate_speech", 0.0);
      ("illegal", 0.0); ("medical", 0.3); ("political", 0.2);
      ("controversial", 0.2); ("educational", 1.0); ("technical", 1.0);
      ("creative", 0.8)]);
    ("educational", list_to_map [
      ("violence", 0.3); ("adult", 0.1); ("hate_speech", 0.1);
      ("illegal", 0.2); ("medical", 0.8); ("political", 0.7);
      ("controversial", 0.6); ("educational", 1.0); ("technical", 1.0);
      ("creative", 1.0)]);
    ("research", list_to_map [
      ("violence", 0.6); ("adult", 0.4); ("hate_speech", 0.3);
      ("illegal", 0.5); ("medical", 1.0); ("political", 1.0);
      ("controversial", 0.9); ("educational", 1.0); ("technical", 1.0);
      ("creative", 1.0)]);
    ("unrestricted", list_to_map [
      ("violence", 0.8); ("adult", 0.7); ("hate_speech", 0.5);
      ("illegal", 0.3); ("medical", 1.0); ("political", 1.0);
      ("controversial", 1.0); ("educational", 1.0); ("technical", 1.0);
      ("creative", 1.0)])
  ]%float.

(** The state [__init__] builds, over an audit store [d]. *)
Definition init (d : database) : AdaptiveContentPolicy :=
  {| current_level := Member ContentLevel.SAFE;
     session_tokens := ∅;
     policies := initial_policies;
     temporary_overrides := [];
     db := d |}.

(** The [level_hierarchy] dictionary of [verify_authorization], read with
    [.get(name, 0)]. *)
Definition level_hierarchy : list (string * Z) :=
  [("safe", 0); ("educational", 1); ("research", 2); ("unrestricted", 3)].

Definition level_hierarchy_get (name : string) : Z :=
  match find (fun kv => String.eqb (fst kv) name) level_hierarchy with
  | Some kv => snd kv
  | None => 0
  end.

Section Engine.

Context {rt : Runtime}.

(** [generate_auth_token(user_id, level, duration_hours)]: the token, and
    the session table with the token bound to its subject, level and
    expiry. A failure of the digest or of the computation of the expiry is
    caught and yields the empty token, with nothing stored. *)
Definition generate_auth_token (now : Z) (user_id level : string)
    (duration_hours : Z) (self : AdaptiveContentPolicy)
    : string * AdaptiveContentPolicy :=
  let token_data := user_id +:+ ":" +:+ level +:+ ":" +:+ isoformat now in
  let attempt :=
    let? digest := sha256_hexdigest token_data in
    let token := str_take 32 digest in
    let? expiry := add_hours now duration_hours in
    Ok (token,
        set_session_tokens
          (<[token := {| user_id := user_id; level := level; expiry := expiry |}]>
             (session_tokens self))
          self) in
  match attempt with
  | Ok outcome => outcome
  | Raise _ => ("", self)
  end.

(** [verify_authorization(token, required_level)]. A falsy token ([None]
    or the empty string, here the empty string) is refused before the
    session table is read. *)
Definition verify_authorization (now : Z) (token required_level : string)
    (self : AdaptiveContentPolicy) : bool * AdaptiveContentPolicy :=
  if String.eqb token "" then (false, self)
  else
    match session_tokens self !! token with
    | Some session =>
        if now >? expiry session then
          (false, set_session_tokens (delete token (session_tokens self)) self)
        else
          let token_level := level session in
          (level_hierarchy_get token_level >=? level_hierarchy_get required_level,
           self)
    | None => (false, self)
    end.

(** [log_policy_change]: the row is inserted when the token digest can be
    taken, the store is available and both levels are [str] values that
    sqlite3 can bind; every failure is caught and only logged. *)
Definition log_policy_change (old_level : level_ref) (new_level : string)
    (auth_token : string) (reason : option string)
    (self : AdaptiveContentPolicy) : AdaptiveContentPolicy :=
  let token_hash :=
    if String.eqb auth_token "" then Ok None
    else let? digest := sha256_hexdigest auth_token in
         Ok (Some (str_take 16 digest)) in
  match token_hash, old_level with
  | Ok token_hash, Name old_level =>
      if db_available (db self) then
        set_db
          {| db_available := true;
             content_evaluations := content_evaluations (db self);
             policy_changes :=
               policy_changes (db self) ++
               [{| row_old_level := old_level;
                   row_new_level := new_level;
                   row_auth_token_hash := token_hash;
                   row_reason := reason |}];
             content_overrides := content_overrides (db self) |}
          self
      else self
  | _, _ => self
  end.

(** [set_policy_level(level, auth_token, reason)]. *)
Definition set_policy_level (now : Z) (level auth_token : string)
    (reason : option string) (self : AdaptiveContentPolicy)
    : bool * AdaptiveContentPolicy :=
  let old_level := current_level self in
  match policies self !! level with
  | None => (false, self)
  | Some _ =>
      let '(authorized, self) :=
        if String.eqb level "research" || String.eqb level "unrestricted"
        then verify_authorization now auth_token level self
        else (true, self) in
      if negb authorized then (false, self)
      else
        let self := set_current_level (Name level) self in
        (true, log_policy_change old_level level auth_token reason self)
  end.

(** The loop of [check_temporary_overrides] over the override table:
    [Ok None] when an unexpired pattern matched (the function returns
    [True] at once), [Ok (Some expired_patterns)] when the loop ran to its
    end, [Raise] when [re.search] raised. *)
Fixpoint overrides_loop (now : Z) (content : string)
    (items : list (string * override_info)) (expired_patterns : list string)
    : result (option (list string)) :=
  match items with
  | [] => Ok (Some expired_patterns)
  | (pattern, override_info) :: rest =>
      if now >? ov_expiry override_info then
        overrides_loop now content rest (expired_patterns ++ [pattern])
      else
        let? found := re_search_ignorecase pattern content in
        if found : bool then Ok None
        else overrides_loop now content rest expired_patterns
  end.

(** [check_temporary_overrides(content)]. The expired patterns are deleted
    only when the loop ran to its end; an exception is caught and the
    answer is [False]. *)
Definition check_temporary_overrides (now : Z) (content : string)
    (self : AdaptiveContentPolicy) : bool * AdaptiveContentPolicy :=
  match overrides_loop now content (temporary_overrides self) [] with
  | Ok None => (true, self)
  | Ok (Some expired_patterns) =>
      (false,
       set_temporary_overrides
         (fold_left (fun d pattern => dict_del pattern d) expired_patterns
            (temporary_overrides self))
         self)
  | Raise _ => (false, self)
  end.

(** [add_temporary_override(pattern, duration_hours, reason, auth_token)].
    An expiry that cannot be computed is an exception caught: [False] is
    returned and nothing is stored. The override is stored before the
    audit row is written, and stays stored when that write fails and
    [False] is returned. *)
Definition add_temporary_override (now : Z) (pattern : string)
    (duration_hours : Z) (reason auth_token : string)
    (self : AdaptiveContentPolicy) : bool * AdaptiveContentPolicy :=
  let '(authorized, self) :=
    verify_authorization now auth_token "research" self in
  if negb authorized then (false, self)
  else
    match add_hours now duration_hours with
    | Raise _ => (false, self)
    | Ok expiry =>
        let creator :=
          if String.eqb auth_token "" then "system" else str_take 8 auth_token in
        let self :=
          set_temporary_overrides
            (dict_set pattern
               {| ov_expiry := expiry; ov_reason := reason; created_by := creator |}
               (temporary_overrides self))
            self in
        if db_available (db self) then
          (true,
           set_db
             {| db_available := true;
                content_evaluations := content_evaluations (db self);
                policy_changes := policy_changes (db self);
                content_overrides :=
                  content_overrides (db self) ++
                  [{| row_content_pattern := pattern;
                      row_override_type := "temporary";
                      row_expiry := isoformat expiry;
                      row_override_reason := reason;
                      row_authorized_by := creator |}] |}
             self)
        else (false, self)
    end.

(** [_calculate_keyword_score]: every occurrence of a keyword in the
    lower-cased text adds [keyword_weight], every pattern that matches adds
    [pattern_weight] once, and the sum is capped at 1.0. An exception is
    caught and the score is 0.0. The keyword and pattern tables below keep
    their non-ASCII entries as the bytes of the source file. *)
Definition _calculate_keyword_score (content : string)
    (keywords patterns : list string) (keyword_weight pattern_weight : float)
    : float :=
  let content_lower := str_lower content in
  let score :=
    fold_left
      (fun score keyword =>
         (score + float_of_nat (str_count content_lower keyword) * keyword_weight)%float)
      keywords 0.0%float in
  let score :=
    fold_left
      (fun score pattern =>
         let? score := score in
         let? found := re_search pattern content_lower in
         Ok (if found : bool then (score + pattern_weight)%float else score))
      patterns (Ok score) in
  match score with
  | Ok score => fmin score 1.0%float
  | Raise _ => 0.0%float
  end.

Definition _detect_violence (content : string) : float :=
  let violence_keywords := [
    "убить"; "убийство"; "смерть"; "кровь"; "драка"; "война"; "оружие";
    "пытки"; "боль"; "страдание"; "жестокость"; "насилие"; "избиение";
    "kill"; "murder"; "death"; "blood"; "fight"; "war"; "weapon";
    "torture"; "pain"; "suffering"; "cruelty"; "violence"; "beating"] in
  let violence_patterns := [
    "\b(как\s+убить|how\s+to\s+kill)\b";
    "\b(сделать\s+бомбу|make\s+bomb)\b";
    "\b(причинить\s+боль|cause\s+pain)\b"] in
  _calculate_keyword_score content violence_keywords violence_patterns 0.1%float 0.5%float.

Definition _detect_adult_content (content : string) : float :=
  let adult_keywords := [
    "секс"; "эротика"; "порно"; "голый"; "обнаженный"; "интим";
    "sex"; "erotic"; "porn"; "nude"; "naked"; "intimate"; "adult"] in
  _calculate_keyword_score content adult_keywords [] 0.15%float 0.0%float.

Definition _detect_hate_speech (content : string) : float :=
  let hate_keywords := [
    "расизм"; "фашизм"; "нацизм"; "ненависть"; "дискриминация";
    "racism"; "fascism"; "nazism"; "hatred"; "discrimination"; "bigotry"] in
  let hate_patterns := [
    "\b(все\s+\w+\s+должны\s+умереть|all\s+\w+\s+should\s+die)\b";
    "\b(я\s+ненавижу\s+всех|i\s+hate\s+all)\b"] in
  _calculate_keyword_score content hate_keywords hate_patterns 0.2%float 0.7%float.

Definition _detect_illegal_content (content : string) : float :=
  let illegal_keywords := [
    "наркотики"; "взлом"; "кража"; "мошенничество"; "подделка";
    "drugs"; "hack"; "theft"; "fraud"; "counterfeit"; "piracy"] in
  let illegal_patterns := [
    "\b(как\s+взломать|how\s+to\s+hack)\b";
    "\b(купить\s+наркотики|buy\s+drugs)\b";
    "\b(сделать\s+поддельные|make\s+fake)\s+(документы|documents)\b"] in
  _calculate_keyword_score content illegal_keywords illegal_patterns 0.1%float 0.6%float.

Definition _detect_medical_content (content : string) : float :=
  let medical_keywords := [
    "болезнь"; "лечение"; "симптом"; "диагноз"; "медицина"; "врач";
    "disease"; "treatment"; "symptom"; "diagnosis"; "medicine"; "doctor";
    "health"; "medical"; "therapy"; "medication"; "surgery"] in
  _calculate_keyword_score content medical_keywords [] 0.05%float 0.0%float.

Definition _detect_political_content (content : string) : float :=
  let political_keywords := [
    "политика"; "правительство"; "выборы"; "президент"; "партия";
    "politics"; "government"; "election"; "president"; "party";
    "democracy"; "republican"; "democrat"; "conservative"; "liberal"] in
  _calculate_keyword_score content political_keywords [] 0.05%float 0.0%float.

Definition _detect_controversial_content (content : string) : float :=
  let controversial_keywords := [
    "контроверсия"; "спорный"; "скандал"; "протест"; "конфликт";
    "controversy"; "controversial"; "scandal"; "protest"; "conflict";
    "debate"; "dispute"; "argument"] in
  _calculate_keyword_score content controversial_keywords [] 0.05%float 0.0%float.

Definition _detect_educational_content (content : string) : float :=
  let educational_keywords := [
    "учеба"; "образование"; "урок"; "лекция"; "курс"; "обучение";
    "study"; "education"; "lesson"; "lecture"; "course"; "learning";
    "tutorial"; "guide"; "explain"; "teach"; "academic"] in
  _calculate_keyword_score content educational_keywords [] 0.1%float 0.0%float.

Definition _detect_technical_content (content : string) : float :=
  let technical_keywords := [
    "программирование"; "код"; "алгоритм"; "база данных"; "сеть";
    "programming"; "code"; "algorithm"; "database"; "network";
    "software"; "hardware"; "technical"; "engineering"; "computer"] in
  _calculate_keyword_score content technical_keywords [] 0.1%float 0.0%float.

Definition _detect_creative_content (content : string) : float :=
  let creative_keywords := [
    "искусство"; "творчество"; "поэзия"; "музыка"; "литература";
    "art"; "creative"; "poetry"; "music"; "literature";
    "story"; "novel"; "painting"; "drawing"; "design"] in
  _calculate_keyword_score content creative_keywords [] 0.1%float 0.0%float.

(** The [detectors] dictionary of [evaluate_content], in its order. *)
Definition detectors : list (string * (string -> float)) :=
  [("violence", _detect_violence);
   ("adult", _detect_adult_content);
   ("hate_speech", _detect_hate_speech);
   ("illegal", _detect_illegal_content);
   ("medical", _detect_medical_content);
   ("political", _detect_political_content);
   ("controversial", _detect_controversial_content);
   ("educational", _detect_educational_content);
   ("technical", _detect_technical_content);
   ("creative", _detect_creative_content)].

(** [log_content_evaluation]: one row is inserted when the store is
    available and the policy level of the result is a [str], which sqlite3
    can bind (an enumeration member is refused with an exception); every
    failure is caught and only logged. *)
Definition log_content_evaluation (content_hash : string)
    (result : evaluation_result) (user_context : option string)
    (self : AdaptiveContentPolicy) : AdaptiveContentPolicy :=
  match policy_level result with
  | Name level_name =>
      if db_available (db self) then
        set_db
          {| db_available := true;
             content_evaluations :=
               content_evaluations (db self) ++
               [{| row_content_hash := content_hash;
                   row_policy_level := level_name;
                   row_category_scores := category_scores result;
                   row_final_decision := allowed result;
                   row_block_reason := block_reason result;
                   row_user_context := user_context;
                   row_override_applied := override_applied result |}];
             policy_changes := policy_changes (db self);
             content_overrides := content_overrides (db self) |}
          self
      else self
  | Member _ => self
  end.

(** The result returned for empty or blank content. *)
Definition empty_content_result (now : Z) (self : AdaptiveContentPolicy)
    : evaluation_result :=
  {| allowed := false;
     policy_level := current_level self;
     category_scores := [];
     violations := ["Empty content"];
     override_applied := false;
     content_hash := "";
     evaluation_time := isoformat now;
     block_reason := Some "Empty or invalid content" |}.

(** The result returned by the exception handler; [msg] is [str(e)]. *)
Definition evaluation_error_result (now : Z) (msg : string)
    (self : AdaptiveContentPolicy) : evaluation_result :=
  {| allowed := false;
     policy_level := current_level self;
     category_scores := [];
     violations := ["Evaluation error: " +:+ msg];
     override_applied := false;
     content_hash := "";
     evaluation_time := isoformat now;
     block_reason := Some "System error during evaluation" |}.

(** The scores of all categories, each clamped to [0, 1]. *)
Definition score_categories (content : string) : list (string * float) :=
  map (fun '(category, detector) =>
         (category, fmin 1.0%float (fmax 0.0%float (detector content))))
      detectors.

(** The decision loop over the category scores: the violations collected
    so far and the [allowed] flag. *)
Definition decision_loop (current_policy : gmap string float)
    (override_applied : bool) (category_scores : list (string * float))
    : list string * bool :=
  fold_left
    (fun '(violations, allowed) '(category, score) =>
       let threshold := default 0.0%float (current_policy !! category) in
       if fgt score threshold && negb override_applied then
         ((violations ++
             [category +:+ ": " +:+ format_2f score +:+ " > " +:+
              format_2f threshold])%list,
          false)
       else (violations, allowed))
    category_scores ([], true).

(** [self.policies.get(self.current_level, self.policies["safe"])]; the
    default is evaluated first and raises [KeyError] when absent. *)
Definition current_policy_of (self : AdaptiveContentPolicy)
    : result (gmap string float) :=
  match policies self !! "safe" with
  | None => Raise "'safe'"
  | Some safe_policy =>
      Ok match current_level self with
         | Name level_name => default safe_policy (policies self !! level_name)
         | Member _ => safe_policy
         end
  end.

(** [evaluate_content(content, user_context)]. *)
Definition evaluate_content (now : Z) (content : string)
    (user_context : option string) (self : AdaptiveContentPolicy)
    : evaluation_result * AdaptiveContentPolicy :=
  let attempt :=
    if String.eqb content "" || (len (strip content) =? 0)%nat then
      Ok (empty_content_result now self, self)
    else
      let? content_hash := md5_hexdigest content in
      let category_scores := score_categories content in
      let? current_policy := current_policy_of self in
      let '(override_applied, self1) :=
        check_temporary_overrides now content self in
      let '(violations, allowed) :=
        decision_loop current_policy override_applied category_scores in
      let result :=
        {| allowed := allowed;
           policy_level := current_level self1;
           category_scores := category_scores;
           violations := violations;
           override_applied := override_applied;
           content_hash := content_hash;
           evaluation_time := isoformat now;
           block_reason :=
             if allowed then None else Some (join "; " violations) |} in
      Ok (result, log_content_evaluation content_hash result user_context self1)
  in
  match attempt with
  | Ok outcome => outcome
  | Raise msg => (evaluation_error_result now msg self, self)
  end.

End Engine.

(** *** Properties of the session tokens *)

Section Authorization.

(** A run of later [verify_authorization] calls, each with its clock
    reading, token and required level. *)
Definition verify_all (calls : list (Z * string * string))
    (self : AdaptiveContentPolicy) : AdaptiveContentPolicy :=
  fold_left
    (fun self '(now, token, required_level) =>
       snd (verify_authorization now token required_level self))
    calls self.

Lemma level_hierarchy_get_nonneg (name : string) :
  0 <= level_hierarchy_get name.
Proof.
  unfold level_hierarchy_get, level_hierarchy. cbn [find fst].
  repeat match goal with
  | |- context [String.eqb ?a name] => destruct (String.eqb a name)
  end; cbn [snd]; lia.
Qed.

Lemma level_hierarchy_get_unknown (name : string) :
  ~ In name (map fst level_hierarchy) -> level_hierarchy_get name = 0.
Proof.
  unfold level_hierarchy_get, level_hierarchy. cbn [find fst map].
  intros Hnot.
  repeat match goal with
  | |- context [String.eqb ?a name] =>
      destruct (String.eqb_spec a name);
      [exfalso; apply Hnot; cbn [In]; tauto|]
  end.
  reflexivity.
Qed.

(** The rank of a level name is the rank of the enumeration member it
    names. *)
Lemma level_hierarchy_get_value (l : ContentLevel.t) :
  level_hierarchy_get (ContentLevel.value l) = ContentLevel.hierarchy l.
Proof. destruct l; reflexivity. Qed.

(** A verification never adds a token. *)
Lemma verify_authorization_absent now token required_level self token' :
  session_tokens self !! token' = None ->
  session_tokens (snd (verify_authorization now token required_level self))
    !! token' = None.
Proof.
  intros Habsent. unfold verify_authorization.
  destruct (String.eqb token ""); [exact Habsent|].
  destruct (session_tokens self !! token) as [session|]; [|exact Habsent].
  destruct (now >? expiry session); [|exact Habsent].
  simpl. destruct (decide (token = token')) as [->|Hne].
  - apply lookup_delete_eq.
  - rewrite lookup_delete_ne by exact Hne. exact Habsent.
Qed.

Lemma verify_all_absent calls self token :
  session_tokens self !! token = None ->
  session_tokens (verify_all calls self) !! token = None.
Proof.
  revert self. induction calls as [|[[now tok] lvl] calls IH]; intros self H.
  - exact H.
  - simpl. apply IH. apply verify_authorization_absent. exact H.
Qed.

Lemma verify_authorization_absent_false now token required_level self :
  session_tokens self !! token = None ->
  fst (verify_authorization now token required_level self) = false.
Proof.
  intros Habsent. unfold verify_authorization.
  destruct (String.eqb token ""); [reflexivity|].
  rewrite Habsent. reflexivity.
Qed.

End Authorization.

(** *** Concrete states for the instances *)

Definition empty_db : database :=
  {| db_available := true;
     content_evaluations := [];
     policy_changes := [];
     content_overrides := [] |}.

(** A fresh policy object on which [generate_auth_token("alice",
    "research", 1)] was called at clock reading 0: the token and the
    state. *)
Definition minted : string * AdaptiveContentPolicy :=
  generate_auth_token (rt := AsciiRuntime.runtime) 0 "alice" "research" 1
    (init empty_db).

(** The same for a token of level ["safe"]. *)
Definition minted_safe : string * AdaptiveContentPolicy :=
  generate_auth_token (rt := AsciiRuntime.runtime) 0 "bob" "safe" 1
    (init empty_db).

(** The reading of the claim on [verify_authorization] with the expiry
    strictly in the future. *)
Definition authorized_iff_expiry_in_future (now : Z)
    (token required_level : string) (self : AdaptiveContentPolicy) : Prop :=
  fst (verify_authorization now token required_level self) = true <->
  exists session,
    session_tokens self !! token = Some session /\
    now < expiry session /\
    level_hierarchy_get (level session) >= level_hierarchy_get required_level.

Section AuthorizationClaims.

(** A token of the session table that has not expired and ranks high
    enough is accepted. *)
Lemma verify_authorization_accepts now token required_level self session :
  token <> "" ->
  session_tokens self !! token = Some session ->
  now <= expiry session ->
  level_hierarchy_get (level session) >= level_hierarchy_get required_level ->
  fst (verify_authorization now token required_level self) = true.
Proof.
  intros Hne Hlookup Hlive Hrank. unfold verify_authorization.
  destruct (String.eqb_spec token "") as [->|_]; [congruence|].
  rewrite Hlookup.
  destruct (Z.gtb_spec now (expiry session)) as [Hexp|_]; [lia|].
  simpl. apply Z.geb_le. lia.
Qed.

(** C3, as the code has it. [verify_authorization] answers [True] exactly
    for a non-empty token that is in the session table, whose expiry has
    not passed (the expiry instant itself still counts as valid) and whose
    level ranks at least as high as the required level. A non-empty token
    whose expiry has passed is removed from the table by the first
    verification, which answers [False], and so does every verification
    after any later run of verifications. *)
Theorem verify_authorization_correct (now : Z) (token required_level : string)
    (self : AdaptiveContentPolicy) :
  (fst (verify_authorization now token required_level self) = true <->
   token <> "" /\
   exists session,
     session_tokens self !! token = Some session /\
     now <= expiry session /\
     level_hierarchy_get (level session) >= level_hierarchy_get required_level)
  /\
  (forall session,
     token <> "" ->
     session_tokens self !! token = Some session ->
     expiry session < now ->
     let self' := snd (verify_authorization now token required_level self) in
     fst (verify_authorization now token required_level self) = false /\
     session_tokens self' !! token = None /\
     forall (later : list (Z * string * string)) (now' : Z) (required' : string),
       fst (verify_authorization now' token required' (verify_all later self'))
       = false).
Proof.
  split.
  - unfold verify_authorization.
    destruct (String.eqb_spec token "") as [->|Hne].
    + simpl. split; [discriminate|]. intros [Habs _]. congruence.
    + destruct (session_tokens self !! token) as [session|] eqn:Hlookup.
      * destruct (Z.gtb_spec now (expiry session)) as [Hexp|Hlive]; simpl.
        -- split; [discriminate|].
           intros (_ & s & Hs & Hle & _). injection Hs as <-. lia.
        -- rewrite Z.geb_le. split.
           ++ intros Hrank. split; [exact Hne|].
              exists session. split; [reflexivity|]. split; lia.
           ++ intros (_ & s & Hs & _ & Hrank). injection Hs as <-. lia.
      * simpl. split; [discriminate|].
        intros (_ & s & Hs & _). discriminate.
  - intros session Hne Hlookup Hexp self'.
    assert (Hstep :
      fst (verify_authorization now token required_level self) = false /\
      session_tokens self' !! token = None).
    { subst self'. unfold verify_authorization.
      destruct (String.eqb_spec token "") as [->|_]; [congruence|].
      rewrite Hlookup.
      destruct (Z.gtb_spec now (expiry session)) as [_|Hlive]; [|lia].
      simpl. split; [reflexivity|apply lookup_delete_eq]. }
    destruct Hstep as [Hfalse Hgone].
    split; [exact Hfalse|]. split; [exact Hgone|].
    intros later now' required'.
    apply verify_authorization_absent_false, verify_all_absent, Hgone.
Qed.

(** C3, an instance: a token minted for ["research"] for one hour is, half
    an hour later, authorized for ["educational"] and refused for
    ["unrestricted"]; one microsecond after its expiry it is refused and
    removed, and stays refused. *)
Lemma verify_authorization_correct_witness :
  fst (verify_authorization (hour / 2) (fst minted) "educational" (snd minted))
    = true /\
  fst (verify_authorization (hour / 2) (fst minted) "unrestricted" (snd minted))
    = false /\
  let self' :=
    snd (verify_authorization (hour + 1) (fst minted) "safe" (snd minted)) in
  fst (verify_authorization (hour + 1) (fst minted) "safe" (snd minted)) = false /\
  session_tokens self' !! fst minted = None /\
  fst (verify_authorization (hour + 2) (fst minted) "safe"
         (verify_all [(hour + 1, fst minted, "safe")] self')) = false.
Proof.
  split; [vm_compute; reflexivity|].
  split; [vm_compute; reflexivity|].
  destruct (verify_authorization_correct (hour + 1) (fst minted) "safe"
              (snd minted)) as [_ Hevict].
  destruct (Hevict {| user_id := "alice"; level := "research"; expiry := hour |})
    as (Hfalse & Hgone & Hlater).
  - vm_compute. discriminate.
  - vm_compute. reflexivity.
  - vm_compute. reflexivity.
  - cbv zeta. split; [exact Hfalse|]. split; [exact Hgone|].
    apply (Hlater [(hour + 1, fst minted, "safe")] (hour + 2) "safe").
Defined.

(** C3 as stated fails at the expiry instant: the token minted for one
    hour is still authorized when the clock reads exactly its expiry,
    which is then not in the future. *)
Lemma verify_authorization_at_expiry_instant :
  ~ authorized_iff_expiry_in_future hour (fst minted) "educational" (snd minted).
Proof.
  unfold authorized_iff_expiry_in_future. intros [Hclaim _].
  destruct Hclaim as (session & Hlookup & Hfuture & _).
  - vm_compute. reflexivity.
  - vm_compute in Hlookup. injection Hlookup as <-.
    vm_compute in Hfuture. discriminate.
Qed.

(** C9. A non-empty token that is in the session table and has not expired
    is authorized for every required level that is not one of the four
    level names, whatever its own level: an unknown name, as token level
    or as required level, ranks 0. *)
Theorem unknown_required_level_is_authorized (now : Z)
    (token required_level : string) (self : AdaptiveContentPolicy)
    (session : session) :
  token <> "" ->
  session_tokens self !! token = Some session ->
  now <= expiry session ->
  ~ In required_level ["safe"; "educational"; "research"; "unrestricted"] ->
  level_hierarchy_get required_level = 0 /\
  (~ In (level session) ["safe"; "educational"; "research"; "unrestricted"] ->
   level_hierarchy_get (level session) = 0) /\
  fst (verify_authorization now token required_level self) = true.
Proof.
  intros Hne Hlookup Hlive Hunknown.
  assert (Hrank : level_hierarchy_get required_level = 0)
    by (apply level_hierarchy_get_unknown; exact Hunknown).
  split; [exact Hrank|]. split.
  - intros Hlevel. apply level_hierarchy_get_unknown. exact Hlevel.
  - apply (verify_authorization_accepts now token required_level self session
             Hne Hlookup Hlive).
    rewrite Hrank. pose proof (level_hierarchy_get_nonneg (level session)). lia.
Qed.

(** C9, an instance: a token of level ["safe"] is authorized for the
    required level ["administrator"]. *)
Lemma unknown_required_level_is_authorized_witness :
  fst (verify_authorization (hour / 2) (fst minted_safe) "administrator"
         (snd minted_safe)) = true.
Proof.
  apply (unknown_required_level_is_authorized (hour / 2) (fst minted_safe)
           "administrator" (snd minted_safe)
           {| user_id := "bob"; level := "safe"; expiry := hour |}).
  - vm_compute. discriminate.
  - vm_compute. reflexivity.
  - vm_compute. discriminate.
  - cbn [In]. intros [H|[H|[H|[H|[]]]]]; discriminate H.
Defined.

End AuthorizationClaims.

(** *** The configured threshold table *)

(** [self.policies[level.value][category.value]] in the table of
    [__init__]. *)
Definition configured_threshold (l : ContentLevel.t) (c : ContentCategory.t)
    : option float :=
  match initial_policies !! ContentLevel.value l with
  | Some table => table !! ContentCategory.value c
  | None => None
  end.

Section PolicyTable.

Import ContentLevel ContentCategory.

(** The table defines a threshold for every level and category. *)
Lemma configured_threshold_total (l : ContentLevel.t) (c : ContentCategory.t) :
  is_Some (configured_threshold l c).
Proof. destruct l, c; vm_compute; eexists; reflexivity. Qed.

(** C6. In the configured table every category other than [ILLEGAL] has,
    at a level of higher rank, a threshold at least as large as at a level
    of lower rank; and the [ILLEGAL] threshold at [UNRESTRICTED] is
    strictly below the one at [RESEARCH]. *)
Theorem thresholds_relax_except_illegal :
  (forall (l1 l2 : ContentLevel.t) (c : ContentCategory.t),
     hierarchy l1 < hierarchy l2 ->
     c <> ILLEGAL ->
     exists t1 t2,
       configured_threshold l1 c = Some t1 /\
       configured_threshold l2 c = Some t2 /\
       fge t2 t1 = true)
  /\
  (exists research unrestricted,
     configured_threshold RESEARCH ILLEGAL = Some research /\
     configured_threshold UNRESTRICTED ILLEGAL = Some unrestricted /\
     PrimFloat.ltb unrestricted research = true).
Proof.
  split.
  - intros l1 l2 c Hrank Hcat.
    destruct l1, l2; try (exfalso; cbn in Hrank; lia);
      destruct c; try congruence;
      eexists; eexists; (split; [vm_compute; reflexivity|]);
      (split; [vm_compute; reflexivity|]); vm_compute; reflexivity.
  - eexists; eexists. split; [vm_compute; reflexivity|].
    split; [vm_compute; reflexivity|]. vm_compute; reflexivity.
Qed.

(** C6, an instance: violence from [SAFE] to [UNRESTRICTED]. *)
Lemma thresholds_relax_except_illegal_witness :
  exists t1 t2,
    configured_threshold SAFE VIOLENCE = Some t1 /\
    configured_threshold UNRESTRICTED VIOLENCE = Some t2 /\
    fge t2 t1 = true.
Proof.
  apply (proj1 thresholds_relax_except_illegal SAFE UNRESTRICTED VIOLENCE).
  - vm_compute. reflexivity.
  - discriminate.
Defined.

(** The one place where the table tightens with rank. *)
Lemma illegal_threshold_not_monotone :
  configured_threshold RESEARCH ILLEGAL = Some 0.5%float /\
  configured_threshold UNRESTRICTED ILLEGAL = Some 0.3%float.
Proof. split; vm_compute; reflexivity. Qed.

End PolicyTable.

(** *** Properties of [evaluate_content] *)

Section Evaluation.

Context {rt : Runtime}.

(** A category score violates the policy when it is strictly above the
    category's threshold, [0.0] when the policy has none. *)
Definition exceeds (current_policy : gmap string float)
    (scored : string * float) : bool :=
  fgt (snd scored) (default 0.0%float (current_policy !! fst scored)).

(** The violation string of a category. *)
Definition violation_text (current_policy : gmap string float)
    (scored : string * float) : string :=
  fst scored +:+ ": " +:+ format_2f (snd scored) +:+ " > " +:+
  format_2f (default 0.0%float (current_policy !! fst scored)).

(** An unexpired override whose pattern is found in the content. *)
Definition override_matches (now : Z) (content : string)
    (self : AdaptiveContentPolicy) : Prop :=
  exists pattern info,
    In (pattern, info) (temporary_overrides self) /\
    now <= ov_expiry info /\
    re_search_ignorecase pattern content = Ok true.

(** Every unexpired pattern of the override table compiles. *)
Definition overrides_compile (now : Z) (content : string)
    (self : AdaptiveContentPolicy) : Prop :=
  forall pattern info,
    In (pattern, info) (temporary_overrides self) ->
    now <= ov_expiry info ->
    exists found, re_search_ignorecase pattern content = Ok found.

(** An override applies: going through the table in its order, the first
    unexpired pattern that is found in the content or does not compile is
    one that is found. *)
Definition applies_in (now : Z) (content : string)
    (items : list (string * override_info)) : Prop :=
  exists before pattern info after,
    items = (before ++ (pattern, info) :: after)%list /\
    now <= ov_expiry info /\
    re_search_ignorecase pattern content = Ok true /\
    forall earlier info',
      In (earlier, info') before ->
      now <= ov_expiry info' ->
      re_search_ignorecase earlier content = Ok false.

Definition override_applies (now : Z) (content : string)
    (self : AdaptiveContentPolicy) : Prop :=
  applies_in now content (temporary_overrides self).

(** The reading of the claim on overrides: one matching unexpired override
    makes the content allowed. *)
Definition matching_override_allows (now : Z) (content : string)
    (user_context : option string) (self : AdaptiveContentPolicy) : Prop :=
  override_matches now content self ->
  allowed (fst (evaluate_content now content user_context self)) = true.

Lemma forallb_false_iff {A : Type} (f : A -> bool) (l : list A) :
  forallb f l = false <-> exists x, In x l /\ f x = false.
Proof.
  induction l as [|a l IH]; cbn [forallb In].
  - split; [discriminate|]. intros (_ & [] & _).
  - rewrite andb_false_iff, IH. split.
    + intros [Ha|(x & Hin & Hx)]; [exists a; tauto|exists x; tauto].
    + intros (x & [<-|Hin] & Hx); [left; exact Hx|right; exists x; tauto].
Qed.

Lemma fgt_irrefl (x : float) : fgt x x = false.
Proof.
  unfold fgt. rewrite ltb_spec. unfold SpecFloat.SFltb, SpecFloat.SFcompare.
  destruct (Prim2SF x) as [ [|] | [|] | |s m e]; simpl; try reflexivity.
  destruct s; rewrite Z.compare_refl, Pos.compare_refl; reflexivity.
Qed.

Lemma decision_loop_acc current_policy override_applied scores violations allowed :
  fold_left
    (fun '(violations, allowed) '(category, score) =>
       let threshold := default 0.0%float (current_policy !! category) in
       if fgt score threshold && negb override_applied then
         ((violations ++
             [category +:+ ": " +:+ format_2f score +:+ " > " +:+
              format_2f threshold])%list,
          false)
       else (violations, allowed))
    scores (violations, allowed)
  = ((violations ++
        map (violation_text current_policy)
          (List.filter
             (fun scored => exceeds current_policy scored && negb override_applied)
             scores))%list,
     allowed &&
     forallb
       (fun scored => negb (exceeds current_policy scored && negb override_applied))
       scores).
Proof.
  revert violations allowed.
  induction scores as [|[category score] scores IH]; intros violations allowed.
  - cbn. rewrite app_nil_r, andb_true_r. reflexivity.
  - cbn [fold_left List.filter forallb].
    destruct (exceeds current_policy (category, score) && negb override_applied)
      eqn:Hviolates;
      pose proof Hviolates as Hloop; unfold exceeds in Hloop;
      cbn [fst snd] in Hloop; rewrite Hloop, IH; cbn [map negb andb].
    + rewrite <- app_assoc, andb_false_r. reflexivity.
    + reflexivity.
Qed.

Lemma decision_loop_spec current_policy override_applied scores :
  decision_loop current_policy override_applied scores
  = (map (violation_text current_policy)
       (List.filter
          (fun scored => exceeds current_policy scored && negb override_applied)
          scores),
     forallb
       (fun scored => negb (exceeds current_policy scored && negb override_applied))
       scores).
Proof. unfold decision_loop. rewrite decision_loop_acc. reflexivity. Qed.

(** The override loop, when the unexpired patterns compile: it stops with
    a match exactly when some unexpired pattern is found. *)
Lemma overrides_loop_spec now content items expired_patterns :
  (forall pattern info,
     In (pattern, info) items -> now <= ov_expiry info ->
     exists found, re_search_ignorecase pattern content = Ok found) ->
  (overrides_loop now content items expired_patterns = Ok None /\
   exists pattern info,
     In (pattern, info) items /\ now <= ov_expiry info /\
     re_search_ignorecase pattern content = Ok true)
  \/
  ((exists expired, overrides_loop now content items expired_patterns
                    = Ok (Some expired)) /\
   ~ exists pattern info,
       In (pattern, info) items /\ now <= ov_expiry info /\
       re_search_ignorecase pattern content = Ok true).
Proof.
  revert expired_patterns.
  induction items as [|[pattern info] items IH]; intros expired_patterns Hcompile.
  - right. split; [eexists; reflexivity|]. intros (? & ? & [] & _).
  - cbn [overrides_loop].
    assert (Hrest : forall pattern info,
              In (pattern, info) items -> now <= ov_expiry info ->
              exists found, re_search_ignorecase pattern content = Ok found).
    { intros p i Hin. apply Hcompile. right. exact Hin. }
    destruct (Z.gtb_spec now (ov_expiry info)) as [Hexpired|Hlive].
    + destruct (IH (expired_patterns ++ [pattern])%list Hrest)
        as [[Hloop (p & i & Hin & Hle & Hfound)]|[Hloop Hnone]].
      * left. split; [exact Hloop|]. exists p, i. split; [right; exact Hin|].
        split; assumption.
      * right. split; [exact Hloop|].
        intros (p & i & [Heq|Hin] & Hle & Hfound).
        -- injection Heq as <- <-. lia.
        -- apply Hnone. exists p, i. split; [exact Hin|]. split; assumption.
    + destruct (Hcompile pattern info (or_introl eq_refl) Hlive) as [found Hsearch].
      rewrite Hsearch. cbn [bind]. destruct found.
      * left. split; [reflexivity|]. exists pattern, info.
        split; [left; reflexivity|]. split; assumption.
      * destruct (IH expired_patterns Hrest)
          as [[Hloop (p & i & Hin & Hle & Hfound)]|[Hloop Hnone]].
        -- left. split; [exact Hloop|]. exists p, i. split; [right; exact Hin|].
           split; assumption.
        -- right. split; [exact Hloop|].
           intros (p & i & [Heq|Hin] & Hle & Hfound).
           ++ injection Heq as <- <-. congruence.
           ++ apply Hnone. exists p, i. split; [exact Hin|]. split; assumption.
Qed.

Lemma check_temporary_overrides_spec now content self :
  overrides_compile now content self ->
  fst (check_temporary_overrides now content self) = true <->
  override_matches now content self.
Proof.
  intros Hcompile. unfold check_temporary_overrides, override_matches.
  destruct (overrides_loop_spec now content (temporary_overrides self) []
              Hcompile) as [[Hloop Hmatch]|[[expired Hloop] Hnone]];
    rewrite Hloop; cbn [fst].
  - split; [intros _; exact Hmatch|reflexivity].
  - split; [discriminate|]. intros Hmatch. exfalso. exact (Hnone Hmatch).
Qed.

(** The loop stops on a match exactly when an override applies. *)
Lemma overrides_loop_applies now content items :
  forall expired_patterns,
    overrides_loop now content items expired_patterns = Ok None <->
    applies_in now content items.
Proof.
  induction items as [|[pattern info] items IH]; intros expired_patterns;
    cbn [overrides_loop].
  - split; [discriminate|].
    intros (before & p & i & after & Heq & _). destruct before; discriminate Heq.
  - destruct (Z.gtb_spec now (ov_expiry info)) as [Hexpired|Hlive].
    + rewrite IH. split.
      * intros (before & p & i & after & -> & Hle & Hfound & Hbefore).
        exists ((pattern, info) :: before), p, i, after.
        split; [reflexivity|]. split; [exact Hle|]. split; [exact Hfound|].
        intros earlier info' [Heq|Hin] Hle';
          [injection Heq as <- <-; lia|exact (Hbefore earlier info' Hin Hle')].
      * intros (before & p & i & after & Heq & Hle & Hfound & Hbefore).
        destruct before as [|[p0 i0] before]; cbn [app] in Heq.
        -- injection Heq as <- <- <-. lia.
        -- injection Heq as <- <- ->. exists before, p, i, after.
           split; [reflexivity|]. split; [exact Hle|]. split; [exact Hfound|].
           intros earlier info' Hin. apply Hbefore. right. exact Hin.
    + destruct (re_search_ignorecase pattern content) as [[|]|msg] eqn:Hsearch;
        cbn [bind].
      * split; [|reflexivity]. intros _. exists [], pattern, info, items.
        split; [reflexivity|]. split; [exact Hlive|]. split; [exact Hsearch|].
        intros earlier info' [].
      * rewrite IH. split.
        -- intros (before & p & i & after & -> & Hle & Hfound & Hbefore).
           exists ((pattern, info) :: before), p, i, after.
           split; [reflexivity|]. split; [exact Hle|]. split; [exact Hfound|].
           intros earlier info' [Heq|Hin] Hle';
             [injection Heq as <- <-; exact Hsearch
             |exact (Hbefore earlier info' Hin Hle')].
        -- intros (before & p & i & after & Heq & Hle & Hfound & Hbefore).
           destruct before as [|[p0 i0] before]; cbn [app] in Heq.
           ++ injection Heq as <- <- <-. congruence.
           ++ injection Heq as <- <- ->. exists before, p, i, after.
              split; [reflexivity|]. split; [exact Hle|]. split; [exact Hfound|].
              intros earlier info' Hin. apply Hbefore. right. exact Hin.
      * split; [discriminate|].
        intros (before & p & i & after & Heq & Hle & Hfound & Hbefore).
        destruct before as [|[p0 i0] before]; cbn [app] in Heq.
        -- injection Heq as <- <- <-. congruence.
        -- injection Heq as <- <- ->.
           specialize (Hbefore pattern info (or_introl eq_refl) Hlive).
           congruence.
Qed.

Lemma check_temporary_overrides_applies now content self :
  fst (check_temporary_overrides now content self) = true <->
  override_applies now content self.
Proof.
  unfold check_temporary_overrides, override_applies.
  rewrite <- (overrides_loop_applies now content (temporary_overrides self) []).
  destruct (overrides_loop now content (temporary_overrides self) [])
    as [[expired|]|msg]; cbn [fst]; split; congruence.
Qed.

(** The override check touches neither the audit store nor the level. *)
Lemma check_temporary_overrides_frame now content self :
  db (snd (check_temporary_overrides now content self)) = db self /\
  current_level (snd (check_temporary_overrides now content self))
  = current_level self.
Proof.
  unfold check_temporary_overrides.
  destruct (overrides_loop now content (temporary_overrides self) [])
    as [[expired|]|msg]; split; reflexivity.
Qed.

(** The audit row [log_content_evaluation] writes for a result. *)
Definition evaluation_row_of (level_name : string) (result : evaluation_result)
    (user_context : option string) : evaluation_row :=
  {| row_content_hash := content_hash result;
     row_policy_level := level_name;
     row_category_scores := category_scores result;
     row_final_decision := allowed result;
     row_block_reason := block_reason result;
     row_user_context := user_context;
     row_override_applied := override_applied result |}.

(** The reading of the claim on the audit store: the call appends one
    record. *)
Definition appends_one_record (now : Z) (content : string)
    (user_context : option string) (self : AdaptiveContentPolicy) : Prop :=
  exists row,
    content_evaluations (db (snd (evaluate_content now content user_context self)))
    = (content_evaluations (db self) ++ [row])%list.

(** [evaluate_content] on content that is not blank, when neither the
    digest nor the policy lookup raises. *)
Lemma evaluate_content_normal now content user_context self digest current_policy :
  is_blank content = false ->
  md5_hexdigest content = Ok digest ->
  current_policy_of self = Ok current_policy ->
  evaluate_content now content user_context self
  = let applied := fst (check_temporary_overrides now content self) in
    let self1 := snd (check_temporary_overrides now content self) in
    let scores := score_categories content in
    let violating scored := exceeds current_policy scored && negb applied in
    let violations :=
      map (violation_text current_policy) (List.filter violating scores) in
    let allowed := forallb (fun scored => negb (violating scored)) scores in
    let result :=
      {| allowed := allowed;
         policy_level := current_level self;
         category_scores := scores;
         violations := violations;
         override_applied := applied;
         content_hash := digest;
         evaluation_time := isoformat now;
         block_reason := if allowed then None else Some (join "; " violations) |} in
    (result, log_content_evaluation digest result user_context self1).
Proof.
  intros Hblank Hdigest Hpolicy. unfold evaluate_content.
  unfold is_blank in Hblank. rewrite Hblank, Hdigest. cbn [bind].
  rewrite Hpolicy. cbn [bind].
  pose proof (check_temporary_overrides_frame now content self) as [_ Hlevel].
  destruct (check_temporary_overrides now content self) as [applied self1].
  cbn [fst snd] in *. rewrite decision_loop_spec, Hlevel. reflexivity.
Qed.

(** The store after [log_content_evaluation]. *)
Lemma log_content_evaluation_rows digest result user_context self :
  content_evaluations (db (log_content_evaluation digest result user_context self))
  = match policy_level result with
    | Name level_name =>
        if db_available (db self)
        then (content_evaluations (db self) ++
              [{| row_content_hash := digest;
                  row_policy_level := level_name;
                  row_category_scores := category_scores result;
                  row_final_decision := allowed result;
                  row_block_reason := block_reason result;
                  row_user_context := user_context;
                  row_override_applied := override_applied result |}])%list
        else content_evaluations (db self)
    | Member _ => content_evaluations (db self)
    end.
Proof.
  unfold log_content_evaluation.
  destruct (policy_level result); [reflexivity|].
  destruct (db_available (db self)); reflexivity.
Qed.

(** C1, as the code has it. A call of [evaluate_content] appends at most
    one record to the audit store. Blank content is rejected with the
    ["Empty content"] marker and nothing is recorded. When the digest or
    the policy lookup raises, the content is rejected with the
    ["Evaluation error"] marker and nothing is recorded. Otherwise, when
    the insert into the store succeeds, exactly one record is appended and
    it carries the decision returned. *)
Theorem evaluate_content_audit_record (now : Z) (content : string)
    (user_context : option string) (self : AdaptiveContentPolicy) :
  let result := fst (evaluate_content now content user_context self) in
  let self' := snd (evaluate_content now content user_context self) in
  let before := content_evaluations (db self) in
  let after := content_evaluations (db self') in
  (after = before \/ exists row, after = (before ++ [row])%list)
  /\
  (is_blank content = true ->
   allowed result = false /\
   violations result = ["Empty content"] /\
   block_reason result = Some "Empty or invalid content" /\
   self' = self)
  /\
  (is_blank content = false ->
   forall msg,
     md5_hexdigest content = Raise msg \/
     (exists digest, md5_hexdigest content = Ok digest) /\
     current_policy_of self = Raise msg ->
     allowed result = false /\
     violations result = ["Evaluation error: " +:+ msg] /\
     block_reason result = Some "System error during evaluation" /\
     self' = self)
  /\
  (is_blank content = false ->
   forall digest current_policy level_name,
     md5_hexdigest content = Ok digest ->
     current_policy_of self = Ok current_policy ->
     db_available (db self) = true ->
     current_level self = Name level_name ->
     after = (before ++ [evaluation_row_of level_name result user_context])%list).
Proof.
  cbv zeta.
  assert (Hblank_case : is_blank content = true ->
            evaluate_content now content user_context self
            = (empty_content_result now self, self)).
  { intros Hblank. unfold evaluate_content. unfold is_blank in Hblank.
    rewrite Hblank. reflexivity. }
  assert (Hraise_case : is_blank content = false -> forall msg,
            md5_hexdigest content = Raise msg \/
            (exists digest, md5_hexdigest content = Ok digest) /\
            current_policy_of self = Raise msg ->
            evaluate_content now content user_context self
            = (evaluation_error_result now msg self, self)).
  { intros Hblank msg Hraise. unfold evaluate_content. unfold is_blank in Hblank.
    rewrite Hblank. destruct Hraise as [Hdigest|[[digest Hdigest] Hpolicy]];
      rewrite Hdigest; cbn [bind]; [reflexivity|].
    rewrite Hpolicy. reflexivity. }
  split; [|split; [|split]].
  - destruct (is_blank content) eqn:Hblank.
    { rewrite (Hblank_case eq_refl). left. reflexivity. }
    destruct (md5_hexdigest content) as [digest|msg] eqn:Hdigest.
    2: { rewrite (Hraise_case eq_refl msg (or_introl eq_refl)). left. reflexivity. }
    destruct (current_policy_of self) as [current_policy|msg] eqn:Hpolicy.
    2: { rewrite (Hraise_case eq_refl msg
                    (or_intror (conj (ex_intro _ digest eq_refl) eq_refl))).
         left. reflexivity. }
    rewrite (evaluate_content_normal _ _ _ _ _ _ Hblank Hdigest Hpolicy).
    cbv zeta. cbn [snd]. rewrite log_content_evaluation_rows. cbn [policy_level].
    destruct (check_temporary_overrides_frame now content self) as [-> _].
    destruct (current_level self); [left; reflexivity|].
    destruct (db_available (db self)); [right; eexists|left]; reflexivity.
  - intros Hblank. rewrite (Hblank_case Hblank). repeat split.
  - intros Hblank msg Hraise. rewrite (Hraise_case Hblank msg Hraise).
    repeat split.
  - intros Hblank digest current_policy level_name Hdigest Hpolicy Hdb Hlevel.
    rewrite (evaluate_content_normal _ _ _ _ _ _ Hblank Hdigest Hpolicy).
    cbv zeta. cbn [fst snd]. rewrite log_content_evaluation_rows.
    cbn [policy_level].
    destruct (check_temporary_overrides_frame now content self) as [-> _].
    rewrite Hlevel, Hdb. reflexivity.
Qed.

(** C2, as the code has it. For content that is not blank and is
    evaluated without an exception, at the policy of the active level: the
    content is rejected exactly when some category score is strictly above
    its threshold and no override applies; the violations are those of the
    categories strictly above their threshold, so a score equal to its
    threshold yields none; and an override that applies makes the content
    allowed, with no violation at all. An override applies when, in the
    order of the table, the first unexpired pattern that is found in the
    content or does not compile is one that is found: a pattern that does
    not compile, met before any match, ends the check with no override
    applied. When every unexpired pattern compiles, an override applies
    exactly when some unexpired pattern is found in the content. *)
Theorem evaluate_content_decision (now : Z) (content : string)
    (user_context : option string) (self : AdaptiveContentPolicy)
    (digest : string) (current_policy : gmap string float) :
  is_blank content = false ->
  md5_hexdigest content = Ok digest ->
  current_policy_of self = Ok current_policy ->
  let result := fst (evaluate_content now content user_context self) in
  let threshold category := default 0.0%float (current_policy !! category) in
  (allowed result = false <->
   (exists category score,
      In (category, score) (category_scores result) /\
      fgt score (threshold category) = true) /\
   ~ override_applies now content self)
  /\
  (override_applied result = false ->
   violations result
   = map (violation_text current_policy)
       (List.filter (fun scored => fgt (snd scored) (threshold (fst scored)))
          (category_scores result)))
  /\
  ((forall category score,
      In (category, score) (category_scores result) ->
      score = threshold category \/ fgt score (threshold category) = false) ->
   allowed result = true /\ violations result = [])
  /\
  (override_applies now content self ->
   allowed result = true /\
   violations result = [] /\
   override_applied result = true)
  /\
  (overrides_compile now content self ->
   (override_applies now content self <-> override_matches now content self)).
Proof.
  intros Hblank Hdigest Hpolicy.
  rewrite (evaluate_content_normal _ _ _ _ _ _ Hblank Hdigest Hpolicy).
  cbv zeta. cbn [fst allowed violations override_applied category_scores].
  pose proof (check_temporary_overrides_applies now content self) as Happlied.
  assert (Hequiv : overrides_compile now content self ->
            (override_applies now content self <->
             override_matches now content self)).
  { intros Hcompile. rewrite <- Happlied.
    apply check_temporary_overrides_spec. exact Hcompile. }
  set (scores := score_categories content).
  destruct (fst (check_temporary_overrides now content self)) eqn:Hcheck.
  - (* an override applies *)
    assert (Hmatch : override_applies now content self) by (apply Happlied; reflexivity).
    assert (Hnone : List.filter
              (fun scored => exceeds current_policy scored && negb true) scores = []).
    { induction scores as [|scored scores IH]; [reflexivity|].
      cbn [List.filter negb]. rewrite andb_false_r. exact IH. }
    assert (Hall : forallb
              (fun scored => negb (exceeds current_policy scored && negb true))
              scores = true).
    { apply forallb_forall. intros scored _. cbn [negb].
      rewrite andb_false_r. reflexivity. }
    rewrite Hnone, Hall. cbn [map].
    split; [|split; [|split; [|split]]].
    + split; [discriminate|]. intros [_ Hno]. exfalso. exact (Hno Hmatch).
    + discriminate.
    + intros _. split; reflexivity.
    + intros _. repeat split.
    + exact Hequiv.
  - (* no override applies *)
    assert (Hnomatch : ~ override_applies now content self).
    { intros Hmatch. apply Happlied in Hmatch. discriminate. }
    assert (Hfilter : List.filter
              (fun scored => exceeds current_policy scored && negb false) scores
              = List.filter
                  (fun scored => fgt (snd scored)
                     (default 0.0%float (current_policy !! fst scored))) scores).
    { apply filter_ext. intros scored. cbn [negb]. rewrite andb_true_r. reflexivity. }
    split; [|split; [|split; [|split]]].
    + rewrite forallb_false_iff. split.
      * intros [[category score] [Hin Hex]]. split; [|exact Hnomatch].
        exists category, score. split; [exact Hin|].
        cbn [negb] in Hex. rewrite andb_true_r in Hex.
        apply negb_false_iff in Hex. exact Hex.
      * intros [(category & score & Hin & Hex) _].
        exists (category, score). split; [exact Hin|].
        cbn [negb]. rewrite andb_true_r. apply negb_false_iff. exact Hex.
    + intros _. rewrite Hfilter. reflexivity.
    + intros Hties.
      assert (Hnone : List.filter
                (fun scored => exceeds current_policy scored && negb false) scores
                = []).
      { rewrite Hfilter. clear Hfilter.
        induction scores as [|[category score] scores IH]; [reflexivity|].
        cbn [List.filter fst snd].
        destruct (Hties category score (or_introl eq_refl)) as [-> | ->].
        - rewrite fgt_irrefl. apply IH. intros c s Hin. apply Hties. right. exact Hin.
        - apply IH. intros c s Hin. apply Hties. right. exact Hin. }
      rewrite Hnone. split; [|reflexivity].
      apply forallb_forall. intros [category score] Hin.
      cbn [negb]. rewrite andb_true_r. apply negb_true_iff. unfold exceeds.
      cbn [fst snd].
      destruct (Hties category score Hin) as [-> | ->];
        [apply fgt_irrefl|reflexivity].
    + intros Hmatch. exfalso. exact (Hnomatch Hmatch).
    + exact Hequiv.
Qed.

End Evaluation.

(** *** Instances *)

(** The policy object after [set_policy_level("safe")] on a fresh one: the
    level is now held as a [str]. *)
Definition safe_state : AdaptiveContentPolicy :=
  snd (set_policy_level (rt := AsciiRuntime.runtime) 0 "safe" "" None
         (init empty_db)).

(** The holder of the research token adds an override for the pattern
    ["kill"], valid one hour, and the level is set to ["safe"]. *)
Definition overridden_state : AdaptiveContentPolicy :=
  let self := snd minted in
  let self :=
    snd (add_temporary_override (rt := AsciiRuntime.runtime) 0 "kill" 1
           "test scenario" (fst minted) self) in
  snd (set_policy_level (rt := AsciiRuntime.runtime) 0 "safe" "" None self).

(** C1 as stated fails on empty content: the call returns the rejection
    and the audit store is left as it was. *)
Lemma empty_content_is_not_recorded :
  ~ appends_one_record (rt := AsciiRuntime.runtime) 0 "" None safe_state.
Proof.
  unfold appends_one_record. intros [row Hrow].
  vm_compute in Hrow. discriminate Hrow.
Qed.

(** C1, an instance: the content ["kill kill"] evaluated at level
    ["safe"] is rejected and recorded once. *)
Lemma evaluate_content_audit_record_witness :
  let outcome :=
    evaluate_content (rt := AsciiRuntime.runtime) 0 "kill kill" None safe_state in
  allowed (fst outcome) = false /\
  content_evaluations (db (snd outcome))
  = (content_evaluations (db safe_state) ++
     [evaluation_row_of "safe" (fst outcome) None])%list.
Proof.
  cbv zeta. split; [vm_compute; reflexivity|].
  eapply (proj2 (proj2 (proj2
            (evaluate_content_audit_record (rt := AsciiRuntime.runtime)
               0 "kill kill" None safe_state)))).
  - vm_compute. reflexivity.
  - reflexivity.
  - vm_compute. reflexivity.
  - vm_compute. reflexivity.
  - vm_compute. reflexivity.
Defined.

(** While the level is still the enumeration member stored by [__init__],
    the insert is refused and the evaluation is not recorded. *)
Lemma fresh_state_records_nothing :
  content_evaluations
    (db (snd (evaluate_content (rt := AsciiRuntime.runtime) 0 "kill kill" None
                (init empty_db))))
  = [].
Proof. vm_compute. reflexivity. Qed.

(** C2, an instance: ["kill kill"] scores 0.2 for violence, above the 0.1
    of level ["safe"], and is allowed while the override for ["kill"] is
    unexpired. *)
Lemma evaluate_content_decision_witness :
  let result :=
    fst (evaluate_content (rt := AsciiRuntime.runtime) (hour / 2) "kill kill"
           None overridden_state) in
  allowed result = true /\
  violations result = [] /\
  override_applied result = true.
Proof.
  cbv zeta.
  apply (proj1 (proj2 (proj2 (proj2
           (evaluate_content_decision (rt := AsciiRuntime.runtime)
              (hour / 2) "kill kill" None overridden_state "md5:kill kill"
              (default ∅ (initial_policies !! "safe"))
              ltac:(vm_compute; reflexivity) eq_refl
              ltac:(vm_compute; reflexivity)))))).
  exists [], "kill",
    {| ov_expiry := hour; ov_reason := "test scenario";
       created_by := "sha256:a" |}, [].
  split; [vm_compute; reflexivity|].
  split; [vm_compute; discriminate|].
  split; [vm_compute; reflexivity|]. intros earlier info' [].
Defined.

(** The same content is rejected without the override, and a single
    occurrence of the keyword, which scores exactly the threshold, is
    allowed. *)
Lemma threshold_tie_is_allowed :
  allowed (fst (evaluate_content (rt := AsciiRuntime.runtime) 0 "kill kill" None
                  safe_state)) = false /\
  allowed (fst (evaluate_content (rt := AsciiRuntime.runtime) 0 "kill" None
                  safe_state)) = true.
Proof. split; vm_compute; reflexivity. Qed.

(** The holder of the research token adds an override whose pattern does
    not compile, then the override for ["kill"], both valid one hour, and
    the level is set to ["safe"]. *)
Definition unclosed_pattern_state : AdaptiveContentPolicy :=
  let self := snd minted in
  let self :=
    snd (add_temporary_override (rt := AsciiRuntime.runtime) 0 "(" 1
           "test scenario" (fst minted) self) in
  let self :=
    snd (add_temporary_override (rt := AsciiRuntime.runtime) 0 "kill" 1
           "test scenario" (fst minted) self) in
  snd (set_policy_level (rt := AsciiRuntime.runtime) 0 "safe" "" None self).

(** C2 as stated fails when a pattern that does not compile is stored
    before the matching one: [re.search] raises on it, the exception is
    caught, no override is applied and ["kill kill"] is rejected although
    the unexpired override for ["kill"] matches it. *)
Lemma uncompilable_pattern_blocks_override :
  ~ matching_override_allows (rt := AsciiRuntime.runtime) (hour / 2) "kill kill"
      None unclosed_pattern_state.
Proof.
  unfold matching_override_allows. intros Hclaim.
  assert (Hmatch : override_matches (rt := AsciiRuntime.runtime) (hour / 2)
                     "kill kill" unclosed_pattern_state).
  { exists "kill",
      {| ov_expiry := hour; ov_reason := "test scenario";
         created_by := "sha256:a" |}.
    split; [vm_compute; right; left; reflexivity|].
    split; [vm_compute; discriminate|vm_compute; reflexivity]. }
  specialize (Hclaim Hmatch). vm_compute in Hclaim. discriminate Hclaim.
Qed.


(** *** Further properties of tokens and levels *)

Section TokensAndLevels.

Context {rt : Runtime}.

(** The expiry is computed exactly when the duration is a [timedelta] and
    the expiry a [datetime]. *)
Lemma add_hours_ok (now duration_hours deadline : Z) :
  add_hours now duration_hours = Ok deadline <->
  deadline = now + duration_hours * hour /\
  -999999999 <= duration_hours / 24 <= 999999999 /\
  0 <= now + duration_hours * hour <= datetime_max.
Proof.
  unfold add_hours, timedelta_hours, datetime_add.
  destruct (Z.leb_spec (-999999999) (duration_hours / 24));
    destruct (Z.leb_spec (duration_hours / 24) 999999999); cbn [andb bind];
    try (split; [discriminate|lia]).
  destruct (Z.leb_spec 0 (now + duration_hours * hour));
    destruct (Z.leb_spec (now + duration_hours * hour) datetime_max);
    cbn [andb]; try (split; [discriminate|lia]).
  split; [intros Heq; injection Heq as <-; lia|].
  intros (-> & _). reflexivity.
Qed.

(** A token minted by [generate_auth_token] is the first 32 characters of
    the digest, when the digest can be taken, is not empty, and the expiry
    can be computed ([duration_hours] after the call). Until its expiry,
    the expiry instant included, it is authorized for a required level
    exactly when the level it was minted for ranks at least as high; after
    its expiry it is refused. When the digest cannot be taken or the
    expiry cannot be computed, the call returns the empty token and stores
    nothing. *)
Theorem minted_token_authorization (now : Z) (user_id granted : string)
    (duration_hours : Z) (self : AdaptiveContentPolicy) :
  let outcome := generate_auth_token now user_id granted duration_hours self in
  let token_data := user_id +:+ ":" +:+ granted +:+ ":" +:+ isoformat now in
  (forall digest deadline later required_level,
     sha256_hexdigest token_data = Ok digest ->
     add_hours now duration_hours = Ok deadline ->
     str_take 32 digest <> "" ->
     fst outcome = str_take 32 digest /\
     deadline = now + duration_hours * hour /\
     (later <= deadline ->
      fst (verify_authorization later (fst outcome) required_level (snd outcome))
      = (level_hierarchy_get granted >=? level_hierarchy_get required_level)) /\
     (deadline < later ->
      fst (verify_authorization later (fst outcome) required_level (snd outcome))
      = false))
  /\
  (forall msg,
     sha256_hexdigest token_data = Raise msg \/
     add_hours now duration_hours = Raise msg ->
     outcome = ("", self) /\
     forall later required_level,
       fst (verify_authorization later (fst outcome) required_level (snd outcome))
       = false).
Proof.
  cbv zeta. unfold generate_auth_token. split.
  - intros digest deadline later required_level Hdigest Hdeadline Hnonempty.
    rewrite Hdigest. cbn [bind]. rewrite Hdeadline. cbn [bind fst snd].
    split; [reflexivity|].
    split; [apply (add_hours_ok now duration_hours deadline); exact Hdeadline|].
    unfold verify_authorization.
    destruct (String.eqb_spec (str_take 32 digest) "") as [Hempty|_];
      [contradiction|].
    cbn [session_tokens set_session_tokens]. rewrite lookup_insert_eq.
    cbn [expiry level]. split; intros Hlater.
    + destruct (Z.gtb_spec later deadline); [lia|]. reflexivity.
    + destruct (Z.gtb_spec later deadline); [|lia]. reflexivity.
  - intros msg [Hdigest|Hdeadline].
    + rewrite Hdigest. split; reflexivity.
    + destruct (sha256_hexdigest _) as [digest|msg']; cbn [bind];
        [rewrite Hdeadline|]; split; reflexivity.
Qed.

(** A verification changes nothing but the session table. *)
Lemma verify_authorization_untouched now token required_level self :
  let self' := snd (verify_authorization now token required_level self) in
  current_level self' = current_level self /\
  policies self' = policies self /\
  temporary_overrides self' = temporary_overrides self /\
  db self' = db self.
Proof.
  cbv zeta. unfold verify_authorization.
  destruct (String.eqb token ""); [repeat split|].
  destruct (session_tokens self !! token) as [session|]; [|repeat split].
  destruct (now >? expiry session); repeat split.
Qed.

(** A verification changes nothing but the session table, in which it
    touches at most the token verified. It changes nothing at all when
    that token has not expired; and a non-empty token that is still in the
    table after its verification had not expired. *)
Theorem verify_authorization_frame (now : Z) (token required_level : string)
    (self : AdaptiveContentPolicy) :
  let self' := snd (verify_authorization now token required_level self) in
  current_level self' = current_level self /\
  policies self' = policies self /\
  temporary_overrides self' = temporary_overrides self /\
  db self' = db self /\
  (forall other,
     other <> token ->
     session_tokens self' !! other = session_tokens self !! other) /\
  (forall session,
     session_tokens self !! token = Some session ->
     now <= expiry session ->
     self' = self) /\
  (forall session,
     token <> "" ->
     session_tokens self' !! token = Some session ->
     now <= expiry session /\ session_tokens self !! token = Some session).
Proof.
  cbv zeta. unfold verify_authorization.
  destruct (String.eqb_spec token "") as [->|Hne].
  { repeat split; intros; first [reflexivity|contradiction]. }
  destruct (session_tokens self !! token) as [session|] eqn:Hlookup.
  2: { cbn [snd]. repeat split; intros; first [reflexivity|congruence]. }
  destruct (Z.gtb_spec now (expiry session)) as [Hexpired|Hlive]; cbn [snd].
  - split; [reflexivity|]. split; [reflexivity|]. split; [reflexivity|].
    split; [reflexivity|]. split; [|split].
    + intros other Hother. cbn [session_tokens set_session_tokens].
      apply lookup_delete_ne. congruence.
    + intros session' Hsession Hle. injection Hsession as <-. lia.
    + intros session' _ Hsession.
      cbn [session_tokens set_session_tokens] in Hsession.
      rewrite lookup_delete_eq in Hsession. discriminate Hsession.
  - split; [reflexivity|]. split; [reflexivity|]. split; [reflexivity|].
    split; [reflexivity|]. split; [reflexivity|]. split; [reflexivity|].
    intros session' _ Hsession. rewrite Hlookup in Hsession.
    injection Hsession as <-. split; [exact Hlive|reflexivity].
Qed.

(** [set_policy_level] succeeds exactly when the level is a key of the
    policy table and, for ["research"] and ["unrestricted"], the token is
    authorized for that level. On success the active level is the level
    given; on failure it is the one before; the threshold table and the
    overrides are never touched. *)
Theorem set_policy_level_spec (now : Z) (level auth_token : string)
    (reason : option string) (self : AdaptiveContentPolicy) :
  let outcome := set_policy_level now level auth_token reason self in
  let elevated := String.eqb level "research" || String.eqb level "unrestricted" in
  (fst outcome = true <->
   is_Some (policies self !! level) /\
   (elevated = true ->
    fst (verify_authorization now auth_token level self) = true))
  /\
  (fst outcome = true -> current_level (snd outcome) = Name level)
  /\
  (fst outcome = false ->
   current_level (snd outcome) = current_level self /\
   db (snd outcome) = db self)
  /\
  policies (snd outcome) = policies self
  /\
  temporary_overrides (snd outcome) = temporary_overrides self.
Proof.
  cbv zeta. unfold set_policy_level.
  destruct (policies self !! level) as [policy|] eqn:Hlevel.
  2: { repeat split; try discriminate. intros [[p Hp] _]. discriminate Hp. }
  pose proof (verify_authorization_untouched now auth_token level self)
    as Hframe.
  cbv zeta in Hframe. destruct Hframe as (Hcur & Hpol & Hov & Hdb).
  assert (Hlog : forall old self0,
            current_level (log_policy_change old level auth_token reason self0)
            = current_level self0 /\
            policies (log_policy_change old level auth_token reason self0)
            = policies self0 /\
            temporary_overrides (log_policy_change old level auth_token reason self0)
            = temporary_overrides self0).
  { intros old self0. unfold log_policy_change.
    destruct (if String.eqb auth_token "" then _ else _); [|repeat split].
    destruct old; [repeat split|].
    destruct (db_available (db self0)); repeat split. }
  destruct (String.eqb level "research" || String.eqb level "unrestricted").
  - destruct (verify_authorization now auth_token level self)
      as [authorized self1] eqn:Hverify.
    cbn [fst snd] in *. destruct authorized; cbn [negb fst snd].
    + destruct (Hlog (current_level self) (set_current_level (Name level) self1))
        as (Hl1 & Hl2 & Hl3).
      split; [split; [intros _; split; [eexists; reflexivity|reflexivity]
                     |reflexivity]|].
      split; [intros _; rewrite Hl1; reflexivity|].
      split; [discriminate|].
      split; [rewrite Hl2; exact Hpol|rewrite Hl3; exact Hov].
    + split; [split; [discriminate|intros [_ Hauth]; apply Hauth; reflexivity]|].
      split; [discriminate|].
      split; [intros _; split; assumption|]. split; assumption.
  - cbn [negb fst snd].
    destruct (Hlog (current_level self) (set_current_level (Name level) self))
      as (Hl1 & Hl2 & Hl3).
    split; [split; [intros _; split; [eexists; reflexivity|discriminate]
                   |reflexivity]|].
    split; [intros _; rewrite Hl1; reflexivity|].
    split; [discriminate|].
    split; [rewrite Hl2; reflexivity|rewrite Hl3; reflexivity].
Qed.

End TokensAndLevels.


(** *** Further properties of the overrides *)

Section Overrides.

Context {rt : Runtime}.

(** The loop of [check_temporary_overrides], when it runs to its end,
    has collected the patterns of the expired overrides, in order. *)
Lemma overrides_loop_expired now content items expired_patterns expired :
  overrides_loop now content items expired_patterns = Ok (Some expired) ->
  expired
  = (expired_patterns ++
     map fst (List.filter (fun o => now >? ov_expiry (snd o)) items))%list.
Proof.
  revert expired_patterns.
  induction items as [|[pattern info] items IH]; intros expired_patterns;
    cbn [overrides_loop List.filter snd].
  - intros Hloop. injection Hloop as <-. rewrite app_nil_r. reflexivity.
  - destruct (now >? ov_expiry info).
    + intros Hloop. rewrite (IH _ Hloop), <- app_assoc. reflexivity.
    + destruct (re_search_ignorecase pattern content) as [[|]|msg];
        cbn [bind]; [discriminate|apply IH|discriminate].
Qed.

Lemma dict_del_all {V : Type} (keys : list string) (d : list (string * V)) :
  fold_left (fun d key => dict_del key d) keys d
  = List.filter (fun kv => negb (existsb (String.eqb (fst kv)) keys)) d.
Proof.
  revert d. induction keys as [|key keys IH]; intros d; cbn [fold_left existsb].
  - induction d as [|kv d IHd]; [reflexivity|].
    cbn [List.filter negb]. f_equal. exact IHd.
  - rewrite IH. unfold dict_del.
    induction d as [|kv d IHd]; [reflexivity|].
    cbn [List.filter]. destruct (String.eqb (fst kv) key); cbn [negb orb].
    + exact IHd.
    + cbn [List.filter]. rewrite IHd. reflexivity.
Qed.

(** The table [check_temporary_overrides] leaves when it answers [False]
    without an exception: the entries under the key of an expired override
    are deleted. *)
Lemma check_temporary_overrides_false now content self :
  overrides_compile now content self ->
  fst (check_temporary_overrides now content self) = false ->
  temporary_overrides (snd (check_temporary_overrides now content self))
  = List.filter
      (fun kv =>
         negb (existsb (String.eqb (fst kv))
                 (map fst (List.filter (fun o => now >? ov_expiry (snd o))
                             (temporary_overrides self)))))
      (temporary_overrides self).
Proof.
  intros Hcompile. unfold check_temporary_overrides.
  destruct (overrides_loop_spec now content (temporary_overrides self) []
              Hcompile) as [[Hloop _]|[[expired Hloop] _]];
    rewrite Hloop; cbn [fst snd]; [discriminate|].
  intros _. apply overrides_loop_expired in Hloop. cbn [app] in Hloop.
  cbn [temporary_overrides set_temporary_overrides]. rewrite dict_del_all.
  subst expired. reflexivity.
Qed.

(** Every override that is left is unexpired and was there before. *)
Lemma check_temporary_overrides_left now content self o :
  overrides_compile now content self ->
  fst (check_temporary_overrides now content self) = false ->
  In o (temporary_overrides (snd (check_temporary_overrides now content self))) ->
  negb (now >? ov_expiry (snd o)) = true /\ In o (temporary_overrides self).
Proof.
  intros Hcompile Hfalse Hin.
  rewrite (check_temporary_overrides_false now content self Hcompile Hfalse)
    in Hin.
  apply filter_In in Hin as [Hin Hkept]. split; [|exact Hin].
  destruct (now >? ov_expiry (snd o)) eqn:Hexp; [|reflexivity].
  exfalso. apply negb_true_iff in Hkept.
  assert (Hex : existsb (String.eqb (fst o))
            (map fst (List.filter (fun o => now >? ov_expiry (snd o))
                        (temporary_overrides self)))
          = true).
  { apply existsb_exists. exists (fst o). split; [|apply String.eqb_refl].
    apply in_map. apply filter_In. split; assumption. }
  congruence.
Qed.

(** [check_temporary_overrides] leaves the state as it is when it answers
    [True]. When it answers [False] without an exception, every override
    left in the table is unexpired and was there before, every unexpired
    override is still there, and, the patterns being the keys of a
    dictionary, the table is exactly the unexpired part of the old one. *)
Theorem check_temporary_overrides_purges (now : Z) (content : string)
    (self : AdaptiveContentPolicy) :
  let outcome := check_temporary_overrides now content self in
  let unexpired (o : string * override_info) := negb (now >? ov_expiry (snd o)) in
  (fst outcome = true -> snd outcome = self)
  /\
  (overrides_compile now content self ->
   fst outcome = false ->
   (forall o,
      In o (temporary_overrides (snd outcome)) ->
      unexpired o = true /\ In o (temporary_overrides self)) /\
   (List.NoDup (map fst (temporary_overrides self)) ->
    temporary_overrides (snd outcome)
    = List.filter unexpired (temporary_overrides self))).
Proof.
  cbv zeta. split.
  - unfold check_temporary_overrides.
    destruct (overrides_loop now content (temporary_overrides self) [])
      as [[expired|]|msg]; [discriminate|reflexivity|discriminate].
  - intros Hcompile Hfalse.
    split; [intros o; apply check_temporary_overrides_left; assumption|].
    rewrite (check_temporary_overrides_false now content self Hcompile Hfalse).
    clear Hcompile Hfalse. set (items := temporary_overrides self).
    assert (Hkeys : forall o,
              In o items ->
              existsb (String.eqb (fst o))
                (map fst (List.filter (fun o => now >? ov_expiry (snd o)) items))
              = true ->
              exists o', In o' items /\ fst o' = fst o /\
                         (now >? ov_expiry (snd o')) = true).
    { intros o _ Hex. apply existsb_exists in Hex as (key & Hin & Heq).
      apply in_map_iff in Hin as (o' & <- & Hin').
      apply filter_In in Hin' as [Hin' Hexp].
      apply String.eqb_eq in Heq. exists o'. repeat split; congruence. }
    intros Hnodup. apply List.filter_ext_in. intros o Hin.
    destruct (existsb _ _) eqn:Hex; cbn [negb].
    + destruct (Hkeys o Hin Hex) as (o' & Hin' & Hfst & Hexp).
      assert (o' = o) as ->.
      { clear -Hnodup Hin Hin' Hfst. induction items as [|x items IH];
          [destruct Hin|].
        cbn [map] in Hnodup. apply List.NoDup_cons_iff in Hnodup as [Hx Hrest].
        destruct Hin as [->|Hin], Hin' as [->|Hin']; try reflexivity.
        - exfalso. apply Hx. rewrite <- Hfst. apply in_map. exact Hin'.
        - exfalso. apply Hx. rewrite Hfst. apply in_map. exact Hin.
        - apply IH; assumption. }
      rewrite Hexp. reflexivity.
    + destruct (now >? ov_expiry (snd o)) eqn:Hexp; [|reflexivity].
      exfalso.
      assert (Hex' : existsb (String.eqb (fst o))
                (map fst (List.filter (fun o => now >? ov_expiry (snd o)) items))
              = true).
      { apply existsb_exists. exists (fst o). split; [|apply String.eqb_refl].
        apply in_map. apply filter_In. split; assumption. }
      congruence.
Qed.

(** [add_temporary_override] needs a token authorized for ["research"]:
    without one it answers [False] and leaves the overrides and the audit
    store as they were, and so it does with one when the expiry cannot be
    computed. With one and an expiry that can be computed, the pattern is
    in the table with the expiry [duration_hours] after the call and, as
    its creator, the first eight characters of the token; the answer is
    then whether the audit row could be written, and the override is
    stored either way. *)
Theorem add_temporary_override_spec (now : Z) (pattern : string)
    (duration_hours : Z) (reason auth_token : string)
    (self : AdaptiveContentPolicy) :
  let outcome :=
    add_temporary_override now pattern duration_hours reason auth_token self in
  let authorized :=
    fst (verify_authorization now auth_token "research" self) in
  (authorized = false ->
   fst outcome = false /\
   temporary_overrides (snd outcome) = temporary_overrides self /\
   db (snd outcome) = db self)
  /\
  (authorized = true ->
   forall msg,
     add_hours now duration_hours = Raise msg ->
     fst outcome = false /\
     temporary_overrides (snd outcome) = temporary_overrides self /\
     db (snd outcome) = db self)
  /\
  (authorized = true ->
   forall deadline,
     add_hours now duration_hours = Ok deadline ->
     deadline = now + duration_hours * hour /\
     fst outcome = db_available (db self) /\
     temporary_overrides (snd outcome)
     = dict_set pattern
         {| ov_expiry := deadline;
            ov_reason := reason;
            created_by := str_take 8 auth_token |}
         (temporary_overrides self) /\
     current_level (snd outcome) = current_level self /\
     policies (snd outcome) = policies self).
Proof.
  cbv zeta. unfold add_temporary_override.
  pose proof (verify_authorization_untouched now auth_token "research" self)
    as Hframe.
  cbv zeta in Hframe. destruct Hframe as (Hcur & Hpol & Hov & Hdb).
  assert (Htoken : fst (verify_authorization now auth_token "research" self) = true ->
            String.eqb auth_token "" = false).
  { unfold verify_authorization. destruct (String.eqb auth_token "");
      [discriminate|reflexivity]. }
  destruct (verify_authorization now auth_token "research" self)
    as [authorized self1].
  cbn [fst snd] in *. split; [|split]; intros ->; cbn [negb fst snd].
  - repeat split; assumption.
  - intros msg ->. repeat split; assumption.
  - intros deadline Hdeadline. rewrite Hdeadline.
    split; [apply (add_hours_ok now duration_hours deadline); exact Hdeadline|].
    rewrite (Htoken eq_refl). cbn [db set_temporary_overrides].
    rewrite Hdb, Hov. destruct (db_available (db self)); cbn [fst snd];
      repeat split; assumption.
Qed.

(** The table an authorized [add_temporary_override] leaves. *)
Lemma add_temporary_override_stored now pattern duration_hours reason
    auth_token self deadline :
  fst (verify_authorization now auth_token "research" self) = true ->
  add_hours now duration_hours = Ok deadline ->
  temporary_overrides
    (snd (add_temporary_override now pattern duration_hours reason auth_token
            self))
  = dict_set pattern
      {| ov_expiry := deadline;
         ov_reason := reason;
         created_by := str_take 8 auth_token |}
      (temporary_overrides self).
Proof.
  unfold add_temporary_override.
  pose proof (verify_authorization_untouched now auth_token "research" self)
    as Hframe.
  cbv zeta in Hframe. destruct Hframe as (_ & _ & Hov & _).
  assert (Htoken : fst (verify_authorization now auth_token "research" self) = true ->
            String.eqb auth_token "" = false).
  { unfold verify_authorization. destruct (String.eqb auth_token "");
      [discriminate|reflexivity]. }
  destruct (verify_authorization now auth_token "research" self)
    as [authorized self1].
  cbn [fst snd] in *. intros -> ->. cbn [negb]. rewrite (Htoken eq_refl).
  cbn [db set_temporary_overrides]. rewrite Hov.
  destruct (db_available (db self1)); reflexivity.
Qed.

(** The decision of [evaluate_content] when an unexpired override
    matches. *)
Lemma override_match_allows now content user_context self digest
    current_policy :
  is_blank content = false ->
  md5_hexdigest content = Ok digest ->
  current_policy_of self = Ok current_policy ->
  overrides_compile now content self ->
  override_matches now content self ->
  let result := fst (evaluate_content now content user_context self) in
  allowed result = true /\
  violations result = [] /\
  override_applied result = true.
Proof.
  intros Hblank Hdigest Hpolicy Hcompile Hmatch.
  rewrite (evaluate_content_normal _ _ _ _ _ _ Hblank Hdigest Hpolicy).
  cbv zeta. cbn [fst allowed violations override_applied].
  apply (check_temporary_overrides_spec now content self Hcompile) in Hmatch.
  rewrite Hmatch. split; [|split; [|reflexivity]].
  - apply forallb_forall. intros scored _. cbn [negb].
    rewrite andb_false_r. reflexivity.
  - induction (score_categories content) as [|scored scores IH]; [reflexivity|].
    cbn [List.filter negb]. rewrite andb_false_r. exact IH.
Qed.

(** The decision of [evaluate_content] when no override applies. *)
Lemma no_override_decision now content user_context self digest
    current_policy :
  is_blank content = false ->
  md5_hexdigest content = Ok digest ->
  current_policy_of self = Ok current_policy ->
  fst (check_temporary_overrides now content self) = false ->
  let result := fst (evaluate_content now content user_context self) in
  override_applied result = false /\
  (allowed result = false <->
   exists category score,
     In (category, score) (category_scores result) /\
     exceeds current_policy (category, score) = true).
Proof.
  intros Hblank Hdigest Hpolicy Hcheck.
  rewrite (evaluate_content_normal _ _ _ _ _ _ Hblank Hdigest Hpolicy).
  cbv zeta. cbn [fst allowed override_applied category_scores].
  rewrite Hcheck. split; [reflexivity|].
  rewrite forallb_false_iff. split.
  - intros [[category score] [Hin Hex]]. exists category, score.
    split; [exact Hin|]. cbn [negb] in Hex. rewrite andb_true_r in Hex.
    apply negb_false_iff in Hex. exact Hex.
  - intros (category & score & Hin & Hex). exists (category, score).
    split; [exact Hin|]. cbn [negb]. rewrite andb_true_r, Hex. reflexivity.
Qed.

Lemma dict_set_in {V : Type} (k : string) (v : V) (d : list (string * V)) :
  In (k, v) (dict_set k v d).
Proof.
  induction d as [|[k' v'] d IH]; cbn [dict_set]; [left; reflexivity|].
  destruct (String.eqb k' k); [left; reflexivity|right; exact IH].
Qed.

(** An override added by an authorized token, with an expiry that can be
    computed, makes [evaluate_content] allow, until that expiry, every
    content that is not blank and in which its pattern is found, whatever
    the category scores: provided the call is evaluated without an
    exception and the unexpired patterns of the table compile. *)
Theorem added_override_allows (now later : Z) (pattern : string)
    (duration_hours : Z) (reason auth_token content digest : string)
    (user_context : option string) (current_policy : gmap string float)
    (self : AdaptiveContentPolicy) (deadline : Z) :
  let self' :=
    snd (add_temporary_override now pattern duration_hours reason auth_token
           self) in
  fst (verify_authorization now auth_token "research" self) = true ->
  add_hours now duration_hours = Ok deadline ->
  later <= deadline ->
  re_search_ignorecase pattern content = Ok true ->
  overrides_compile later content self' ->
  is_blank content = false ->
  md5_hexdigest content = Ok digest ->
  current_policy_of self' = Ok current_policy ->
  let result := fst (evaluate_content later content user_context self') in
  allowed result = true /\
  violations result = [] /\
  override_applied result = true.
Proof.
  intros self' Hauth Hdeadline Hlater Hfound Hcompile Hblank Hdigest Hpolicy.
  apply (override_match_allows later content user_context self' digest
           current_policy Hblank Hdigest Hpolicy Hcompile).
  exists pattern,
    {| ov_expiry := deadline;
       ov_reason := reason;
       created_by := str_take 8 auth_token |}.
  split; [|split; [exact Hlater|exact Hfound]].
  subst self'.
  rewrite (add_temporary_override_stored now pattern duration_hours reason
             auth_token self deadline Hauth Hdeadline).
  apply dict_set_in.
Qed.

(** Once every override of the table has expired, no override applies
    to content that is not blank and is evaluated without an exception:
    [evaluate_content] decides by the thresholds alone and the table is
    left empty. *)
Theorem expired_overrides_do_not_apply (now : Z) (content digest : string)
    (user_context : option string) (current_policy : gmap string float)
    (self : AdaptiveContentPolicy) :
  (forall pattern info,
     In (pattern, info) (temporary_overrides self) -> ov_expiry info < now) ->
  is_blank content = false ->
  md5_hexdigest content = Ok digest ->
  current_policy_of self = Ok current_policy ->
  let outcome := evaluate_content now content user_context self in
  override_applied (fst outcome) = false /\
  temporary_overrides (snd outcome) = [] /\
  (allowed (fst outcome) = false <->
   exists category score,
     In (category, score) (category_scores (fst outcome)) /\
     exceeds current_policy (category, score) = true).
Proof.
  intros Hexpired Hblank Hdigest Hpolicy.
  assert (Hcompile : overrides_compile now content self).
  { intros pattern info Hin Hle. specialize (Hexpired pattern info Hin). lia. }
  assert (Hnomatch : ~ override_matches now content self).
  { intros (pattern & info & Hin & Hle & _).
    specialize (Hexpired pattern info Hin). lia. }
  assert (Hfalse : fst (check_temporary_overrides now content self) = false).
  { destruct (fst (check_temporary_overrides now content self)) eqn:Hcheck;
      [|reflexivity].
    exfalso. apply Hnomatch.
    apply (check_temporary_overrides_spec now content self Hcompile).
    exact Hcheck. }
  destruct (no_override_decision now content user_context self digest
              current_policy Hblank Hdigest Hpolicy Hfalse)
    as (Hnone & Hdecision).
  cbv zeta in Hnone, Hdecision |- *.
  split; [exact Hnone|]. split; [|exact Hdecision].
  - rewrite (evaluate_content_normal _ _ _ _ _ _ Hblank Hdigest Hpolicy).
    cbv zeta. cbn [snd].
    assert (Hlog : forall h r c s,
              temporary_overrides (log_content_evaluation h r c s)
              = temporary_overrides s).
    { intros h r c s. unfold log_content_evaluation.
      destruct (policy_level r); [reflexivity|].
      destruct (db_available (db s)); reflexivity. }
    rewrite Hlog.
    pose proof (fun o =>
                  check_temporary_overrides_left now content self o Hcompile
                    Hfalse) as Hleft.
    destruct (temporary_overrides (snd (check_temporary_overrides now content self)))
      as [|[pattern info] rest]; [reflexivity|].
    exfalso. destruct (Hleft (pattern, info) (or_introl eq_refl)) as [Hlive Hin].
    specialize (Hexpired pattern info Hin). cbn [snd] in Hlive.
    apply negb_true_iff in Hlive. rewrite Z.gtb_ltb, Z.ltb_ge in Hlive. lia.
Qed.

End Overrides.


(** *** Score bounds and what an evaluation leaves alone *)

Section Scores.

Context {rt : Runtime}.

Lemma SFltb_asym (a b : SpecFloat.spec_float) :
  SpecFloat.SFltb a b = true -> SpecFloat.SFltb b a = false.
Proof.
  unfold SpecFloat.SFltb, SpecFloat.SFcompare.
  destruct a as [sa|sa| |sa ma ea], b as [sb|sb| |sb mb eb];
    try (destruct sa); try (destruct sb); try discriminate; try reflexivity;
    change (PosDef.Pos.compare_cont Eq mb ma) with (Pos.compare mb ma);
    change (PosDef.Pos.compare_cont Eq ma mb) with (Pos.compare ma mb);
    rewrite (Z.compare_antisym ea eb), (Pos.compare_antisym ma mb);
    destruct (ea ?= eb)%Z; cbn; try discriminate; try reflexivity;
    destruct (ma ?= mb)%positive; cbn; try discriminate; reflexivity.
Qed.

Lemma fgt_asym (x y : float) : fgt x y = true -> fgt y x = false.
Proof. unfold fgt. rewrite !ltb_spec. apply SFltb_asym. Qed.

(** [min(1.0, max(0.0, score))] is neither above 1.0 nor below 0.0,
    whatever the detector returned. *)
Lemma clamp_bounds (score : float) :
  let clamped := fmin 1.0%float (fmax 0.0%float score) in
  fgt clamped 1.0%float = false /\ fgt 0.0%float clamped = false.
Proof.
  cbv zeta. unfold fmin, fmax.
  destruct (PrimFloat.ltb 0 score) eqn:Hpositive.
  - destruct (PrimFloat.ltb score 1) eqn:Hbelow.
    + split; [apply fgt_asym; exact Hbelow|apply fgt_asym; exact Hpositive].
    + split; reflexivity.
  - split; reflexivity.
Qed.

(** Every category score that [evaluate_content] compares with a
    threshold lies within [0, 1]; hence a category whose threshold is 1.0
    never counts as a violation, whatever the content. *)
Theorem category_scores_are_clamped (content : string) :
  (forall category score,
     In (category, score) (score_categories content) ->
     fgt score 1.0%float = false /\ fgt 0.0%float score = false)
  /\
  (forall (current_policy : gmap string float) category score,
     In (category, score) (score_categories content) ->
     current_policy !! category = Some 1.0%float ->
     exceeds current_policy (category, score) = false).
Proof.
  assert (Hbounds : forall category score,
            In (category, score) (score_categories content) ->
            fgt score 1.0%float = false /\ fgt 0.0%float score = false).
  { intros category score Hin. unfold score_categories in Hin.
    apply in_map_iff in Hin as ([name detector] & Heq & _).
    injection Heq as _ <-. apply clamp_bounds. }
  split; [exact Hbounds|].
  intros current_policy category score Hin Hthreshold.
  unfold exceeds. cbn [fst snd]. rewrite Hthreshold. cbn [default].
  apply (Hbounds category score Hin).
Qed.

(** [evaluate_content] never changes the active level, the session
    tokens or the threshold table. *)
Theorem evaluate_content_frame (now : Z) (content : string)
    (user_context : option string) (self : AdaptiveContentPolicy) :
  let self' := snd (evaluate_content now content user_context self) in
  current_level self' = current_level self /\
  session_tokens self' = session_tokens self /\
  policies self' = policies self.
Proof.
  cbv zeta. unfold evaluate_content.
  destruct (String.eqb content "" || (len (strip content) =? 0)%nat);
    [repeat split|].
  destruct (md5_hexdigest content) as [digest|msg]; cbn [bind]; [|repeat split].
  destruct (current_policy_of self) as [current_policy|msg]; cbn [bind];
    [|repeat split].
  assert (Hcheck :
    current_level (snd (check_temporary_overrides now content self))
    = current_level self /\
    session_tokens (snd (check_temporary_overrides now content self))
    = session_tokens self /\
    policies (snd (check_temporary_overrides now content self)) = policies self).
  { unfold check_temporary_overrides.
    destruct (overrides_loop now content (temporary_overrides self) [])
      as [[expired|]|msg]; repeat split. }
  destruct (check_temporary_overrides now content self) as [applied self1].
  cbn [snd] in Hcheck. destruct (decision_loop _ _ _) as [violations allowed].
  cbn [snd].
  assert (Hlog : forall h r c s,
            current_level (log_content_evaluation h r c s) = current_level s /\
            session_tokens (log_content_evaluation h r c s) = session_tokens s /\
            policies (log_content_evaluation h r c s) = policies s).
  { intros h r c s. unfold log_content_evaluation.
    destruct (policy_level r); [repeat split|].
    destruct (db_available (db s)); repeat split. }
  destruct (Hlog digest
              {| allowed := allowed;
                 policy_level := current_level self1;
                 category_scores := score_categories content;
                 violations := violations;
                 override_applied := applied;
                 content_hash := digest;
                 evaluation_time := isoformat now;
                 block_reason :=
                   if allowed then None else Some (join "; " violations) |}
              user_context self1) as (-> & -> & ->).
  exact Hcheck.
Qed.

End Scores.

(** *** Instances *)

(** The token minted for ["research"] is, half an hour after it was
    minted for one hour, authorized for ["educational"]. *)
Lemma minted_token_authorization_witness :
  fst (verify_authorization (hour / 2) (fst minted) "educational" (snd minted))
  = (level_hierarchy_get "research" >=? level_hierarchy_get "educational").
Proof.
  apply (proj1 (minted_token_authorization (rt := AsciiRuntime.runtime)
                  0 "alice" "research" 1 (init empty_db))
           "sha256:alice:research:" hour (hour / 2) "educational" eq_refl
           eq_refl).
  - discriminate.
  - vm_compute. discriminate.
Defined.

(** The override for ["kill"] added by the holder of the research token
    lets ["kill kill"] through half an hour later. *)
Lemma added_override_allows_witness :
  let self' :=
    snd (add_temporary_override (rt := AsciiRuntime.runtime) 0 "kill" 1
           "test scenario" (fst minted) (snd minted)) in
  let result :=
    fst (evaluate_content (rt := AsciiRuntime.runtime) (hour / 2) "kill kill"
           None self') in
  allowed result = true /\ violations result = [] /\
  override_applied result = true.
Proof.
  apply (added_override_allows (rt := AsciiRuntime.runtime) 0 (hour / 2) "kill"
           1 "test scenario" (fst minted) "kill kill" "md5:kill kill" None
           (default ∅ (initial_policies !! "safe")) (snd minted) hour).
  - vm_compute. reflexivity.
  - reflexivity.
  - vm_compute. discriminate.
  - vm_compute. reflexivity.
  - intros pattern info Hin _. vm_compute in Hin.
    destruct Hin as [Heq|[]]. injection Heq as <- <-.
    eexists. vm_compute. reflexivity.
  - vm_compute. reflexivity.
  - reflexivity.
  - vm_compute. reflexivity.
Defined.

(** Two hours later the override has expired: the same content is
    rejected again and the override is gone from the table. *)
Lemma expired_overrides_do_not_apply_witness :
  let outcome :=
    evaluate_content (rt := AsciiRuntime.runtime) (2 * hour) "kill kill" None
      overridden_state in
  override_applied (fst outcome) = false /\
  temporary_overrides (snd outcome) = [] /\
  allowed (fst outcome) = false.
Proof.
  destruct (expired_overrides_do_not_apply (rt := AsciiRuntime.runtime)
              (2 * hour) "kill kill" "md5:kill kill" None
              (default ∅ (initial_policies !! "safe")) overridden_state)
    as (Hnot & Hempty & Hdecision).
  - intros pattern info Hin. vm_compute in Hin.
    destruct Hin as [Heq|[]]. injection Heq as <- <-. vm_compute. reflexivity.
  - vm_compute. reflexivity.
  - reflexivity.
  - vm_compute. reflexivity.
  - cbv zeta in *. split; [exact Hnot|]. split; [exact Hempty|].
    vm_compute. reflexivity.
Defined.

End FixedContentPolicy.

(** ** [content_policy_module.py]: the policy keyed by enumeration members *)

Module ContentPolicyModule.

Record session : Type := {
  user_id : string;
  level : ContentLevel.t;
  expiry : Z
}.

Record override_info : Type := {
  ov_expiry : Z;
  ov_reason : string;
  created_by : string
}.

Record policy_change_row : Type := {
  row_old_level : string;
  row_new_level : string;
  row_auth_token_hash : option string;
  row_reason : option string
}.

(** The part of the audit store that the operations below write. *)
Record database : Type := {
  db_available : bool;
  policy_changes : list policy_change_row
}.

Record AdaptiveContentPolicy : Type := {
  current_level : ContentLevel.t;
  session_tokens : gmap string session;
  policies : gmap ContentLevel.t (gmap ContentCategory.t float);
  temporary_overrides : list (string * override_info);
  db : database
}.

Definition set_current_level (v : ContentLevel.t) (self : AdaptiveContentPolicy) :=
  {| current_level := v;
     session_tokens := session_tokens self;
     policies := policies self;
     temporary_overrides := temporary_overrides self;
     db := db self |}.

Definition set_session_tokens (v : gmap string session)
    (self : AdaptiveContentPolicy) :=
  {| current_level := current_level self;
     session_tokens := v;
     policies := policies self;
     temporary_overrides := temporary_overrides self;
     db := db self |}.

Definition set_policies (v : gmap ContentLevel.t (gmap ContentCategory.t float))
    (self : AdaptiveContentPolicy) :=
  {| current_level := current_level self;
     session_tokens := session_tokens self;
     policies := v;
     temporary_overrides := temporary_overrides self;
     db := db self |}.

Definition set_db (v : database) (self : AdaptiveContentPolicy) :=
  {| current_level := current_level self;
     session_tokens := session_tokens self;
     policies := policies self;
     temporary_overrides := temporary_overrides self;
     db := v |}.

(** The dictionary [export_policy_config] returns and
    [import_policy_config] reads. The keys ["current_level"] and
    ["policies"] may be absent from a dictionary handed to the import. *)
Record policy_config : Type := {
  cfg_current_level : option string;
  cfg_policies : option (list (string * list (string * float)));
  cfg_active_overrides : list (string * (string * string));
  cfg_export_time : string
}.

Section Engine.

Context {rt : Runtime}.

(** [generate_auth_token(user_id, level, duration_hours)]; a failure of
    the digest or of the computation of the expiry is not caught here. *)
Definition generate_auth_token (now : Z) (user_id : string)
    (level : ContentLevel.t) (duration_hours : Z)
    (self : AdaptiveContentPolicy) : result (string * AdaptiveContentPolicy) :=
  let token_data :=
    user_id +:+ ":" +:+ ContentLevel.value level +:+ ":" +:+ isoformat now in
  let? digest := sha256_hexdigest token_data in
  let token := str_take 32 digest in
  let? expiry := add_hours now duration_hours in
  Ok (token,
      set_session_tokens
        (<[token := {| user_id := user_id; level := level; expiry := expiry |}]>
           (session_tokens self))
        self).

(** [verify_authorization(token, required_level)]. *)
Definition verify_authorization (now : Z) (token : string)
    (required_level : ContentLevel.t) (self : AdaptiveContentPolicy)
    : bool * AdaptiveContentPolicy :=
  if String.eqb token "" then (false, self)
  else
    match session_tokens self !! token with
    | Some session =>
        if now >? expiry session then
          (false, set_session_tokens (delete token (session_tokens self)) self)
        else
          let token_level := level session in
          (ContentLevel.hierarchy token_level
             >=? ContentLevel.hierarchy required_level,
           self)
    | None => (false, self)
    end.

(** [log_policy_change]: every failure is caught and only logged. *)
Definition log_policy_change (old_level new_level : ContentLevel.t)
    (auth_token : string) (reason : option string)
    (self : AdaptiveContentPolicy) : AdaptiveContentPolicy :=
  let token_hash :=
    if String.eqb auth_token "" then Ok None
    else let? digest := sha256_hexdigest auth_token in
         Ok (Some (str_take 16 digest)) in
  match token_hash with
  | Ok token_hash =>
      if db_available (db self) then
        set_db
          {| db_available := true;
             policy_changes :=
               policy_changes (db self) ++
               [{| row_old_level := ContentLevel.value old_level;
                   row_new_level := ContentLevel.value new_level;
                   row_auth_token_hash := token_hash;
                   row_reason := reason |}] |}
          self
      else self
  | Raise _ => self
  end.

(** [set_policy_level(level, auth_token, reason)]. *)
Definition set_policy_level (now : Z) (level : ContentLevel.t)
    (auth_token : string) (reason : option string)
    (self : AdaptiveContentPolicy) : bool * AdaptiveContentPolicy :=
  let old_level := current_level self in
  let '(authorized, self) :=
    match level with
    | ContentLevel.RESEARCH | ContentLevel.UNRESTRICTED =>
        verify_authorization now auth_token level self
    | _ => (true, self)
    end in
  if negb authorized then (false, self)
  else
    let self := set_current_level level self in
    (true, log_policy_change old_level level auth_token reason self).

(** [export_policy_config()]. *)
Definition export_policy_config (now : Z) (self : AdaptiveContentPolicy)
    : policy_config :=
  {| cfg_current_level := Some (ContentLevel.value (current_level self));
     cfg_policies :=
       Some (map (fun '(level, policy) =>
                    (ContentLevel.value level,
                     map (fun '(category, threshold) =>
                            (ContentCategory.value category, threshold))
                         (map_to_list policy)))
                 (map_to_list (policies self)));
     cfg_active_overrides :=
       map (fun '(pattern, info) =>
              (pattern, (isoformat (ov_expiry info), ov_reason info)))
           (temporary_overrides self);
     cfg_export_time := isoformat now |}.

(** The inner loop of the import, [self.policies[level][category] =
    threshold] for the entries of one level. An exception stops the loop
    and leaves the entries already written in place. *)
Fixpoint import_thresholds (level : ContentLevel.t)
    (entries : list (string * float)) (self : AdaptiveContentPolicy)
    : result unit * AdaptiveContentPolicy :=
  match entries with
  | [] => (Ok tt, self)
  | (category_str, threshold) :: rest =>
      match ContentCategory.of_value category_str with
      | Raise msg => (Raise msg, self)
      | Ok category =>
          match policies self !! level with
          | None => (Raise (ContentLevel.value level), self)
          | Some policy =>
              import_thresholds level rest
                (set_policies
                   (<[level := <[category := threshold]> policy]> (policies self))
                   self)
          end
      end
  end.

(** The outer loop of the import, over the levels. *)
Fixpoint import_policies (entries : list (string * list (string * float)))
    (self : AdaptiveContentPolicy) : result unit * AdaptiveContentPolicy :=
  match entries with
  | [] => (Ok tt, self)
  | (level_str, policy_config) :: rest =>
      match ContentLevel.of_value level_str with
      | Raise msg => (Raise msg, self)
      | Ok level =>
          match import_thresholds level policy_config self with
          | (Ok _, self) => import_policies rest self
          | (Raise msg, self) => (Raise msg, self)
          end
      end
  end.

(** [import_policy_config(config, auth_token)]. The level is restored
    through [set_policy_level], whose answer is not looked at; the
    thresholds are written only for a token authorized at
    [UNRESTRICTED]. An exception is caught and the answer is [False]. *)
Definition import_policy_config (now : Z) (config : policy_config)
    (auth_token : string) (self : AdaptiveContentPolicy)
    : bool * AdaptiveContentPolicy :=
  let '(authorized, self) :=
    verify_authorization now auth_token ContentLevel.RESEARCH self in
  if negb authorized then (false, self)
  else
    let '(level_done, self) :=
      match cfg_current_level config with
      | Some level_str =>
          match ContentLevel.of_value level_str with
          | Ok new_level =>
              (Ok tt,
               snd (set_policy_level now new_level auth_token
                      (Some "Config import") self))
          | Raise msg => (Raise msg, self)
          end
      | None => (Ok tt, self)
      end in
    match level_done with
    | Raise _ => (false, self)
    | Ok _ =>
        match cfg_policies config with
        | Some entries =>
            let '(unrestricted, self) :=
              verify_authorization now auth_token ContentLevel.UNRESTRICTED self in
            if unrestricted then
              match import_policies entries self with
              | (Ok _, self) => (true, self)
              | (Raise _, self) => (false, self)
              end
            else (true, self)
        | None => (true, self)
        end
    end.

End Engine.

(** The [self.policies] table of [__init__]. *)
Definition initial_policies
    : gmap ContentLevel.t (gmap ContentCategory.t float) :=
  let row (violence adult hate_speech illegal medical political controversial
           educational technical creative : float)
      : gmap ContentCategory.t float :=
    list_to_map [
      (ContentCategory.VIOLENCE, violence); (ContentCategory.ADULT, adult);
      (ContentCategory.HATE_SPEECH, hate_speech);
      (ContentCategory.ILLEGAL, illegal); (ContentCategory.MEDICAL, medical);
      (ContentCategory.POLITICAL, political);
      (ContentCategory.CONTROVERSIAL, controversial);
      (ContentCategory.EDUCATIONAL, educational);
      (ContentCategory.TECHNICAL, technical);
      (ContentCategory.CREATIVE, creative)] in
  list_to_map [
    (ContentLevel.SAFE,
     row 0.1 0.0 0.0 0.0 0.3 0.2 0.2 1.0 1.0 0.8);
    (ContentLevel.EDUCATIONAL,
     row 0.3 0.1 0.1 0.2 0.8 0.7 0.6 1.0 1.0 1.0);
    (ContentLevel.RESEARCH,
     row 0.6 0.4 0.3 0.5 1.0 1.0 0.9 1.0 1.0 1.0);
    (ContentLevel.UNRESTRICTED,
     row 0.8 0.7 0.5 0.3 1.0 1.0 1.0 1.0 1.0 1.0)
  ]%float.

(** The state [__init__] builds, over an audit store [d]. *)
Definition init (d : database) : AdaptiveContentPolicy :=
  {| current_level := ContentLevel.SAFE;
     session_tokens := ∅;
     policies := initial_policies;
     temporary_overrides := [];
     db := d |}.

Section RoundTrip.

Context {rt : Runtime}.

Lemma level_of_value_value (l : ContentLevel.t) :
  ContentLevel.of_value (ContentLevel.value l) = Ok l.
Proof. destruct l; reflexivity. Qed.

Lemma category_of_value_value (c : ContentCategory.t) :
  ContentCategory.of_value (ContentCategory.value c) = Ok c.
Proof. destruct c; reflexivity. Qed.

Lemma set_policies_same (self : AdaptiveContentPolicy) :
  set_policies (policies self) self = self.
Proof. destruct self; reflexivity. Qed.

(** A successful verification leaves the state as it is. *)
Lemma verify_authorization_true now token required_level self :
  fst (verify_authorization now token required_level self) = true ->
  snd (verify_authorization now token required_level self) = self.
Proof.
  unfold verify_authorization.
  destruct (String.eqb token ""); [discriminate|].
  destruct (session_tokens self !! token) as [session|]; [|discriminate].
  destruct (now >? expiry session); [discriminate|reflexivity].
Qed.

(** A token authorized at [UNRESTRICTED] is authorized at every level. *)
Lemma verify_authorization_unrestricted now token required_level self :
  fst (verify_authorization now token ContentLevel.UNRESTRICTED self) = true ->
  fst (verify_authorization now token required_level self) = true.
Proof.
  unfold verify_authorization.
  destruct (String.eqb token ""); [discriminate|].
  destruct (session_tokens self !! token) as [session|]; [|discriminate].
  destruct (now >? expiry session); [discriminate|]. cbn [fst].
  rewrite !Z.geb_le. destruct (level session), required_level; cbn; lia.
Qed.

(** Writing back thresholds that the table already holds changes
    nothing. *)
Lemma import_thresholds_same level policy entries self :
  policies self !! level = Some policy ->
  (forall category threshold,
     In (category, threshold) entries -> policy !! category = Some threshold) ->
  import_thresholds level
    (map (fun '(category, threshold) =>
            (ContentCategory.value category, threshold)) entries)
    self
  = (Ok tt, self).
Proof.
  intros Hlevel. induction entries as [|[category threshold] entries IH];
    intros Hentries; [reflexivity|].
  cbn [map import_thresholds]. rewrite category_of_value_value, Hlevel.
  rewrite (insert_id policy category threshold)
    by (apply Hentries; left; reflexivity).
  rewrite (insert_id (policies self) level policy) by exact Hlevel.
  rewrite set_policies_same. apply IH.
  intros c t Hin. apply Hentries. right. exact Hin.
Qed.

Lemma import_policies_same entries self :
  (forall level policy,
     In (level, policy) entries -> policies self !! level = Some policy) ->
  import_policies
    (map (fun '(level, policy) =>
            (ContentLevel.value level,
             map (fun '(category, threshold) =>
                    (ContentCategory.value category, threshold))
                 (map_to_list policy)))
         entries)
    self
  = (Ok tt, self).
Proof.
  induction entries as [|[level policy] entries IH]; intros Hentries;
    [reflexivity|].
  cbn [map import_policies]. rewrite level_of_value_value.
  rewrite (import_thresholds_same level policy).
  - apply IH. intros l p Hin. apply Hentries. right. exact Hin.
  - apply Hentries. left. reflexivity.
  - intros category threshold Hin.
    apply elem_of_map_to_list, list_elem_of_In. exact Hin.
Qed.

(** [set_policy_level] writes the level and the audit store only. *)
Lemma set_policy_level_frame now level token reason self :
  fst (verify_authorization now token ContentLevel.UNRESTRICTED self) = true ->
  let self' := snd (set_policy_level now level token reason self) in
  current_level self' = level /\
  policies self' = policies self /\
  session_tokens self' = session_tokens self.
Proof.
  intros Hauth. unfold set_policy_level.
  assert (Hstep :
    match level with
    | ContentLevel.RESEARCH | ContentLevel.UNRESTRICTED =>
        verify_authorization now token level self
    | _ => (true, self)
    end = (true, self)).
  { destruct level; try reflexivity;
      rewrite (surjective_pairing (verify_authorization _ _ _ _));
      rewrite verify_authorization_true
        by (apply verify_authorization_unrestricted; exact Hauth);
      rewrite verify_authorization_unrestricted by exact Hauth; reflexivity. }
  rewrite Hstep. cbn [negb snd]. unfold log_policy_change.
  destruct (if String.eqb token "" then _ else _); [|repeat split].
  cbn [db set_current_level]. destruct (db_available (db self)); repeat split.
Qed.

(** C7. For every state of the engine, importing the configuration that
    [export_policy_config] has just returned, with a token that verifies
    at [UNRESTRICTED], answers [True] and leaves the threshold table and
    the active level as they were at the export. *)
Theorem export_import_roundtrip (export_time now : Z) (token : string)
    (self : AdaptiveContentPolicy) :
  fst (verify_authorization now token ContentLevel.UNRESTRICTED self) = true ->
  let config := export_policy_config export_time self in
  let outcome := import_policy_config now config token self in
  fst outcome = true /\
  policies (snd outcome) = policies self /\
  current_level (snd outcome) = current_level self.
Proof.
  intros Hauth. cbv zeta. unfold import_policy_config.
  rewrite (surjective_pairing (verify_authorization now token ContentLevel.RESEARCH self)).
  rewrite verify_authorization_true
    by (apply verify_authorization_unrestricted; exact Hauth).
  rewrite verify_authorization_unrestricted by exact Hauth.
  cbn [negb export_policy_config cfg_current_level cfg_policies].
  rewrite level_of_value_value.
  destruct (set_policy_level_frame now (current_level self) token
              (Some "Config import") self Hauth) as (Hlevel & Hpolicies & Htokens).
  set (self1 := snd (set_policy_level now (current_level self) token
                       (Some "Config import") self)) in *.
  assert (Hauth1 :
    fst (verify_authorization now token ContentLevel.UNRESTRICTED self1) = true).
  { revert Hauth. unfold verify_authorization. rewrite Htokens.
    destruct (String.eqb token ""); [tauto|].
    destruct (session_tokens self !! token) as [session|]; [|tauto].
    destruct (now >? expiry session); tauto. }
  rewrite (surjective_pairing
             (verify_authorization now token ContentLevel.UNRESTRICTED self1)).
  rewrite verify_authorization_true by exact Hauth1. rewrite Hauth1.
  rewrite <- Hpolicies. rewrite import_policies_same.
  - cbn [fst snd]. repeat split. exact Hlevel.
  - intros level policy Hin.
    apply elem_of_map_to_list, list_elem_of_In. exact Hin.
Qed.

End RoundTrip.

(** *** An instance *)

(** A fresh policy object on which an [UNRESTRICTED] token was minted for
    a day and used to switch to [RESEARCH]: the token and the state. *)
Definition research_state : string * AdaptiveContentPolicy :=
  match
    generate_auth_token (rt := AsciiRuntime.runtime) 0 "root"
      ContentLevel.UNRESTRICTED 24
      (init {| db_available := true; policy_changes := [] |})
  with
  | Ok (token, self) =>
      (token,
       snd (set_policy_level (rt := AsciiRuntime.runtime) 0
              ContentLevel.RESEARCH token None self))
  | Raise _ => ("", init {| db_available := true; policy_changes := [] |})
  end.

(** C7, an instance: one hour later the exported configuration is imported
    with the same token. *)
Lemma export_import_roundtrip_witness :
  let self := snd research_state in
  let outcome :=
    import_policy_config (rt := AsciiRuntime.runtime) hour
      (export_policy_config (rt := AsciiRuntime.runtime) hour self)
      (fst research_state) self in
  fst outcome = true /\
  policies (snd outcome) = policies self /\
  current_level (snd outcome) = current_level self.
Proof.
  apply (export_import_roundtrip (rt := AsciiRuntime.runtime) hour hour
           (fst research_state) (snd research_state)).
  vm_compute. reflexivity.
Defined.

(** The level of the instance is [RESEARCH], and the import records the
    level change in the audit store. *)
Lemma export_import_roundtrip_instance_level :
  let self := snd research_state in
  let outcome :=
    import_policy_config (rt := AsciiRuntime.runtime) hour
      (export_policy_config (rt := AsciiRuntime.runtime) hour self)
      (fst research_state) self in
  current_level (snd outcome) = ContentLevel.RESEARCH /\
  length (policy_changes (db (snd outcome)))
  = S (length (policy_changes (db self))).
Proof. split; vm_compute; reflexivity. Qed.


(** *** Authorization and failure of the import *)

Section ImportGuards.

Context {rt : Runtime}.

(** The answer of a verification depends on the session table only. *)
Lemma verify_authorization_same_tokens now token required_level self self' :
  session_tokens self' = session_tokens self ->
  fst (verify_authorization now token required_level self')
  = fst (verify_authorization now token required_level self).
Proof.
  intros Htokens. unfold verify_authorization. rewrite Htokens.
  destruct (String.eqb token ""); [reflexivity|].
  destruct (session_tokens self !! token) as [session|]; [|reflexivity].
  destruct (now >? expiry session); reflexivity.
Qed.

(** A verification never touches the level or the threshold table. *)
Lemma verify_authorization_keeps now token required_level self :
  current_level (snd (verify_authorization now token required_level self))
  = current_level self /\
  policies (snd (verify_authorization now token required_level self))
  = policies self.
Proof.
  unfold verify_authorization.
  destruct (String.eqb token ""); [split; reflexivity|].
  destruct (session_tokens self !! token) as [session|]; [|split; reflexivity].
  destruct (now >? expiry session); split; reflexivity.
Qed.

(** [set_policy_level] never touches the threshold table, and leaves
    the session table alone when the token is one that verifies. *)
Lemma set_policy_level_keeps now level token reason self :
  policies (snd (set_policy_level now level token reason self)) = policies self /\
  (fst (verify_authorization now token ContentLevel.RESEARCH self) = true ->
   session_tokens (snd (set_policy_level now level token reason self))
   = session_tokens self).
Proof.
  unfold set_policy_level.
  assert (Hlog : forall old self0,
            policies (log_policy_change old level token reason self0)
            = policies self0 /\
            session_tokens (log_policy_change old level token reason self0)
            = session_tokens self0).
  { intros old self0. unfold log_policy_change.
    destruct (if String.eqb token "" then _ else _); [|split; reflexivity].
    destruct (db_available (db self0)); split; reflexivity. }
  assert (Hverify : forall required,
            policies (snd (verify_authorization now token required self))
            = policies self /\
            (fst (verify_authorization now token ContentLevel.RESEARCH self) = true ->
             session_tokens (snd (verify_authorization now token required self))
             = session_tokens self)).
  { intros required. split; [apply verify_authorization_keeps|].
    unfold verify_authorization.
    destruct (String.eqb token ""); [reflexivity|].
    destruct (session_tokens self !! token) as [session|]; [|reflexivity].
    destruct (now >? expiry session); [discriminate|reflexivity]. }
  destruct level; cbn [negb fst snd];
    try (match goal with
         | |- context [set_current_level ?l self] =>
             destruct (Hlog (current_level self) (set_current_level l self))
               as [-> ->]
         end;
         split; [reflexivity|intros _; reflexivity]).
  - destruct (Hverify ContentLevel.RESEARCH) as [Hpol Htok].
    destruct (verify_authorization now token ContentLevel.RESEARCH self)
      as [authorized self1]. cbn [fst snd] in *.
    destruct authorized; cbn [negb snd]; [|split; assumption].
    destruct (Hlog (current_level self)
                (set_current_level ContentLevel.RESEARCH self1)) as [-> ->].
    split; assumption.
  - destruct (Hverify ContentLevel.UNRESTRICTED) as [Hpol Htok].
    destruct (verify_authorization now token ContentLevel.UNRESTRICTED self)
      as [authorized self1]. cbn [fst snd] in *.
    destruct authorized; cbn [negb snd]; [|split; assumption].
    destruct (Hlog (current_level self)
                (set_current_level ContentLevel.UNRESTRICTED self1)) as [-> ->].
    split; assumption.
Qed.

(** Without a token authorized for [RESEARCH], [import_policy_config]
    answers [False] and changes neither the level nor the thresholds,
    whatever the configuration. *)
Theorem import_requires_research (now : Z) (config : policy_config)
    (token : string) (self : AdaptiveContentPolicy) :
  fst (verify_authorization now token ContentLevel.RESEARCH self) = false ->
  let outcome := import_policy_config now config token self in
  fst outcome = false /\
  current_level (snd outcome) = current_level self /\
  policies (snd outcome) = policies self.
Proof.
  intros Hauth. cbv zeta. unfold import_policy_config.
  pose proof (verify_authorization_keeps now token ContentLevel.RESEARCH self)
    as [Hlevel Hpolicies].
  destruct (verify_authorization now token ContentLevel.RESEARCH self)
    as [authorized self1].
  cbn [fst snd] in *. subst authorized. cbn [negb fst snd].
  split; [reflexivity|]. split; assumption.
Qed.

(** Without a token authorized for [UNRESTRICTED], [import_policy_config]
    never changes a threshold, whatever the configuration holds. *)
Theorem import_thresholds_need_unrestricted (now : Z) (config : policy_config)
    (token : string) (self : AdaptiveContentPolicy) :
  fst (verify_authorization now token ContentLevel.UNRESTRICTED self) = false ->
  policies (snd (import_policy_config now config token self)) = policies self.
Proof.
  intros Hauth. unfold import_policy_config.
  pose proof (verify_authorization_keeps now token ContentLevel.RESEARCH self)
    as [_ Hpolicies].
  pose proof (verify_authorization_true now token ContentLevel.RESEARCH self)
    as Hsame.
  destruct (verify_authorization now token ContentLevel.RESEARCH self)
    as [authorized self1] eqn:Hresearch.
  cbn [fst snd] in *. destruct authorized; cbn [negb]; [|exact Hpolicies].
  specialize (Hsame eq_refl). subst self1.
  assert (Hresearch' :
    fst (verify_authorization now token ContentLevel.RESEARCH self) = true)
    by (rewrite Hresearch; reflexivity).
  assert (Hlevel : forall level,
            policies (snd (set_policy_level now level token
                             (Some "Config import") self)) = policies self /\
            fst (verify_authorization now token ContentLevel.UNRESTRICTED
                   (snd (set_policy_level now level token
                           (Some "Config import") self))) = false).
  { intros level.
    destruct (set_policy_level_keeps now level token (Some "Config import") self)
      as [Hpol Htok].
    split; [exact Hpol|].
    rewrite (verify_authorization_same_tokens _ _ _ self _ (Htok Hresearch')).
    exact Hauth. }
  destruct (cfg_current_level config) as [level_str|].
  - destruct (ContentLevel.of_value level_str) as [new_level|msg];
      [|reflexivity].
    destruct (Hlevel new_level) as [Hpol Hno].
    destruct (cfg_policies config) as [entries|]; [|exact Hpol].
    pose proof (verify_authorization_keeps now token ContentLevel.UNRESTRICTED
                  (snd (set_policy_level now new_level token
                          (Some "Config import") self))) as [_ Hkeep].
    destruct (verify_authorization now token ContentLevel.UNRESTRICTED
                (snd (set_policy_level now new_level token
                        (Some "Config import") self)))
      as [unrestricted self2].
    cbn [fst snd] in *. subst unrestricted. cbn [snd]. congruence.
  - destruct (cfg_policies config) as [entries|]; [|reflexivity].
    pose proof (verify_authorization_keeps now token ContentLevel.UNRESTRICTED
                  self) as [_ Hkeep].
    destruct (verify_authorization now token ContentLevel.UNRESTRICTED self)
      as [unrestricted self2].
    cbn [fst snd] in *. subst unrestricted. exact Hkeep.
Qed.

End ImportGuards.


(** *** What the import writes *)

Section ImportWrites.

Context {rt : Runtime}.

(** The thresholds of one level after the entries were written over
    them, one by one. *)
Definition write_thresholds (entries : list (ContentCategory.t * float))
    (policy : gmap ContentCategory.t float) : gmap ContentCategory.t float :=
  fold_left (fun policy '(category, threshold) => <[category := threshold]> policy)
    entries policy.

(** The entries of a level as they stand in a configuration. *)
Definition config_entries (entries : list (ContentCategory.t * float))
    : list (string * float) :=
  map (fun '(category, threshold) => (ContentCategory.value category, threshold))
    entries.

Lemma set_policies_twice m1 m2 (self : AdaptiveContentPolicy) :
  set_policies m2 (set_policies m1 self) = set_policies m2 self.
Proof. reflexivity. Qed.

(** The inner loop on entries that all name a category: they are all
    written. *)
Lemma import_thresholds_valid level entries :
  forall self policy,
    policies self !! level = Some policy ->
    import_thresholds level (config_entries entries) self
    = (Ok tt,
       set_policies
         (<[level := write_thresholds entries policy]> (policies self)) self).
Proof.
  induction entries as [|[category threshold] entries IH]; intros self policy Hlevel.
  - cbn [config_entries map import_thresholds write_thresholds fold_left].
    rewrite (insert_id (policies self) level policy) by exact Hlevel.
    rewrite set_policies_same. reflexivity.
  - cbn [config_entries map import_thresholds write_thresholds fold_left].
    rewrite category_of_value_value, Hlevel.
    fold (config_entries entries).
    rewrite (IH _ (<[category := threshold]> policy))
      by (cbn [policies set_policies]; apply lookup_insert_eq).
    cbn [policies set_policies]. rewrite insert_insert_eq. reflexivity.
Qed.

(** The inner loop stopped by an entry that names no category: the
    entries before it stay written. *)
Lemma import_thresholds_stopped level entries bad threshold rest msg :
  ContentCategory.of_value bad = Raise msg ->
  forall self policy,
    policies self !! level = Some policy ->
    import_thresholds level (config_entries entries ++ (bad, threshold) :: rest)
      self
    = (Raise msg,
       set_policies
         (<[level := write_thresholds entries policy]> (policies self)) self).
Proof.
  intros Hbad.
  induction entries as [|[category threshold'] entries IH]; intros self policy Hlevel.
  - cbn [config_entries map app import_thresholds write_thresholds fold_left].
    rewrite Hbad.
    rewrite (insert_id (policies self) level policy) by exact Hlevel.
    rewrite set_policies_same. reflexivity.
  - cbn [config_entries map app import_thresholds write_thresholds fold_left].
    rewrite category_of_value_value, Hlevel.
    fold (config_entries entries).
    rewrite (IH _ (<[category := threshold']> policy))
      by (cbn [policies set_policies]; apply lookup_insert_eq).
    cbn [policies set_policies]. rewrite insert_insert_eq. reflexivity.
Qed.

(** The import is not all-or-nothing: when an entry of the configuration
    names no category, [import_policy_config] answers [False], and the
    thresholds that stand before that entry have been written all the
    same. *)
Theorem import_is_not_atomic (now : Z) (token : string)
    (self : AdaptiveContentPolicy) (level : ContentLevel.t)
    (policy : gmap ContentCategory.t float)
    (entries : list (ContentCategory.t * float)) (bad : string)
    (threshold : float) (rest : list (string * float)) (msg : string) :
  fst (verify_authorization now token ContentLevel.UNRESTRICTED self) = true ->
  policies self !! level = Some policy ->
  ContentCategory.of_value bad = Raise msg ->
  let config :=
    {| cfg_current_level := None;
       cfg_policies :=
         Some [(ContentLevel.value level,
                (config_entries entries ++ (bad, threshold) :: rest)%list)];
       cfg_active_overrides := [];
       cfg_export_time := "" |} in
  let outcome := import_policy_config now config token self in
  fst outcome = false /\
  policies (snd outcome)
  = <[level := write_thresholds entries policy]> (policies self).
Proof.
  intros Hauth Hlevel Hbad. cbv zeta. unfold import_policy_config.
  rewrite (surjective_pairing
             (verify_authorization now token ContentLevel.RESEARCH self)).
  rewrite verify_authorization_true
    by (apply verify_authorization_unrestricted; exact Hauth).
  rewrite verify_authorization_unrestricted by exact Hauth.
  cbn [negb cfg_current_level cfg_policies].
  rewrite (surjective_pairing
             (verify_authorization now token ContentLevel.UNRESTRICTED self)).
  rewrite verify_authorization_true by exact Hauth. rewrite Hauth.
  cbn [import_policies]. rewrite level_of_value_value.
  rewrite (import_thresholds_stopped level entries bad threshold rest msg Hbad
             self policy Hlevel).
  split; reflexivity.
Qed.

Lemma write_thresholds_other entries :
  forall policy category,
    ~ In category (map fst entries) ->
    write_thresholds entries policy !! category = policy !! category.
Proof.
  induction entries as [|[c t] entries IH]; intros policy category Hnot;
    [reflexivity|].
  cbn [write_thresholds fold_left]. fold (write_thresholds entries).
  rewrite IH by (intros Hin; apply Hnot; right; exact Hin).
  apply lookup_insert_ne. intros ->. apply Hnot. left. reflexivity.
Qed.

Lemma write_thresholds_written entries :
  List.NoDup (map fst entries) ->
  forall policy category threshold,
    In (category, threshold) entries ->
    write_thresholds entries policy !! category = Some threshold.
Proof.
  induction entries as [|[c t] entries IH]; intros Hnodup policy category
    threshold Hin; [destruct Hin|].
  cbn [map fst] in Hnodup. apply List.NoDup_cons_iff in Hnodup as [Hfresh Hnodup].
  cbn [write_thresholds fold_left]. fold (write_thresholds entries).
  destruct Hin as [Heq|Hin].
  - injection Heq as -> ->. rewrite write_thresholds_other by exact Hfresh.
    apply lookup_insert_eq.
  - apply IH; assumption.
Qed.

(** The outer loop on the exported table of a state [source], run on a
    state that has every level of it: it comes to its end, every exported
    threshold is then in the table, and the levels that were not exported
    are as before. *)
Lemma import_policies_restores
    (exported : list (ContentLevel.t * gmap ContentCategory.t float)) :
  List.NoDup (map fst exported) ->
  forall self,
    (forall level policy,
       In (level, policy) exported -> is_Some (policies self !! level)) ->
    let outcome :=
      import_policies
        (map (fun '(level, policy) =>
                (ContentLevel.value level, config_entries (map_to_list policy)))
             exported)
        self in
    fst outcome = Ok tt /\
    current_level (snd outcome) = current_level self /\
    (forall level policy,
       In (level, policy) exported ->
       exists written,
         policies (snd outcome) !! level = Some written /\
         forall category threshold,
           policy !! category = Some threshold ->
           written !! category = Some threshold) /\
    (forall level,
       ~ In level (map fst exported) ->
       policies (snd outcome) !! level = policies self !! level) /\
    (forall level,
       is_Some (policies self !! level) ->
       is_Some (policies (snd outcome) !! level)).
Proof.
  induction exported as [|[level policy] exported IH]; intros Hnodup self Hlevels;
    cbv zeta.
  { cbn [map import_policies fst snd]. split; [reflexivity|].
    split; [reflexivity|]. split; [intros ? ? []|]. split; [reflexivity|tauto]. }
  cbn [map fst] in Hnodup. apply List.NoDup_cons_iff in Hnodup as [Hfresh Hnodup].
  cbn [map import_policies]. rewrite level_of_value_value.
  destruct (Hlevels level policy (or_introl eq_refl)) as [target Htarget].
  rewrite (import_thresholds_valid level (map_to_list policy) self target Htarget).
  set (self1 := set_policies
                  (<[level := write_thresholds (map_to_list policy) target]>
                     (policies self)) self).
  assert (Hkeeps : forall other,
            is_Some (policies self !! other) ->
            is_Some (policies self1 !! other)).
  { intros other Hsome. cbn [policies self1 set_policies].
    destruct (decide (level = other)) as [->|Hne].
    - rewrite lookup_insert_eq. eexists. reflexivity.
    - rewrite lookup_insert_ne by exact Hne. exact Hsome. }
  destruct (IH Hnodup self1) as (Hok & Hcur & Hwritten & Hother & Hsome).
  { intros l p Hin. apply Hkeeps. apply (Hlevels l p). right. exact Hin. }
  cbv zeta in Hok, Hcur, Hwritten, Hother, Hsome.
  split; [exact Hok|]. split; [exact Hcur|]. split; [|split].
  - intros l p [Heq|Hin]; [|apply Hwritten; exact Hin].
    injection Heq as <- <-. rewrite (Hother level Hfresh).
    cbn [policies self1 set_policies]. rewrite lookup_insert_eq.
    eexists. split; [reflexivity|].
    intros category threshold Hthreshold.
    apply write_thresholds_written.
    + pose proof (NoDup_fst_map_to_list policy) as Hkeys.
      apply NoDup_ListNoDup in Hkeys. exact Hkeys.
    + apply list_elem_of_In, elem_of_map_to_list. exact Hthreshold.
  - intros l Hnot. rewrite Hother by (intros Hin; apply Hnot; right; exact Hin).
    cbn [policies self1 set_policies]. apply lookup_insert_ne.
    intros ->. apply Hnot. left. reflexivity.
  - intros l Hl. apply Hsome, Hkeeps, Hl.
Qed.

(** The configuration exported from a state [source] restores it on any
    state [target] that has the levels of [source]: imported with a token
    that verifies at [UNRESTRICTED] on [target], it answers [True], makes
    the active level that of [source], and writes every threshold of
    [source] to the table. *)
Theorem export_import_restores (export_time now : Z) (token : string)
    (source target : AdaptiveContentPolicy) :
  fst (verify_authorization now token ContentLevel.UNRESTRICTED target) = true ->
  (forall level,
     is_Some (policies source !! level) -> is_Some (policies target !! level)) ->
  let outcome :=
    import_policy_config now (export_policy_config export_time source) token
      target in
  fst outcome = true /\
  current_level (snd outcome) = current_level source /\
  forall level policy category threshold,
    policies source !! level = Some policy ->
    policy !! category = Some threshold ->
    exists written,
      policies (snd outcome) !! level = Some written /\
      written !! category = Some threshold.
Proof.
  intros Hauth Hlevels. cbv zeta. unfold import_policy_config.
  rewrite (surjective_pairing
             (verify_authorization now token ContentLevel.RESEARCH target)).
  rewrite verify_authorization_true
    by (apply verify_authorization_unrestricted; exact Hauth).
  rewrite verify_authorization_unrestricted by exact Hauth.
  cbn [negb export_policy_config cfg_current_level cfg_policies].
  rewrite level_of_value_value.
  destruct (set_policy_level_frame now (current_level source) token
              (Some "Config import") target Hauth)
    as (Hlevel & Hpolicies & Htokens).
  set (self1 := snd (set_policy_level now (current_level source) token
                       (Some "Config import") target)) in *.
  assert (Hauth1 :
    fst (verify_authorization now token ContentLevel.UNRESTRICTED self1) = true).
  { rewrite (verify_authorization_same_tokens _ _ _ target self1 Htokens).
    exact Hauth. }
  rewrite (surjective_pairing
             (verify_authorization now token ContentLevel.UNRESTRICTED self1)).
  rewrite verify_authorization_true by exact Hauth1. rewrite Hauth1.
  destruct (import_policies_restores (map_to_list (policies source))) with
    (self := self1) as (Hok & Hcur & Hwritten & _ & _).
  { pose proof (NoDup_fst_map_to_list (policies source)) as Hkeys.
    apply NoDup_ListNoDup in Hkeys. exact Hkeys. }
  { intros level policy Hin. rewrite Hpolicies. apply Hlevels.
    apply list_elem_of_In, elem_of_map_to_list in Hin. rewrite Hin.
    eexists. reflexivity. }
  cbv zeta in Hok, Hcur, Hwritten.
  change (map (fun '(level, policy) =>
                 (ContentLevel.value level,
                  map (fun '(category, threshold) =>
                         (ContentCategory.value category, threshold))
                      (map_to_list policy)))
              (map_to_list (policies source)))
    with (map (fun '(level, policy) =>
                 (ContentLevel.value level, config_entries (map_to_list policy)))
              (map_to_list (policies source))).
  destruct (import_policies _ self1) as [[[]|msg] self2]; cbn [fst snd] in *;
    [|discriminate Hok].
  split; [reflexivity|]. split; [rewrite Hcur; exact Hlevel|].
  intros level policy category threshold Hsource Hthreshold.
  destruct (Hwritten level policy) as (written & Hlookup & Hall).
  { apply list_elem_of_In, elem_of_map_to_list. exact Hsource. }
  exists written. split; [exact Hlookup|apply Hall; exact Hthreshold].
Qed.

End ImportWrites.


(** *** Instances of the import *)

(** A fresh policy object on which a [RESEARCH] token was minted for a
    day: the token and the state. *)
Definition research_token_state : string * AdaptiveContentPolicy :=
  match
    generate_auth_token (rt := AsciiRuntime.runtime) 0 "carol"
      ContentLevel.RESEARCH 24
      (init {| db_available := true; policy_changes := [] |})
  with
  | Ok minted => minted
  | Raise _ => ("", init {| db_available := true; policy_changes := [] |})
  end.

(** A configuration that lifts the violence threshold of [SAFE] to 1.0
    and selects [UNRESTRICTED]. *)
Definition permissive_config : policy_config :=
  {| cfg_current_level := Some "unrestricted";
     cfg_policies := Some [("safe", [("violence", 1.0%float)])];
     cfg_active_overrides := [];
     cfg_export_time := "" |}.

(** Without any token the permissive configuration is refused. *)
Lemma import_requires_research_witness :
  let self := init {| db_available := true; policy_changes := [] |} in
  let outcome :=
    import_policy_config (rt := AsciiRuntime.runtime) 0 permissive_config ""
      self in
  fst outcome = false /\
  current_level (snd outcome) = current_level self /\
  policies (snd outcome) = policies self.
Proof.
  apply (import_requires_research (rt := AsciiRuntime.runtime) 0
           permissive_config ""
           (init {| db_available := true; policy_changes := [] |})).
  reflexivity.
Defined.

(** With the [RESEARCH] token the permissive configuration changes no
    threshold. *)
Lemma import_thresholds_need_unrestricted_witness :
  policies
    (snd (import_policy_config (rt := AsciiRuntime.runtime) hour
            permissive_config (fst research_token_state)
            (snd research_token_state)))
  = policies (snd research_token_state).
Proof.
  apply (import_thresholds_need_unrestricted (rt := AsciiRuntime.runtime) hour
           permissive_config (fst research_token_state)
           (snd research_token_state)).
  vm_compute. reflexivity.
Defined.

(** With the [UNRESTRICTED] token, a configuration whose second entry
    names no category is refused after its first entry was written. *)
Lemma import_is_not_atomic_witness :
  let config :=
    {| cfg_current_level := None;
       cfg_policies :=
         Some [("safe", [("violence", 1.0%float); ("bogus", 0.0%float)])];
       cfg_active_overrides := [];
       cfg_export_time := "" |} in
  let outcome :=
    import_policy_config (rt := AsciiRuntime.runtime) hour config
      (fst research_state) (snd research_state) in
  fst outcome = false /\
  policies (snd outcome)
  = <[ContentLevel.SAFE :=
        write_thresholds [(ContentCategory.VIOLENCE, 1.0%float)]
          (default ∅ (initial_policies !! ContentLevel.SAFE))]>
      (policies (snd research_state)).
Proof.
  apply (import_is_not_atomic (rt := AsciiRuntime.runtime) hour
           (fst research_state) (snd research_state) ContentLevel.SAFE
           (default ∅ (initial_policies !! ContentLevel.SAFE))
           [(ContentCategory.VIOLENCE, 1.0%float)] "bogus" 0.0%float []
           "'bogus' is not a valid ContentCategory").
  - vm_compute. reflexivity.
  - vm_compute. reflexivity.
  - reflexivity.
Defined.

(** The configuration exported from a fresh policy object, imported into
    the state that had switched to [RESEARCH], brings the level back to
    [SAFE]. *)
Lemma export_import_restores_witness :
  let source := init {| db_available := true; policy_changes := [] |} in
  let outcome :=
    import_policy_config (rt := AsciiRuntime.runtime) hour
      (export_policy_config (rt := AsciiRuntime.runtime) 0 source)
      (fst research_state) (snd research_state) in
  fst outcome = true /\
  current_level (snd outcome) = ContentLevel.SAFE /\
  forall level policy category threshold,
    policies source !! level = Some policy ->
    policy !! category = Some threshold ->
    exists written,
      policies (snd outcome) !! level = Some written /\
      written !! category = Some threshold.
Proof.
  apply (export_import_restores (rt := AsciiRuntime.runtime) 0 hour
           (fst research_state)
           (init {| db_available := true; policy_changes := [] |})
           (snd research_state)).
  - vm_compute. reflexivity.
  - intros level Hsome. destruct level; vm_compute; eexists; reflexivity.
Defined.

End ContentPolicyModule.

(** ** [fixed_web_access.py]: the safe web-access gateway *)

Module FixedWebAccess.

(** An entry of [self.trusted_domains]. *)
Record domain_info : Type := {
  type : string;
  trust : float;
  rate_limit : Z
}.

(** Replies of the HTTP session. The [content-length] header of a [HEAD]
    reply is absent or empty, present but not a number ([int] raises), or
    a number. *)
Inductive length_header : Type :=
| NoLength
| BadLength
| Length (n : Z).

Inductive head_reply : Type :=
| HeadRaised
| HeadHeaders (content_length : length_header) (content_type : string).

(** The [GET] and the reading of its body: the three exception handlers
    of [fetch_safe_content], or the chunks [iter_content] yields. *)
Inductive get_reply : Type :=
| GetTimeout
| GetRequestException (msg : string)
| GetException (msg : string)
| GetChunks (chunks : list string).

(** The page summary the Wikipedia API returns. *)
Record wiki_summary : Type := {
  summary_title : option string;
  summary_page : option string;
  summary_extract : string
}.

(** The network and the HTML parser, as the gateway sees them. A request
    is answered according to the clock reading at which it is sent, and
    takes the time given with the answer. *)
Class Network := {
  (** [self.session.head(url, ...)] and its headers. *)
  http_head : Z -> string -> head_reply * N;
  (** [self.session.get(url, ..., stream=True)], [raise_for_status()] and
      [iter_content(...)]. *)
  http_get : Z -> string -> get_reply * N;
  (** The summary request of [search_wikipedia]: [None] when the request
      fails, the status is not 200, or the page is not a standard page
      with an extract. *)
  wikipedia_summary : Z -> string -> option wiki_summary * N;
  (** Whether [bs4] could be imported. *)
  BEAUTIFULSOUP_AVAILABLE : bool;
  (** [BeautifulSoup(html, 'html.parser')], the removal of the script,
      style, nav, footer and aside elements, and [get_text(separator=' ',
      strip=True)] of the main container found. *)
  soup_main_text : string -> result string
}.

(** A dictionary [fetch_safe_content] returns. *)
Inductive fetch_result : Type :=
| Fetched (content : string) (fetch_time : Z) (content_length : nat)
    (url : string)
| NotFetched (error : string).

Definition fetch_success (r : fetch_result) : bool :=
  match r with
  | Fetched _ _ _ _ => true
  | NotFetched _ => false
  end.

(** A raw search result and a processed one. *)
Record search_hit : Type := {
  hit_title : string;
  hit_url : string;
  hit_snippet : string
}.

Record processed_result : Type := {
  title : string;
  url : string;
  snippet : string;
  content : string;
  trust_score : float;
  domain_type : string;
  fetch_time : Z;
  content_length : nat
}.

(** The dictionaries [search_web_safely] returns. *)
Record search_data : Type := {
  query : string;
  results : list processed_result;
  total_found : nat;
  search_time : Z;
  timestamp : string
}.

Inductive search_response : Type :=
| QueryBlocked (reason : string)
| RateLimitExceeded
| NoResults
| SearchFailed (reason : string)
| SearchDone (data : search_data).

(** Rows of the tables of [data/web_access_log.db]. *)
Record web_request_row : Type := {
  row_query : string;
  row_url : string;
  row_domain : string;
  row_success : bool;
  row_content_length : nat;
  row_response_time : Z;
  row_trust_score : float;
  row_filtered_reason : option string;
  row_user_context : option string
}.

Record blocked_attempt_row : Type := {
  blocked_query : string;
  blocked_url : string;
  block_reason : string;
  severity : string
}.

Record database : Type := {
  db_available : bool;
  web_requests : list web_request_row;
  blocked_attempts : list blocked_attempt_row
}.

(** The attributes of a [SafeWebAccess] instance that change or are
    consulted as tables, the audit store, and the wall clock. *)
Record SafeWebAccess : Type := {
  trusted_domains : list (string * domain_info);
  blocked_domains : list string;
  safety_filters : list (string * list string);
  request_history : gmap string (list Z);
  cache : gmap string (search_data * Z);
  db : database;
  clock : Z
}.

Definition set_request_history (v : gmap string (list Z)) (self : SafeWebAccess) :=
  {| trusted_domains := trusted_domains self;
     blocked_domains := blocked_domains self;
     safety_filters := safety_filters self;
     request_history := v;
     cache := cache self;
     db := db self;
     clock := clock self |}.

Definition set_cache (v : gmap string (search_data * Z)) (self : SafeWebAccess) :=
  {| trusted_domains := trusted_domains self;
     blocked_domains := blocked_domains self;
     safety_filters := safety_filters self;
     request_history := request_history self;
     cache := v;
     db := db self;
     clock := clock self |}.

Definition set_db (v : database) (self : SafeWebAccess) :=
  {| trusted_domains := trusted_domains self;
     blocked_domains := blocked_domains self;
     safety_filters := safety_filters self;
     request_history := request_history self;
     cache := cache self;
     db := v;
     clock := clock self |}.

(** The time a request takes passes. *)
Definition elapse (d : N) (self : SafeWebAccess) :=
  {| trusted_domains := trusted_domains self;
     blocked_domains := blocked_domains self;
     safety_filters := safety_filters self;
     request_history := request_history self;
     cache := cache self;
     db := db self;
     clock := clock self + Z.of_N d |}.

(** The constants of [__init__]. *)
Definition global_requests_limit : nat := 50.
Definition global_window : Z := 3600 * second.
Definition per_domain_requests_limit : nat := 10.
Definition per_domain_window : Z := 600 * second.
Definition cache_ttl : Z := 1800 * second.
Definition max_content_length : Z := 50000.

Definition initial_trusted_domains : list (string * domain_info) :=
  [("wikipedia.org", {| type := "encyclopedia"; trust := 0.9; rate_limit := 10 |});
   ("en.wikipedia.org", {| type := "encyclopedia"; trust := 0.9; rate_limit := 10 |});
   ("github.com", {| type := "code_repository"; trust := 0.8; rate_limit := 15 |});
   ("stackoverflow.com", {| type := "technical_qa"; trust := 0.8; rate_limit := 10 |});
   ("arxiv.org", {| type := "scientific"; trust := 0.9; rate_limit := 5 |});
   ("news.ycombinator.com", {| type := "tech_news"; trust := 0.7; rate_limit := 8 |});
   ("medium.com", {| type := "articles"; trust := 0.7; rate_limit := 10 |})]%float.

Definition initial_blocked_domains : list string :=
  ["4chan.org"; "8kun.top"; "gab.com"; "parler.com"].

Definition initial_safety_filters : list (string * list string) :=
  [("malware_keywords",
    ["download crack"; "free hack"; "keygen"; "serial number";
     "torrent download"; "pirated software"; "warez"]);
   ("adult_keywords",
    ["explicit"; "nsfw"; "adult content"; "pornography"]);
   ("illegal_keywords",
    ["how to make bomb"; "illegal drugs"; "hire hitman";
     "fake documents"; "credit card fraud"]);
   ("hate_keywords",
    ["hate speech"; "nazi"; "terrorist"; "extremist content"])].

(** The state [__init__] builds, over an audit store [d], at clock
    reading [t]. *)
Definition init (d : database) (t : Z) : SafeWebAccess :=
  {| trusted_domains := initial_trusted_domains;
     blocked_domains := initial_blocked_domains;
     safety_filters := initial_safety_filters;
     request_history := ∅;
     cache := ∅;
     db := d;
     clock := t |}.

(** [l[:n]] for an integer [n], which may be negative. *)
Definition slice_to {A : Type} (n : Z) (l : list A) : list A :=
  if (n <? 0)%Z then take (length l - Z.to_nat (- n)) l
  else take (Z.to_nat n) l.

(** [re.sub(r'<[^>]+>', '', html)]: a tag is removed when its closing
    [>] is the first [>] after the opening [<] and at least one character
    stands between them. [tag] tells whether an opened tag is being read,
    and [kept] is what the result gets if that tag is never closed. *)
Fixpoint remove_tags_go (tag : option string) (s : string) : string :=
  match s, tag with
  | EmptyString, None => EmptyString
  | EmptyString, Some kept => kept
  | String c t, None =>
      if Ascii.eqb c "<" then
        match t with
        | String ">" _ => String c (remove_tags_go None t)
        | _ => remove_tags_go (Some (String c EmptyString)) t
        end
      else String c (remove_tags_go None t)
  | String c t, Some kept =>
      if Ascii.eqb c ">" then remove_tags_go None t
      else remove_tags_go (Some (kept +:+ String c EmptyString)) t
  end.

Definition remove_tags (html : string) : string := remove_tags_go None html.

(** [re.sub(r'\s+', ' ', text)]. *)
Fixpoint collapse_spaces_go (in_run : bool) (s : string) : string :=
  match s with
  | EmptyString => EmptyString
  | String c t =>
      let spaced (rest : string) :=
        if in_run then rest else String " " rest in
      if isspace c then spaced (collapse_spaces_go true t)
      else
        match t with
        | EmptyString => String c (collapse_spaces_go false t)
        | String d t' =>
            if isspace2 c d then spaced (collapse_spaces_go true t')
            else
              match t' with
              | EmptyString => String c (collapse_spaces_go false t)
              | String e t'' =>
                  if isspace3 c d e then spaced (collapse_spaces_go true t'')
                  else String c (collapse_spaces_go false t)
              end
        end
  end.

Definition collapse_spaces (text : string) : string :=
  collapse_spaces_go false text.

Section Gateway.

Context {rt : Runtime} {net : Network}.

(** [self.request_history.get(key, [])]. *)
Definition history_of (key : string) (self : SafeWebAccess) : list Z :=
  default [] (request_history self !! key).

(** [current_time - req_time < window]. *)
Definition recent (current_time window req_time : Z) : bool :=
  (current_time - req_time <? window)%Z.

(** [is_rate_limited(domain)]. *)
Definition is_rate_limited (domain : option string) (self : SafeWebAccess)
    : bool :=
  let current_time := clock self in
  let global_requests :=
    List.filter (recent current_time global_window) (history_of "global" self) in
  if (global_requests_limit <=? length global_requests)%nat then true
  else
    match domain with
    | Some domain =>
        if String.eqb domain "" then false
        else
          let domain_requests :=
            List.filter (recent current_time per_domain_window)
              (history_of domain self) in
          (per_domain_requests_limit <=? length domain_requests)%nat
    | None => false
    end.

(** [cleanup_request_history()]. *)
Definition cleanup_request_history (self : SafeWebAccess) : SafeWebAccess :=
  let current_time := clock self in
  let window := Z.max global_window per_domain_window in
  set_request_history
    (List.filter (recent current_time window) <$> request_history self)
    self.

(** [record_request(domain)]: the reading is appended to the global
    history, and to the history of the domain when one is given. *)
Definition record_request (domain : option string) (self : SafeWebAccess)
    : SafeWebAccess :=
  let current_time := clock self in
  let history := request_history self in
  let history :=
    <["global" := (default [] (history !! "global") ++ [current_time])%list]>
      history in
  let history :=
    match domain with
    | Some domain =>
        if String.eqb domain "" then history
        else
          <[domain := (default [] (history !! domain) ++ [current_time])%list]>
            history
    | None => history
    end in
  cleanup_request_history (set_request_history history self).

(** The loop of [is_safe_query] over the suspicious patterns. *)
Fixpoint matches_suspicious_pattern (patterns : list string)
    (query_lower : string) : result bool :=
  match patterns with
  | [] => Ok false
  | pattern :: rest =>
      let? found := re_search pattern query_lower in
      if found : bool then Ok true
      else matches_suspicious_pattern rest query_lower
  end.

(** [is_safe_query(query)]. *)
Definition is_safe_query (query : string) (self : SafeWebAccess)
    : result (bool * string) :=
  if String.eqb query "" || (len (strip query) =? 0)%nat then
    Ok (false, "Empty query")
  else
    let query_lower := str_lower query in
    match
      find (fun '(category, keywords) =>
              existsb (fun keyword => str_in keyword query_lower) keywords)
           (safety_filters self)
    with
    | Some (category, _) =>
        Ok (false, "Query blocked: contains " +:+ category +:+ " content")
    | None =>
        let suspicious_patterns := [
          "\b(hack|exploit|vulnerability)\s+\w+";
          "\b(download|crack|keygen|serial)\b";
          "\b(illegal|unlawful|criminal)\s+\w+";
          "\b(bomb|weapon|drug)\s+(recipe|tutorial|guide)"] in
        let? suspicious :=
          matches_suspicious_pattern suspicious_patterns query_lower in
        if suspicious : bool then
          Ok (false, "Query blocked: matches suspicious pattern")
        else Ok (true, "Query is safe")
    end.

(** [is_trusted_domain(url)]. *)
Definition is_trusted_domain (url : string) (self : SafeWebAccess)
    : bool * float * string :=
  match urlparse url with
  | Raise msg => (false, 0.0%float, "Error parsing domain: " +:+ msg)
  | Ok (_, netloc) =>
      let domain := str_lower netloc in
      let domain :=
        if startswith domain "www." then str_drop 4 domain else domain in
      if existsb (fun blocked_domain => str_in blocked_domain domain)
           (blocked_domains self)
      then (false, 0.0%float, "Domain " +:+ domain +:+ " is blocked")
      else
        match
          find (fun '(trusted_domain, info) => str_in trusted_domain domain)
               (trusted_domains self)
        with
        | Some (_, info) =>
            (true, trust info, "Trusted domain: " +:+ type info)
        | None =>
            (false, 0.2%float,
             "Domain " +:+ domain +:+ " is not in trusted list")
        end
  end.

(** [search_wikipedia(query, max_results)]. *)
Definition search_wikipedia (query : string) (max_results : Z)
    (self : SafeWebAccess) : list search_hit * SafeWebAccess :=
  let search_url :=
    "https://en.wikipedia.org/api/rest_v1/page/summary/" +:+
    replace_char " " "_" query in
  let '(reply, took) := wikipedia_summary (clock self) search_url in
  let self := elapse took self in
  match reply with
  | Some data =>
      ([{| hit_title := default query (summary_title data);
           hit_url := default "" (summary_page data);
           hit_snippet := str_take 200 (summary_extract data) +:+ "..." |}],
       self)
  | None => ([], self)
  end.

(** [search_trusted_sources(query, max_results)]. *)
Definition search_trusted_sources (query : string) (max_results : Z)
    (self : SafeWebAccess) : list search_hit :=
  let trusted_examples := [
    {| hit_title := "Technical documentation for " +:+ query;
       hit_url := "https://github.com/search?q=" +:+ replace_char " " "+" query;
       hit_snippet :=
         "Technical resources and documentation related to " +:+ query |};
    {| hit_title := "Stack Overflow discussions about " +:+ query;
       hit_url :=
         "https://stackoverflow.com/search?q=" +:+ replace_char " " "+" query;
       hit_snippet := "Community discussions and solutions for " +:+ query |}] in
  List.filter
    (fun example => fst (fst (is_trusted_domain (hit_url example) self)))
    (slice_to max_results trusted_examples).

(** [simple_search_fallback(query, max_results)]. *)
Definition simple_search_fallback (query : string) (max_results : Z)
    (self : SafeWebAccess) : list search_hit * SafeWebAccess :=
  let '(results, self) :=
    if existsb (fun '(domain, _) => String.eqb domain "wikipedia.org")
         (trusted_domains self)
    then search_wikipedia query (max_results / 2) self
    else ([], self) in
  let results :=
    if (Z.of_nat (length results) <? max_results)%Z then
      (results ++
       search_trusted_sources query (max_results - Z.of_nat (length results))
         self)%list
    else results in
  (slice_to max_results results, self).

(** [extract_text_from_html(html_content)]. *)
Definition extract_text_from_html (html_content : string) : string :=
  if negb BEAUTIFULSOUP_AVAILABLE then
    str_take 2000 (strip (collapse_spaces (remove_tags html_content)))
  else
    match soup_main_text html_content with
    | Ok text => strip (collapse_spaces text)
    | Raise _ =>
        str_take 1000 (strip (collapse_spaces (remove_tags html_content)))
    end.

(** [apply_content_filters(content)]. *)
Definition apply_content_filters (content : string) (self : SafeWebAccess)
    : bool * string :=
  if String.eqb content "" || (len (strip content) =? 0)%nat then
    (false, "Empty content")
  else
    let content_lower := str_lower content in
    match
      find (fun '(category, keywords) =>
              let keyword_count :=
                length
                  (List.filter (fun keyword => str_in keyword content_lower)
                     keywords) in
              (2 <? keyword_count)%nat)
           (safety_filters self)
    with
    | Some (category, _) =>
        (false,
         "Content blocked: high " +:+ category +:+ " content density")
    | None =>
        if (len content <? 50)%nat then (false, "Content too short")
        else
          let words := split content_lower in
          if (30 <? length words)%nat
             && PrimFloat.ltb
                  (float_of_nat (length (remove_dups words))
                   / float_of_nat (length words))%float
                  0.3%float
          then (false, "Content appears to be spam or repetitive")
          else (true, "Content is safe")
    end.

(** The preflight of [fetch_safe_content]: the error it returns, if any.
    Every exception in the block is passed over. *)
Definition head_verdict (head : head_reply) : option string :=
  let check_type (content_type : string) :=
    let content_type := str_lower content_type in
    if existsb (fun ct => str_in ct content_type)
         ["text/html"; "text/plain"; "application/json"]
    then None else Some "Unsupported content type" in
  match head with
  | HeadRaised => None
  | HeadHeaders BadLength _ => None
  | HeadHeaders NoLength content_type => check_type content_type
  | HeadHeaders (Length n) content_type =>
      if n >? max_content_length then Some "Content too large"
      else check_type content_type
  end.

(** The loop over [iter_content]: the read stops at the chunk that takes
    the size above [max_content_length]. *)
Fixpoint read_chunks (chunks : list string) (content : string)
    (total_size : Z) : string :=
  match chunks with
  | [] => content
  | chunk :: rest =>
      if String.eqb chunk "" then read_chunks rest content total_size
      else
        let total_size := total_size + Z.of_nat (len chunk) in
        if total_size >? max_content_length then content
        else read_chunks rest (content +:+ chunk) total_size
  end.

(** [fetch_safe_content(url)]. *)
Definition fetch_safe_content (url : string) (self : SafeWebAccess)
    : fetch_result * SafeWebAccess :=
  let start_time := clock self in
  match urlparse url with
  | Raise msg => (NotFetched ("Unexpected error: " +:+ msg), self)
  | Ok (scheme, netloc) =>
      if String.eqb scheme "" || String.eqb netloc "" then
        (NotFetched "Invalid URL", self)
      else
        let domain := str_lower netloc in
        let domain :=
          if startswith domain "www." then str_drop 4 domain else domain in
        if is_rate_limited (Some domain) self then
          (NotFetched "Domain rate limit exceeded", self)
        else
          let '(head, took) := http_head (clock self) url in
          let self := elapse took self in
          match head_verdict head with
          | Some error => (NotFetched error, self)
          | None =>
              let '(reply, took) := http_get (clock self) url in
              let self := elapse took self in
              match reply with
              | GetTimeout => (NotFetched "Request timeout", self)
              | GetRequestException msg =>
                  (NotFetched ("Request failed: " +:+ msg), self)
              | GetException msg =>
                  (NotFetched ("Unexpected error: " +:+ msg), self)
              | GetChunks chunks =>
                  let content := read_chunks chunks "" 0 in
                  let text_content := extract_text_from_html content in
                  let '(is_safe, filter_reason) :=
                    apply_content_filters text_content self in
                  if negb is_safe then
                    (NotFetched ("Content filtered: " +:+ filter_reason), self)
                  else
                    let self := record_request (Some domain) self in
                    (Fetched (str_take 3000 text_content)
                       (clock self - start_time)
                       (len text_content) url,
                     self)
              end
          end
  end.

(** [generate_cache_key(query)]. *)
Definition generate_cache_key (query : string) : result string :=
  md5_hexdigest query.

(** [log_web_request]: every failure is caught and only logged. *)
Definition log_web_request (query url : string) (success : bool)
    (content_length : nat) (response_time : Z) (trust_score : float)
    (filtered_reason user_context : option string) (self : SafeWebAccess)
    : SafeWebAccess :=
  match urlparse url with
  | Raise _ => self
  | Ok (_, netloc) =>
      let domain := str_lower netloc in
      if db_available (db self) then
        set_db
          {| db_available := true;
             web_requests :=
               web_requests (db self) ++
               [{| row_query := query;
                   row_url := url;
                   row_domain := domain;
                   row_success := success;
                   row_content_length := content_length;
                   row_response_time := response_time;
                   row_trust_score := trust_score;
                   row_filtered_reason := filtered_reason;
                   row_user_context := user_context |}];
             blocked_attempts := blocked_attempts (db self) |}
          self
      else self
  end.

(** [log_blocked_attempt]. *)
Definition log_blocked_attempt (query url reason severity : string)
    (self : SafeWebAccess) : SafeWebAccess :=
  if db_available (db self) then
    set_db
      {| db_available := true;
         web_requests := web_requests (db self);
         blocked_attempts :=
           blocked_attempts (db self) ++
           [{| blocked_query := query;
               blocked_url := url;
               block_reason := reason;
               severity := severity |}] |}
      self
  else self.

(** The loop of [search_web_safely] over the raw results. *)
Fixpoint process_results (query : string) (user_context : option string)
    (search_results : list search_hit)
    (processed_results : list processed_result) (self : SafeWebAccess)
    : list processed_result * SafeWebAccess :=
  match search_results with
  | [] => (processed_results, self)
  | result :: rest =>
      let '(is_trusted, trust_score, trust_reason) :=
        is_trusted_domain (hit_url result) self in
      if is_trusted && fgt trust_score 0.5%float then
        let '(content_data, self) := fetch_safe_content (hit_url result) self in
        match content_data with
        | Fetched content fetch_time _ _ =>
            let processed_result :=
              {| title := hit_title result;
                 url := hit_url result;
                 snippet := hit_snippet result;
                 content := content;
                 trust_score := trust_score;
                 domain_type := trust_reason;
                 fetch_time := fetch_time;
                 content_length := len content |} in
            let self :=
              log_web_request query (hit_url result) true
                (len content) fetch_time trust_score None
                user_context self in
            process_results query user_context rest
              (processed_results ++ [processed_result]) self
        | NotFetched _ =>
            process_results query user_context rest processed_results self
        end
      else
        let self :=
          log_web_request query (hit_url result) false 0 0 trust_score
            (Some ("Domain not trusted: " +:+ trust_reason)) user_context self in
        process_results query user_context rest processed_results self
  end.

(** [search_web_safely(query, max_results, user_context)]. *)
Definition search_web_safely (query : string) (max_results : Z)
    (user_context : option string) (self : SafeWebAccess)
    : search_response * SafeWebAccess :=
  let start_time := clock self in
  match is_safe_query query self with
  | Raise msg => (SearchFailed msg, self)
  | Ok (is_safe, safety_reason) =>
      if negb is_safe then
        (QueryBlocked safety_reason,
         log_blocked_attempt query "" safety_reason "HIGH" self)
      else if is_rate_limited None self then (RateLimitExceeded, self)
      else
        match generate_cache_key query with
        | Raise msg => (SearchFailed msg, self)
        | Ok cache_key =>
            let fresh_entry :=
              match cache self !! cache_key with
              | Some (data, stored) =>
                  if (clock self - stored <? cache_ttl)%Z then Some data
                  else None
              | None => None
              end in
            match fresh_entry with
            | Some data => (SearchDone data, self)
            | None =>
                let '(search_results, self) :=
                  simple_search_fallback query max_results self in
                match search_results with
                | [] => (NoResults, self)
                | _ :: _ =>
                    let '(processed_results, self) :=
                      process_results query user_context search_results []
                        self in
                    let self := record_request None self in
                    let result_data :=
                      {| query := query;
                         results := processed_results;
                         total_found := length processed_results;
                         search_time := clock self - start_time;
                         timestamp := isoformat (clock self) |} in
                    (SearchDone result_data,
                     set_cache
                       (<[cache_key := (result_data, clock self)]> (cache self))
                       self)
                end
            end
        end
  end.

End Gateway.

(** *** Substring search *)

Section Substrings.

Lemma prefix_app (p s : string) :
  String.prefix p s = true <-> exists post, s = p +:+ post.
Proof.
  revert s. induction p as [|c p IH]; intros s.
  - split; [intros _; exists s; reflexivity|intros _; destruct s; reflexivity].
  - destruct s as [|d s]; cbn [String.prefix].
    + split; [discriminate|]. intros [post Hpost]. discriminate Hpost.
    + destruct (ascii_dec c d) as [->|Hne].
      * rewrite IH. split; intros [post Hpost]; exists post.
        -- change (String d s = String d (p +:+ post)). f_equal. exact Hpost.
        -- change (String d s = String d (p +:+ post)) in Hpost.
           injection Hpost as Hpost. exact Hpost.
      * split; [discriminate|]. intros [post Hpost].
        change (String d s = String c (p +:+ post)) in Hpost.
        injection Hpost as -> _. contradiction.
Qed.

(** [str_in sub s] holds exactly when [sub] occurs somewhere in [s], not
    only at its end. *)
Lemma str_in_occurs (sub s : string) :
  str_in sub s = true <-> exists pre post, s = pre +:+ sub +:+ post.
Proof.
  induction s as [|c s IH]; cbn [str_in]; rewrite orb_true_iff, prefix_app.
  - split.
    + intros [[post Hpost]|Hfalse]; [|discriminate].
      exists "", post. exact Hpost.
    + intros (pre & post & Heq). left. destruct pre; [|discriminate Heq].
      exists post. exact Heq.
  - rewrite IH. split.
    + intros [[post Hpost]|(pre & post & Heq)].
      * exists "", post. exact Hpost.
      * exists (String c pre), post.
        change (String c s = String c (pre +:+ sub +:+ post)).
        f_equal. exact Heq.
    + intros (pre & post & Heq). destruct pre as [|d pre].
      * left. exists post. exact Heq.
      * right. change (String c s = String d (pre +:+ sub +:+ post)) in Heq.
        injection Heq as _ ->. exists pre, post. reflexivity.
Qed.

Lemma find_first {A : Type} (f : A -> bool) (before after : list A) (x : A) :
  (forall y, In y before -> f y = false) ->
  f x = true ->
  find f (before ++ x :: after) = Some x.
Proof.
  intros Hbefore Hx. induction before as [|y before IH]; cbn [app find].
  - rewrite Hx. reflexivity.
  - rewrite (Hbefore y (or_introl eq_refl)). apply IH.
    intros z Hz. apply Hbefore. right. exact Hz.
Qed.

End Substrings.

(** *** Domain trust *)

(** The host as [is_trusted_domain] reads it: the network location in
    lower case, without a leading ["www."]. *)
Definition domain_of {rt : Runtime} (netloc : string) : string :=
  let domain := str_lower netloc in
  if startswith domain "www." then str_drop 4 domain else domain.

(** The reading of the specification, in which a trusted domain must be a
    suffix of the host; the rest is as in [is_trusted_domain]. *)
Definition is_trusted_domain_by_suffix {rt : Runtime} (url : string)
    (self : SafeWebAccess) : bool * float * string :=
  match urlparse url with
  | Raise msg => (false, 0.0%float, "Error parsing domain: " +:+ msg)
  | Ok (_, netloc) =>
      let domain := domain_of netloc in
      if existsb (fun blocked_domain => str_in blocked_domain domain)
           (blocked_domains self)
      then (false, 0.0%float, "Domain " +:+ domain +:+ " is blocked")
      else
        match
          find (fun '(trusted_domain, info) => endswith domain trusted_domain)
               (trusted_domains self)
        with
        | Some (_, info) =>
            (true, trust info, "Trusted domain: " +:+ type info)
        | None =>
            (false, 0.2%float,
             "Domain " +:+ domain +:+ " is not in trusted list")
        end
  end.

Section TrustedDomains.

Context {rt : Runtime}.

(** C4, as the code has it. For a URL that parses, [is_trusted_domain]
    reads the host without a leading ["www."]; when a blocked domain occurs
    in the host the answer is blocked with trust 0.0, whatever the trusted
    table holds; otherwise the first entry of the trusted table that occurs
    anywhere in the host (not only at its end) makes the answer trusted
    with that entry's trust score; and when no entry occurs in the host the
    answer is untrusted with trust 0.2. *)
Theorem is_trusted_domain_spec (url : string) (self : SafeWebAccess)
    (scheme netloc : string) :
  urlparse url = Ok (scheme, netloc) ->
  let domain := domain_of netloc in
  let blocked :=
    exists blocked_domain,
      In blocked_domain (blocked_domains self) /\
      str_in blocked_domain domain = true in
  (startswith (str_lower netloc) "www." = true ->
   str_lower netloc = "www." +:+ domain)
  /\
  (blocked ->
   is_trusted_domain url self
   = (false, 0.0%float, "Domain " +:+ domain +:+ " is blocked"))
  /\
  (~ blocked ->
   forall before trusted_domain info after,
     trusted_domains self = (before ++ (trusted_domain, info) :: after)%list ->
     (forall earlier info',
        In (earlier, info') before -> str_in earlier domain = false) ->
     (exists pre post, domain = pre +:+ trusted_domain +:+ post) ->
     is_trusted_domain url self
     = (true, trust info, "Trusted domain: " +:+ type info))
  /\
  (~ blocked ->
   (forall trusted_domain info,
      In (trusted_domain, info) (trusted_domains self) ->
      str_in trusted_domain domain = false) ->
   is_trusted_domain url self
   = (false, 0.2%float, "Domain " +:+ domain +:+ " is not in trusted list")).
Proof.
  intros Hparse domain blocked.
  assert (Hblocked : blocked <->
            existsb (fun blocked_domain => str_in blocked_domain domain)
              (blocked_domains self) = true).
  { subst blocked. rewrite existsb_exists. reflexivity. }
  assert (Hunfold : is_trusted_domain url self
    = if existsb (fun blocked_domain => str_in blocked_domain domain)
           (blocked_domains self)
      then (false, 0.0%float, "Domain " +:+ domain +:+ " is blocked")
      else
        match
          find (fun '(trusted_domain, info) => str_in trusted_domain domain)
               (trusted_domains self)
        with
        | Some (_, info) => (true, trust info, "Trusted domain: " +:+ type info)
        | None =>
            (false, 0.2%float,
             "Domain " +:+ domain +:+ " is not in trusted list")
        end).
  { unfold is_trusted_domain. rewrite Hparse. reflexivity. }
  split; [|split; [|split]].
  - intros Hwww. subst domain. unfold domain_of. rewrite Hwww.
    unfold startswith in Hwww. apply prefix_app in Hwww as [post ->].
    reflexivity.
  - intros Hyes. rewrite Hunfold. apply Hblocked in Hyes. rewrite Hyes.
    reflexivity.
  - intros Hno before trusted_domain info after Htable Hearlier Hoccurs.
    rewrite Hunfold.
    destruct (existsb _ (blocked_domains self)) eqn:Hexists;
      [exfalso; apply Hno, Hblocked; reflexivity|].
    rewrite Htable.
    rewrite (find_first _ before after (trusted_domain, info)).
    + reflexivity.
    + intros [earlier info'] Hin. apply (Hearlier earlier info'). exact Hin.
    + apply str_in_occurs. exact Hoccurs.
  - intros Hno Hnone. rewrite Hunfold.
    destruct (existsb _ (blocked_domains self)) eqn:Hexists;
      [exfalso; apply Hno, Hblocked; reflexivity|].
    destruct (find _ (trusted_domains self)) as [[trusted_domain info]|] eqn:Hfind;
      [|reflexivity].
    apply find_some in Hfind as [Hin Hhit].
    rewrite (Hnone trusted_domain info Hin) in Hhit. discriminate Hhit.
Qed.

End TrustedDomains.

(** *** Content filters *)

(** The reading of the claim on short content: whatever keywords it
    holds, non-empty content below 50 characters is rejected as too
    short. *)
Definition too_short_whatever_keywords {rt : Runtime} (content : string)
    (self : SafeWebAccess) : Prop :=
  content <> "" ->
  (len content < 50)%nat ->
  apply_content_filters content self = (false, "Content too short").

Section ContentFilters.

Context {rt : Runtime}.

(** The number of keywords of a list that occur in the content. *)
Definition keyword_hits (content : string) (keywords : list string) : nat :=
  length (List.filter (fun keyword => str_in keyword (str_lower content)) keywords).

(** C8, as the code has it. Content shorter than 50 characters is always
    rejected. The reason is ["Content too short"] when the content is not
    blank and no keyword category has more than two of its keywords in it;
    blank content is rejected as empty, and content with more than two
    keywords of one category is rejected for that category's density,
    before its length is looked at. *)
Theorem short_content_is_rejected (content : string) (self : SafeWebAccess) :
  (len content < 50)%nat ->
  fst (apply_content_filters content self) = false
  /\
  (is_blank content = true ->
   apply_content_filters content self = (false, "Empty content"))
  /\
  (is_blank content = false ->
   (forall category keywords,
      In (category, keywords) (safety_filters self) ->
      (keyword_hits content keywords <= 2)%nat) ->
   apply_content_filters content self = (false, "Content too short"))
  /\
  (is_blank content = false ->
   (exists category keywords,
      In (category, keywords) (safety_filters self) /\
      (2 < keyword_hits content keywords)%nat) ->
   exists category,
     apply_content_filters content self
     = (false, "Content blocked: high " +:+ category +:+ " content density")).
Proof.
  intros Hshort. unfold apply_content_filters.
  change (String.eqb content "" || (len (strip content) =? 0)%nat)
    with (is_blank content).
  destruct (is_blank content) eqn:Hblank.
  { split; [reflexivity|]. split; [reflexivity|].
    split; intros Hfalse; discriminate Hfalse. }
  destruct (find _ (safety_filters self)) as [[category keywords]|] eqn:Hfind.
  - apply find_some in Hfind as [Hin Hdense]. apply Nat.ltb_lt in Hdense.
    split; [reflexivity|]. split; [discriminate|]. split.
    + intros _ Hsparse. specialize (Hsparse category keywords Hin).
      unfold keyword_hits in Hsparse. lia.
    + intros _ _. exists category. reflexivity.
  - assert (Hlen : (len content <? 50)%nat = true)
      by (apply Nat.ltb_lt; exact Hshort).
    rewrite Hlen. split; [reflexivity|]. split; [discriminate|]. split.
    + intros _ _. reflexivity.
    + intros _ (category & keywords & Hin & Hdense). exfalso.
      pose proof (find_none _ _ Hfind (category, keywords) Hin) as Hnot.
      cbn beta iota in Hnot. apply Nat.ltb_ge in Hnot.
      unfold keyword_hits in Hdense. lia.
Qed.

End ContentFilters.

(** *** Instances for the tables of [__init__] *)

Definition empty_db : database :=
  {| db_available := true; web_requests := []; blocked_attempts := [] |}.

(** A network in which every page is the plain text [page], without
    markup, served in one chunk; every request takes [latency], and the
    Wikipedia summary request finds nothing. *)
Definition plain_network (page : string) (latency : N) : Network :=
  {| http_head := fun _ _ => (HeadHeaders NoLength "text/html; charset=utf-8", latency);
     http_get := fun _ _ => (GetChunks [page], latency);
     wikipedia_summary := fun _ _ => (None, latency);
     BEAUTIFULSOUP_AVAILABLE := true;
     soup_main_text := fun html => Ok html |}.


(** C4, an instance: the English Wikipedia, reached with a ["www."]
    prefix, is trusted through the first entry of the table. *)
Lemma is_trusted_domain_spec_witness :
  is_trusted_domain (rt := AsciiRuntime.runtime)
    "https://www.en.wikipedia.org/wiki/Cat" (init empty_db 0)
  = (true, 0.9%float, "Trusted domain: encyclopedia").
Proof.
  apply (proj1 (proj2 (proj2
           (is_trusted_domain_spec (rt := AsciiRuntime.runtime)
              "https://www.en.wikipedia.org/wiki/Cat" (init empty_db 0)
              "https" "www.en.wikipedia.org" eq_refl)))
         ltac:(vm_compute; intros (b & [<-|[<-|[<-|[<-|[]]]]] & Hb);
               discriminate Hb)
         [] "wikipedia.org"
         {| type := "encyclopedia"; trust := 0.9; rate_limit := 10 |}
         (tl initial_trusted_domains) eq_refl).
  - intros earlier info' [].
  - exists "en.", "". reflexivity.
Defined.

(** C4 as stated fails for a host that holds a trusted domain elsewhere
    than at its end: the code answers trusted. *)
Lemma trusted_domain_inside_host :
  is_trusted_domain (rt := AsciiRuntime.runtime)
    "https://wikipedia.org.evil.example/x" (init empty_db 0)
  <> is_trusted_domain_by_suffix (rt := AsciiRuntime.runtime)
       "https://wikipedia.org.evil.example/x" (init empty_db 0).
Proof. vm_compute. discriminate. Qed.

(** A blocked domain wins over a trusted one in the same host. *)
Lemma blocked_domain_wins :
  is_trusted_domain (rt := AsciiRuntime.runtime)
    "https://4chan.org.wikipedia.org/x" (init empty_db 0)
  = (false, 0.0%float, "Domain 4chan.org.wikipedia.org is blocked").
Proof. vm_compute. reflexivity. Qed.

(** C8, an instance: forty characters without keywords. *)
Lemma short_content_is_rejected_witness :
  apply_content_filters (rt := AsciiRuntime.runtime)
    "0123456789012345678901234567890123456789" (init empty_db 0)
  = (false, "Content too short").
Proof.
  apply (proj1 (proj2 (proj2
           (short_content_is_rejected (rt := AsciiRuntime.runtime)
              "0123456789012345678901234567890123456789" (init empty_db 0)
              ltac:(vm_compute; lia))))).
  - vm_compute. reflexivity.
  - intros category keywords Hin. vm_compute in Hin.
    destruct Hin as [Heq|[Heq|[Heq|[Heq|[]]]]]; injection Heq as <- <-;
      vm_compute; lia.
Defined.

(** C8 as stated fails for short content that holds three keywords of one
    category: the reason returned is the keyword density. *)
Lemma keyword_dense_short_content :
  ~ too_short_whatever_keywords (rt := AsciiRuntime.runtime)
      "nsfw explicit pornography" (init empty_db 0).
Proof.
  unfold too_short_whatever_keywords. intros Hclaim.
  assert (Hreason :
    apply_content_filters (rt := AsciiRuntime.runtime)
      "nsfw explicit pornography" (init empty_db 0)
    = (false, "Content too short")).
  { apply Hclaim; [discriminate|vm_compute; lia]. }
  vm_compute in Hreason. discriminate Hreason.
Qed.

(** *** The result of a fetch *)

Lemma str_take_length (n : nat) (s : string) :
  len (str_take n s) = Nat.min n (len s).
Proof.
  revert n. induction s as [|c s IH]; intros n; cbn [str_take len].
  - rewrite Nat.min_0_r. reflexivity.
  - destruct (is_continuation c) eqn:Hbyte; cbn [len]; rewrite ?Hbyte.
    + apply IH.
    + destruct n as [|n]; [reflexivity|].
      cbn [len]. rewrite Hbyte, IH. reflexivity.
Qed.





(** Without the HTML parser the sanitized text is cut to 2000 characters
    before it is measured. *)
Lemma extract_text_without_parser (net : Network) (html : string) :
  BEAUTIFULSOUP_AVAILABLE = false ->
  (len (extract_text_from_html html) <= 2000)%nat.
Proof.
  intros Hflag. unfold extract_text_from_html. rewrite Hflag. cbn [negb].
  rewrite str_take_length. lia.
Qed.

(** *** The global rate-limit window during a search *)

(** The window [cleanup_request_history] prunes with. *)
Definition history_window : Z := Z.max global_window per_domain_window.

(** A history list pruned at the clock reading [c]. *)
Definition pruned (c : Z) (l : list Z) : list Z :=
  List.filter (recent c history_window) l.

(** The reading of the claim: the search leaves the global history as it
    was but for one timestamp appended, up to the pruning of old
    entries. *)
Definition records_single_stamp {rt : Runtime} {net : Network}
    (query : string) (max_results : Z) (user_context : option string)
    (self : SafeWebAccess) : Prop :=
  let self' := snd (search_web_safely query max_results user_context self) in
  exists stamp,
    history_of "global" self'
    = pruned (clock self') (history_of "global" self ++ [stamp]).

Section GlobalWindow.

Context {rt : Runtime} {net : Network}.

(** No key of the trusted table occurs in the word ["global"], the key of
    the global history: a fetched domain is then never that key. *)
Definition no_global_key (table : list (string * domain_info)) : Prop :=
  forall trusted_domain info,
    In (trusted_domain, info) table -> str_in trusted_domain "global" = false.

(** The cache lookup of [search_web_safely] finds no fresh entry. *)
Definition cache_miss (query : string) (self : SafeWebAccess) : Prop :=
  forall cache_key data stored,
    generate_cache_key query = Ok cache_key ->
    cache self !! cache_key = Some (data, stored) ->
    cache_ttl <= clock self - stored.

(** The global history of [self] is, up to later pruning, the history
    [g0] with [stamps] appended. *)
Definition accounts_for (g0 stamps : list Z) (self : SafeWebAccess) : Prop :=
  forall c, clock self <= c ->
    pruned c (history_of "global" self) = pruned c (g0 ++ stamps).

Lemma pruned_app c l1 l2 : pruned c (l1 ++ l2) = (pruned c l1 ++ pruned c l2)%list.
Proof. apply List.filter_app. Qed.

Lemma pruned_pruned c1 c2 l : c1 <= c2 -> pruned c2 (pruned c1 l) = pruned c2 l.
Proof.
  intros Hle. unfold pruned. induction l as [|t l IH]; [reflexivity|].
  cbn [List.filter].
  destruct (recent c1 history_window t) eqn:Hone; cbn [List.filter];
    destruct (recent c2 history_window t) eqn:Htwo; rewrite ?IH;
    try reflexivity.
  unfold recent in Hone, Htwo.
  apply Z.ltb_ge in Hone. apply Z.ltb_lt in Htwo. lia.
Qed.

Lemma accounts_for_start self :
  accounts_for (history_of "global" self) [] self.
Proof. intros c _. rewrite app_nil_r. reflexivity. Qed.

(** What [record_request] does to the global history. *)
Lemma record_request_global domain self :
  domain <> Some "global" ->
  history_of "global" (record_request domain self)
  = pruned (clock self) (history_of "global" self ++ [clock self]).
Proof.
  intros Hne. unfold record_request, cleanup_request_history, history_of.
  cbn [request_history set_request_history clock]. rewrite lookup_fmap.
  assert (Hglobal :
    <["global" := (default [] (request_history self !! "global")
                   ++ [clock self])%list]> (request_history self) !! "global"
    = Some (default [] (request_history self !! "global") ++ [clock self])%list)
    by apply lookup_insert_eq.
  destruct domain as [domain|].
  - destruct (String.eqb_spec domain "") as [_|_].
    + rewrite Hglobal. reflexivity.
    + rewrite lookup_insert_ne by congruence. rewrite Hglobal. reflexivity.
  - rewrite Hglobal. reflexivity.
Qed.

Lemma record_request_accounts domain self g0 stamps :
  domain <> Some "global" ->
  accounts_for g0 stamps self ->
  accounts_for g0 (stamps ++ [clock self]) (record_request domain self).
Proof.
  intros Hne Hinv c Hc. rewrite record_request_global by exact Hne.
  change (clock (record_request domain self)) with (clock self) in Hc.
  rewrite pruned_pruned by exact Hc.
  rewrite pruned_app, (Hinv c Hc), app_assoc, (pruned_app c (g0 ++ stamps)).
  reflexivity.
Qed.

Lemma elapse_accounts d self g0 stamps :
  accounts_for g0 stamps self -> accounts_for g0 stamps (elapse d self).
Proof.
  intros Hinv c Hc. apply (Hinv c). cbn [clock elapse] in Hc. lia.
Qed.

(** A URL that [is_trusted_domain] trusts has a host other than
    ["global"]. *)
Lemma trusted_domain_not_global url self scheme netloc :
  no_global_key (trusted_domains self) ->
  urlparse url = Ok (scheme, netloc) ->
  fst (fst (is_trusted_domain url self)) = true ->
  domain_of netloc <> "global".
Proof.
  intros Hkeys Hparse. unfold is_trusted_domain. rewrite Hparse.
  change (if startswith (str_lower netloc) "www."
          then str_drop 4 (str_lower netloc) else str_lower netloc)
    with (domain_of netloc).
  destruct (existsb _ (blocked_domains self)); [discriminate|].
  destruct (find _ (trusted_domains self)) as [[trusted_domain info]|] eqn:Hfind;
    [|discriminate].
  intros _ Hglobal. apply find_some in Hfind as [Hin Hhit].
  rewrite Hglobal, (Hkeys trusted_domain info Hin) in Hhit. discriminate Hhit.
Qed.

(** The effect of a fetch on the state: time passes, the tables stay, and
    the request is recorded exactly when the fetch succeeds. *)
Lemma fetch_safe_content_effect url self :
  let outcome := fetch_safe_content url self in
  trusted_domains (snd outcome) = trusted_domains self /\
  blocked_domains (snd outcome) = blocked_domains self /\
  cache (snd outcome) = cache self /\
  clock self <= clock (snd outcome) /\
  match fst outcome with
  | NotFetched _ => request_history (snd outcome) = request_history self
  | Fetched _ _ _ _ =>
      exists scheme netloc mid,
        urlparse url = Ok (scheme, netloc) /\
        request_history mid = request_history self /\
        clock self <= clock mid /\
        snd outcome = record_request (Some (domain_of netloc)) mid
  end.
Proof.
  cbv zeta. unfold fetch_safe_content.
  destruct (urlparse url) as [[scheme netloc]|msg] eqn:Hparse;
    [|cbn; repeat split; lia].
  destruct (String.eqb scheme "" || String.eqb netloc "");
    [cbn; repeat split; lia|].
  destruct (is_rate_limited _ self); [cbn; repeat split; lia|].
  destruct (http_head (clock self) url) as [head took].
  destruct (head_verdict head); [cbn; repeat split; lia|].
  destruct (http_get _ url) as [reply took'].
  destruct reply as [| | |chunks]; try (cbn; repeat split; lia).
  destruct (apply_content_filters _ _) as [is_safe filter_reason].
  destruct is_safe; cbn [negb]; [|cbn; repeat split; lia].
  cbn [fst snd]. repeat split; try (cbn; lia).
  exists scheme, netloc, (elapse took' (elapse took self)).
  repeat split. cbn. lia.
Qed.

Lemma log_web_request_frame query url success content_length response_time
    trust_score filtered_reason user_context self :
  let self' :=
    log_web_request query url success content_length response_time trust_score
      filtered_reason user_context self in
  trusted_domains self' = trusted_domains self /\
  blocked_domains self' = blocked_domains self /\
  request_history self' = request_history self /\
  cache self' = cache self /\
  clock self' = clock self.
Proof.
  cbv zeta. unfold log_web_request.
  destruct (urlparse url) as [[scheme netloc]|msg]; [|repeat split].
  destruct (db_available (db self)); repeat split.
Qed.

Lemma accounts_for_same_history g0 stamps self self' :
  request_history self' = request_history self ->
  clock self <= clock self' ->
  accounts_for g0 stamps self -> accounts_for g0 stamps self'.
Proof.
  intros Hhistory Hclock Hinv c Hc. unfold history_of. rewrite Hhistory.
  apply (Hinv c). lia.
Qed.

(** The loop over the raw results appends one timestamp to the global
    history for every result it adds to the processed ones. *)
Lemma process_results_accounts query user_context search_results :
  forall processed self g0 stamps,
    no_global_key (trusted_domains self) ->
    accounts_for g0 stamps self ->
    let outcome :=
      process_results query user_context search_results processed self in
    exists stamps',
      accounts_for g0 (stamps ++ stamps') (snd outcome) /\
      length (fst outcome) = (length processed + length stamps')%nat /\
      clock self <= clock (snd outcome) /\
      Forall (fun t => clock self <= t <= clock (snd outcome)) stamps' /\
      cache (snd outcome) = cache self.
Proof.
  induction search_results as [|result rest IH];
    intros processed self g0 stamps Hkeys Hinv; cbv zeta.
  { exists []. cbn [process_results fst snd]. rewrite app_nil_r.
    repeat split; [exact Hinv|cbn; lia|lia|constructor]. }
  cbn [process_results].
  destruct (is_trusted_domain (hit_url result) self)
    as [[is_trusted trust_score] trust_reason] eqn:Htrust.
  destruct (is_trusted && fgt trust_score 0.5) eqn:Hgate.
  - apply andb_true_iff in Hgate as [-> _].
    pose proof (fetch_safe_content_effect (hit_url result) self) as Heffect.
    cbv zeta in Heffect.
    destruct (fetch_safe_content (hit_url result) self)
      as [content_data self1] eqn:Hfetch.
    cbn [fst snd] in Heffect.
    destruct Heffect as (Htable & _ & Hcache & Hclock & Hhistory).
    destruct content_data as [content fetch_time content_length url'|error].
    + destruct Hhistory as (scheme & netloc & mid & Hparse & Hmid & Hmidclock & ->).
      assert (Hdomain : Some (domain_of netloc) <> Some "global").
      { intros Heq. injection Heq as Heq.
        apply (trusted_domain_not_global (hit_url result) self scheme netloc
                 Hkeys Hparse); [rewrite Htrust; reflexivity|exact Heq]. }
      assert (Hinv1 : accounts_for g0 (stamps ++ [clock mid])
                        (record_request (Some (domain_of netloc)) mid)).
      { apply record_request_accounts; [exact Hdomain|].
        apply (accounts_for_same_history g0 stamps self mid Hmid Hmidclock Hinv). }
      set (self1 := record_request (Some (domain_of netloc)) mid) in *.
      pose proof (log_web_request_frame query (hit_url result) true
                    (len content) fetch_time trust_score None
                    user_context self1) as Hlog.
      cbv zeta in Hlog.
      set (self2 := log_web_request query (hit_url result) true
                      (len content) fetch_time trust_score None
                      user_context self1) in *.
      destruct Hlog as (Htable2 & _ & Hhistory2 & Hcache2 & Hclock2).
      assert (Hmid1 : clock self1 = clock mid) by reflexivity.
      match goal with
      | |- context [process_results _ _ rest (processed ++ [?p])%list _] =>
          destruct (IH (processed ++ [p])%list self2 g0
                      (stamps ++ [clock mid])%list)
            as (stamps' & Hinv' & Hlen & Hclock' & Hstamps & Hcache')
      end.
      { rewrite Htable2, Htable. exact Hkeys. }
      { apply (accounts_for_same_history _ _ self1 self2 Hhistory2);
          [lia|exact Hinv1]. }
      cbv zeta in Hinv', Hlen, Hclock', Hstamps, Hcache'.
      exists (clock mid :: stamps').
      split; [rewrite <- app_assoc in Hinv'; exact Hinv'|].
      split; [rewrite Hlen, length_app; cbn; lia|].
      split; [lia|].
      split; [|rewrite Hcache', Hcache2; exact Hcache].
      constructor; [lia|].
      eapply List.Forall_impl; [|exact Hstamps]. cbv beta. intros t Ht. lia.
    + destruct (IH processed self1 g0 stamps)
        as (stamps' & Hinv' & Hlen & Hclock' & Hstamps & Hcache').
      { rewrite Htable. exact Hkeys. }
      { apply (accounts_for_same_history _ _ self self1 Hhistory Hclock Hinv). }
      cbv zeta in Hinv', Hlen, Hclock', Hstamps, Hcache'.
      exists stamps'.
      split; [exact Hinv'|]. split; [exact Hlen|]. split; [lia|].
      split; [|rewrite Hcache'; exact Hcache].
      eapply List.Forall_impl; [|exact Hstamps]. cbv beta. intros t Ht. lia.
  - pose proof (log_web_request_frame query (hit_url result) false 0 0
                  trust_score (Some ("Domain not trusted: " +:+ trust_reason))
                  user_context self) as Hlog.
    cbv zeta in Hlog.
    set (self1 := log_web_request query (hit_url result) false 0 0 trust_score
                    (Some ("Domain not trusted: " +:+ trust_reason))
                    user_context self) in *.
    destruct Hlog as (Htable & _ & Hhistory & Hcache & Hclock).
    destruct (IH processed self1 g0 stamps)
      as (stamps' & Hinv' & Hlen & Hclock' & Hstamps & Hcache').
    { rewrite Htable. exact Hkeys. }
    { apply (accounts_for_same_history _ _ self self1 Hhistory); [lia|exact Hinv]. }
    cbv zeta in Hinv', Hlen, Hclock', Hstamps, Hcache'.
    exists stamps'.
    split; [exact Hinv'|]. split; [exact Hlen|]. split; [lia|].
    split; [|rewrite Hcache'; exact Hcache].
    eapply List.Forall_impl; [|exact Hstamps]. cbv beta. intros t Ht. lia.
Qed.

Lemma simple_search_fallback_frame query max_results self :
  let self' := snd (simple_search_fallback query max_results self) in
  trusted_domains self' = trusted_domains self /\
  request_history self' = request_history self /\
  cache self' = cache self /\
  clock self <= clock self'.
Proof.
  cbv zeta. unfold simple_search_fallback, search_wikipedia.
  destruct (existsb _ (trusted_domains self)).
  - destruct (wikipedia_summary (clock self) _) as [[data|] took];
      cbn; repeat split; lia.
  - cbn. repeat split; lia.
Qed.

(** C5, as the code has it. A search that passes the safety and
    rate-limit stages, misses the cache and gets raw results appends to the
    global rate-limit history one timestamp for the search and one more for
    every page it fetches successfully (each fetch records its request in
    the global history as well as in the history of its domain); the
    history is then pruned of the entries older than the window. A search
    that gets no raw result appends nothing. *)
Theorem search_records_stamp_per_fetch (query : string) (max_results : Z)
    (user_context : option string) (self : SafeWebAccess) :
  no_global_key (trusted_domains self) ->
  cache_miss query self ->
  let outcome := search_web_safely query max_results user_context self in
  (forall data,
     fst outcome = SearchDone data ->
     total_found data = length (results data) /\
     exists stamps,
       length stamps = S (length (results data)) /\
       Forall (fun t => clock self <= t <= clock (snd outcome)) stamps /\
       history_of "global" (snd outcome)
       = pruned (clock (snd outcome)) (history_of "global" self ++ stamps))
  /\
  (fst outcome = NoResults ->
   request_history (snd outcome) = request_history self).
Proof.
  intros Hkeys Hmiss. cbv zeta. unfold search_web_safely.
  destruct (is_safe_query query self) as [[is_safe safety_reason]|msg];
    [|split; [intros data|]; discriminate].
  destruct is_safe; cbn [negb]; [|split; [intros data|]; discriminate].
  destruct (is_rate_limited None self); [split; [intros data|]; discriminate|].
  destruct (generate_cache_key query) as [cache_key|msg] eqn:Hkey;
    [|split; [intros data|]; discriminate].
  assert (Hfresh :
    match cache self !! cache_key with
    | Some (data, stored) =>
        if (clock self - stored <? cache_ttl)%Z then Some data else None
    | None => None
    end = None).
  { destruct (cache self !! cache_key) as [[data stored]|] eqn:Hlookup;
      [|reflexivity].
    pose proof (Hmiss cache_key data stored Hkey Hlookup) as Hstale.
    destruct (Z.ltb_spec (clock self - stored) cache_ttl); [lia|reflexivity]. }
  rewrite Hfresh.
  pose proof (simple_search_fallback_frame query max_results self) as Hframe.
  cbv zeta in Hframe.
  destruct (simple_search_fallback query max_results self)
    as [search_results self1].
  cbn [snd] in Hframe. destruct Hframe as (Htable & Hhistory & _ & Hclock).
  destruct search_results as [|hit hits].
  { split; [intros data; discriminate|]. intros _. exact Hhistory. }
  destruct (process_results_accounts query user_context (hit :: hits) [] self1
              (history_of "global" self) [])
    as (stamps & Hinv & Hlen & Hclock' & Hstamps & _).
  { rewrite Htable. exact Hkeys. }
  { apply (accounts_for_same_history _ _ self self1 Hhistory Hclock).
    apply accounts_for_start. }
  cbv zeta in Hinv, Hlen, Hclock', Hstamps.
  destruct (process_results query user_context (hit :: hits) [] self1)
    as [processed_results self2].
  cbn [fst snd] in *. split; [|discriminate].
  intros data Hdata. injection Hdata as <-. cbn [results total_found].
  split; [reflexivity|].
  assert (Hfinal_clock : forall entries,
            clock (set_cache entries (record_request None self2)) = clock self2)
    by reflexivity.
  assert (Hfinal_history : forall entries,
            history_of "global" (set_cache entries (record_request None self2))
            = history_of "global" (record_request None self2))
    by reflexivity.
  rewrite Hfinal_clock, Hfinal_history.
  exists (stamps ++ [clock self2])%list.
  split; [rewrite length_app, Hlen; cbn; apply Nat.add_1_r|]. split.
  - apply Forall_app. split.
    + eapply List.Forall_impl; [|exact Hstamps]. cbv beta. intros t Ht. lia.
    + constructor; [lia|constructor].
  - rewrite record_request_global by discriminate.
    rewrite !pruned_app, (Hinv (clock self2)) by lia.
    rewrite pruned_app, app_assoc. reflexivity.
Qed.

End GlobalWindow.

(** *** Instances of the search *)

(** The page served in the instances. *)
Definition cat_page : string :=
  "A cat is a small domesticated carnivorous mammal kept as a pet.".

(** The search for ["cats"] on a fresh gateway, every request taking one
    clock unit: the two static results are fetched. *)
Definition cats_search : search_response * SafeWebAccess :=
  search_web_safely (rt := AsciiRuntime.runtime) (net := plain_network cat_page 1)
    "cats" 5 None (init empty_db 0).

Lemma initial_table_has_no_global_key : no_global_key initial_trusted_domains.
Proof.
  intros trusted_domain info Hin. cbn in Hin.
  repeat (destruct Hin as [Heq|Hin]; [injection Heq as <- _; reflexivity|]).
  destruct Hin.
Qed.

(** C5, an instance: the search fetches two pages and leaves three
    timestamps in the global history, which was empty. *)
Lemma search_records_stamp_per_fetch_witness :
  exists data stamps,
    fst cats_search = SearchDone data /\
    length (results data) = 2%nat /\
    length stamps = 3%nat /\
    history_of "global" (snd cats_search)
    = pruned (clock (snd cats_search))
        (history_of "global" (init empty_db 0) ++ stamps).
Proof.
  destruct (search_records_stamp_per_fetch (rt := AsciiRuntime.runtime)
              (net := plain_network cat_page 1) "cats" 5 None (init empty_db 0)
              initial_table_has_no_global_key) as [Hdone _].
  { intros cache_key data stored _ Hlookup. discriminate Hlookup. }
  destruct (fst cats_search) as [| | | |data] eqn:Hresponse;
    try (vm_compute in Hresponse; discriminate Hresponse).
  destruct (Hdone data Hresponse) as (_ & stamps & Hlen & _ & Hhistory).
  assert (Hresults : length (results data) = 2%nat).
  { vm_compute in Hresponse. injection Hresponse as <-. reflexivity. }
  exists data, stamps. split; [reflexivity|]. split; [exact Hresults|].
  split; [rewrite Hlen, Hresults; reflexivity|exact Hhistory].
Defined.

(** C5 as stated fails on that search: three timestamps are appended to
    the global history, not one. *)
Lemma two_fetches_three_stamps :
  ~ records_single_stamp (rt := AsciiRuntime.runtime)
      (net := plain_network cat_page 1) "cats" 5 None (init empty_db 0).
Proof.
  unfold records_single_stamp. cbv zeta. intros [stamp Hsingle].
  apply (f_equal (@length Z)) in Hsingle.
  assert (Hthree :
    length (history_of "global"
              (snd (search_web_safely (rt := AsciiRuntime.runtime)
                      (net := plain_network cat_page 1) "cats" 5 None
                      (init empty_db 0)))) = 3%nat)
    by (vm_compute; reflexivity).
  rewrite Hthree in Hsingle. unfold pruned in Hsingle.
  pose proof (List.filter_length_le
                (recent (clock (snd (search_web_safely
                                       (rt := AsciiRuntime.runtime)
                                       (net := plain_network cat_page 1)
                                       "cats" 5 None (init empty_db 0))))
                   history_window)
                (history_of "global" (init empty_db 0) ++ [stamp])) as Hle.
  rewrite <- Hsingle in Hle.
  change (history_of "global" (init empty_db 0)) with (@nil Z) in Hle.
  cbn [app length] in Hle. lia.
Qed.


(** *** Domain management *)

(** [add_trusted_domain(domain, domain_type, trust_score)]. *)
Definition add_trusted_domain (domain domain_type : string) (trust_score : float)
    (self : SafeWebAccess) : bool * SafeWebAccess :=
  if PrimFloat.leb 0.0 trust_score && PrimFloat.leb trust_score 1.0
     && negb (String.eqb domain "")
  then
    (true,
     {| trusted_domains :=
          FixedContentPolicy.dict_set domain
            {| type := domain_type; trust := trust_score; rate_limit := 10 |}
            (trusted_domains self);
        blocked_domains := blocked_domains self;
        safety_filters := safety_filters self;
        request_history := request_history self;
        cache := cache self;
        db := db self;
        clock := clock self |})
  else (false, self).

(** [remove_trusted_domain(domain)]. *)
Definition remove_trusted_domain (domain : string) (self : SafeWebAccess)
    : bool * SafeWebAccess :=
  if existsb (fun '(trusted_domain, _) => String.eqb trusted_domain domain)
       (trusted_domains self)
  then
    (true,
     {| trusted_domains :=
          FixedContentPolicy.dict_del domain (trusted_domains self);
        blocked_domains := blocked_domains self;
        safety_filters := safety_filters self;
        request_history := request_history self;
        cache := cache self;
        db := db self;
        clock := clock self |})
  else (false, self).

(** [self.trusted_domains.get(domain)]. *)
Definition trusted_entry (domain : string) (self : SafeWebAccess)
    : option domain_info :=
  snd <$> find (fun '(trusted_domain, _) => String.eqb trusted_domain domain)
            (trusted_domains self).

Section DomainManagement.

Context {rt : Runtime}.

Lemma dict_set_lookup (domain other : string) (info : domain_info)
    (table : list (string * domain_info)) :
  snd <$> find (fun '(key, _) => String.eqb key other)
            (FixedContentPolicy.dict_set domain info table)
  = if String.eqb domain other then Some info
    else snd <$> find (fun '(key, _) => String.eqb key other) table.
Proof.
  induction table as [|[key value] table IH]; cbn [FixedContentPolicy.dict_set find].
  - destruct (String.eqb domain other); reflexivity.
  - destruct (String.eqb_spec key domain) as [->|Hne]; cbn [find].
    + destruct (String.eqb domain other); reflexivity.
    + destruct (String.eqb_spec key other) as [->|Hother].
      * destruct (String.eqb_spec domain other) as [->|_];
          [contradiction|reflexivity].
      * exact IH.
Qed.

Lemma dict_del_fresh (domain : string) (table : list (string * domain_info)) :
  existsb (fun '(key, _) => String.eqb key domain) table = false ->
  FixedContentPolicy.dict_del domain table = table.
Proof.
  unfold FixedContentPolicy.dict_del.
  induction table as [|[key value] table IH]; [reflexivity|].
  cbn [existsb List.filter fst]. intros Hfresh.
  apply orb_false_iff in Hfresh as [-> Hfresh]. cbn [negb]. f_equal.
  apply IH. exact Hfresh.
Qed.

Lemma dict_del_set_fresh (domain : string) (info : domain_info)
    (table : list (string * domain_info)) :
  existsb (fun '(key, _) => String.eqb key domain) table = false ->
  FixedContentPolicy.dict_del domain (FixedContentPolicy.dict_set domain info table)
  = table.
Proof.
  unfold FixedContentPolicy.dict_del.
  induction table as [|[key value] table IH];
    cbn [existsb FixedContentPolicy.dict_set List.filter fst].
  - intros _. rewrite String.eqb_refl. reflexivity.
  - intros Hfresh. apply orb_false_iff in Hfresh as [Hkey Hfresh].
    rewrite Hkey. cbn [List.filter fst]. rewrite Hkey. cbn [negb]. f_equal.
    apply IH. exact Hfresh.
Qed.

(** [add_trusted_domain] accepts exactly a non-empty domain with a trust
    score within [0, 1]. A refused call changes nothing. After an accepted
    call the table holds the domain with the given type and score and a
    rate limit of 10, every other domain is as before, and nothing else
    of the gateway has changed. *)
Theorem add_trusted_domain_spec (domain domain_type : string)
    (trust_score : float) (self : SafeWebAccess) :
  let outcome := add_trusted_domain domain domain_type trust_score self in
  (fst outcome = true <->
   fge trust_score 0.0%float = true /\ fge 1.0%float trust_score = true /\
   domain <> "")
  /\
  (fst outcome = false -> snd outcome = self)
  /\
  (fst outcome = true ->
   trusted_entry domain (snd outcome)
   = Some {| type := domain_type; trust := trust_score; rate_limit := 10 |} /\
   (forall other,
      other <> domain ->
      trusted_entry other (snd outcome) = trusted_entry other self) /\
   blocked_domains (snd outcome) = blocked_domains self /\
   request_history (snd outcome) = request_history self /\
   cache (snd outcome) = cache self).
Proof.
  cbv zeta. unfold add_trusted_domain, fge.
  destruct (PrimFloat.leb 0 trust_score); cbn [andb];
    [|repeat split; try discriminate; intros (Habs & _); discriminate Habs].
  destruct (PrimFloat.leb trust_score 1); cbn [andb];
    [|repeat split; try discriminate; intros (_ & Habs & _); discriminate Habs].
  destruct (String.eqb_spec domain "") as [->|Hne]; cbn [negb fst snd].
  - repeat split; try discriminate. intros (_ & _ & Habs). congruence.
  - split; [split; [intros _; repeat split; exact Hne|reflexivity]|].
    split; [discriminate|]. intros _. unfold trusted_entry.
    cbn [trusted_domains]. split.
    + rewrite dict_set_lookup, String.eqb_refl. reflexivity.
    + split; [|repeat split]. intros other Hother. rewrite dict_set_lookup.
      destruct (String.eqb_spec domain other) as [->|_];
        [contradiction|reflexivity].
Qed.

(** [remove_trusted_domain] answers [True] exactly for a domain of the
    table and then takes it out; and removing a domain just added, which
    was not in the table before, gives the gateway back as it was. *)
Theorem remove_trusted_domain_spec (domain : string) (self : SafeWebAccess) :
  let outcome := remove_trusted_domain domain self in
  (fst outcome = true <-> is_Some (trusted_entry domain self))
  /\
  trusted_entry domain (snd outcome) = None
  /\
  (forall domain_type trust_score,
     trusted_entry domain self = None ->
     fst (add_trusted_domain domain domain_type trust_score self) = true ->
     remove_trusted_domain domain
       (snd (add_trusted_domain domain domain_type trust_score self))
     = (true, self)).
Proof.
  cbv zeta.
  assert (Hentry : forall table : list (string * domain_info),
            existsb (fun '(key, _) => String.eqb key domain) table
            = match find (fun '(key, _) => String.eqb key domain) table with
              | Some _ => true
              | None => false
              end).
  { induction table as [|[key value] table IH]; [reflexivity|].
    cbn [existsb find]. destruct (String.eqb key domain); [reflexivity|exact IH]. }
  assert (Hgone : forall table : list (string * domain_info),
            find (fun '(key, _) => String.eqb key domain)
              (FixedContentPolicy.dict_del domain table) = None).
  { unfold FixedContentPolicy.dict_del.
    induction table as [|[key value] table IH]; [reflexivity|].
    cbn [List.filter fst].
    destruct (String.eqb key domain) eqn:Hkey; cbn [negb]; [exact IH|].
    cbn [find]. rewrite Hkey. exact IH. }
  split; [|split].
  - unfold remove_trusted_domain, trusted_entry. rewrite Hentry.
    destruct (find _ (trusted_domains self)) as [[key value]|]; cbn [fst fmap].
    + split; [intros _; eexists; reflexivity|reflexivity].
    + split; [discriminate|]. intros [x Hx]. discriminate Hx.
  - unfold remove_trusted_domain, trusted_entry. rewrite Hentry.
    destruct (find _ (trusted_domains self)) as [[key value]|] eqn:Hfind;
      cbn [snd trusted_domains].
    + rewrite Hgone. reflexivity.
    + rewrite Hfind. reflexivity.
  - intros domain_type trust_score Habsent Hadded.
    assert (Hfresh :
      existsb (fun '(key, _) => String.eqb key domain) (trusted_domains self)
      = false).
    { rewrite Hentry. unfold trusted_entry in Habsent.
      destruct (find _ (trusted_domains self)); [discriminate Habsent|reflexivity]. }
    unfold add_trusted_domain in *.
    destruct (PrimFloat.leb 0 trust_score && PrimFloat.leb trust_score 1
              && negb (String.eqb domain "")); [|discriminate Hadded].
    cbn [snd]. unfold remove_trusted_domain. cbn [trusted_domains].
    assert (Hpresent :
      existsb (fun '(key, _) => String.eqb key domain)
        (FixedContentPolicy.dict_set domain
           {| type := domain_type; trust := trust_score; rate_limit := 10 |}
           (trusted_domains self)) = true).
    { rewrite Hentry.
      pose proof (dict_set_lookup domain domain
                    {| type := domain_type; trust := trust_score;
                       rate_limit := 10 |} (trusted_domains self)) as Hlookup.
      rewrite String.eqb_refl in Hlookup.
      destruct (find _ (FixedContentPolicy.dict_set _ _ _));
        [reflexivity|discriminate Hlookup]. }
    rewrite Hpresent, dict_del_set_fresh by exact Hfresh.
    destruct self; reflexivity.
Qed.

End DomainManagement.

End FixedWebAccess.
